(** * Amazing Marvin Remote MCP: a shallow embedding of the worker

    The development follows the TypeScript sources of the Cloudflare worker:

    - [src/oauth.ts]      (class [OAuthHandler])      -> [Module OAuth]
    - [src/marvin-api.ts] (class [MarvinAPIClient])   -> [Module Marvin]
    - [src/worker.ts]     ([fetch], [handleMCPRequest]) -> [Module Worker]
    - [src/mcp-tools.ts]  (class [MCPToolHandler])    -> [Module Tools]

    The listings, the time tracking and the batch deletion of the client are
    in [Module MarvinOps], its CouchDB writes in [Module Couch].

    Platform services are modelled once, in the first modules: JavaScript
    values and JSON documents ([Module JS]), the Workers KV namespaces
    ([Module KV]), the Web Crypto digest and [btoa] ([Module SHA256],
    [Module Base64]) and the [jose] library ([Module Jose]).

    Conventions.  A JavaScript string is identified with its UTF-8 bytes (a
    Rocq [string]).  [Date.now()] is an integer number of milliseconds and is
    passed to every handler as [now]; values of [crypto.randomUUID()] are
    passed as arguments too.  Asynchronous code is run sequentially, in
    program order.  Exceptions are values of a sum type. *)

From Stdlib Require Import ZArith List String Ascii Bool Lia.
From stdpp Require Import base option list strings pretty gmap.

Import ListNotations.
Local Open Scope string_scope.
Local Open Scope list_scope.
Local Open Scope Z_scope.

(* ===================================================================== *)
(** * JavaScript values and JSON documents *)
(* ===================================================================== *)

Module JS.

(** A JSON document, as [JSON.parse] returns it.  Numbers are integers: the
    worker only stores and compares timestamps and counters. *)
#[warnings="-register-all"]
Inductive json : Type :=
| JNull
| JBool (b : bool)
| JNum (n : Z)
| JStr (s : string)
| JArr (items : list json)
| JObj (members : list (string * json)).

(** A JavaScript value that may be [undefined]: [None] is [undefined]. *)
Abbreviation value := (option json).
Abbreviation undefined := (@None json).

(** [Boolean(v)]: the truthiness test of [if (v)], [!v], [a && b], [a || b]. *)
Definition truthy (v : value) : bool :=
  match v with
  | None => false
  | Some JNull => false
  | Some (JBool b) => b
  | Some (JNum n) => negb (n =? 0)
  | Some (JStr s) => negb (String.eqb s EmptyString)
  | Some (JArr _) => true
  | Some (JObj _) => true
  end.

(** [a || b] *)
Definition or_else (a b : value) : value := if truthy a then a else b.

(** [a === b] where at least one side is a primitive.  Arrays and objects
    are compared by identity in JavaScript; a document that has just been
    parsed is identical to no other value, hence [false]. *)
Definition strict_eq (a b : value) : bool :=
  match a, b with
  | None, None => true
  | Some JNull, Some JNull => true
  | Some (JBool x), Some (JBool y) => Bool.eqb x y
  | Some (JNum x), Some (JNum y) => x =? y
  | Some (JStr x), Some (JStr y) => String.eqb x y
  | _, _ => false
  end.

(** Lookup of the first binding of a key. *)
Fixpoint assoc {A : Type} (k : string) (l : list (string * A)) : option A :=
  match l with
  | [] => None
  | (k', v) :: rest => if String.eqb k' k then Some v else assoc k rest
  end.

(** [o.k] on a value that is neither [undefined] nor [null]: a member of
    an object, [undefined] on the other documents (the member names read
    by the worker are no built-in properties of strings, numbers or
    arrays). *)
Definition member (o : json) (k : string) : value :=
  match o with
  | JObj ms => assoc k ms
  | _ => None
  end.

(** [o?.k] *)
Definition opt_member (o : value) (k : string) : value :=
  match o with
  | None | Some JNull => None
  | Some d => member d k
  end.

(** An object literal [{k1: v1, ...}] as [JSON.stringify] keeps it:
    members whose value is [undefined] are dropped. *)
Definition obj (ms : list (string * value)) : json :=
  JObj (omap (fun kv => match snd kv with
                        | Some d => Some (fst kv, d)
                        | None => None
                        end) ms).

Definition str (s : string) : value := Some (JStr s).
Definition num (n : Z) : value := Some (JNum n).

(** [String(v)], the text of a value inside a template literal.  An array
    is the comma-separated list of its elements, [null] elements being
    empty. *)
Fixpoint String_of_json (d : json) : string :=
  match d with
  | JNull => "null"
  | JBool true => "true"
  | JBool false => "false"
  | JNum n => pretty n
  | JStr s => s
  | JArr items =>
      String.concat ","
        (List.map (fun x => match x with
                            | JNull => EmptyString
                            | _ => String_of_json x
                            end) items)
  | JObj _ => "[object Object]"
  end.

Definition String_of (v : value) : string :=
  match v with
  | None => "undefined"
  | Some d => String_of_json d
  end.

(** A thrown [Error]. *)
Record Error := { message : string }.

End JS.

Import JS.

(* ===================================================================== *)
(** * Workers KV *)
(* ===================================================================== *)

(** A KV namespace maps a key to a text value with an expiration time.  The
    worker only stores [JSON.stringify]'d documents and reads them back with
    [JSON.parse]; the model stores the document itself ([JS.obj] already drops
    what [JSON.stringify] drops).  Expiration times are absolute, in seconds
    since the epoch. *)
Module KV.

Abbreviation namespace := (gmap string (json * Z)).

(** Seconds since the epoch, from [Date.now()]. *)
Definition seconds (now : Z) : Z := now / 1000.

(** [await ns.get(key)]: [None] is [null] (no such key, or expired). *)
Definition get (now : Z) (key : string) (ns : namespace) : option json :=
  match ns !! key with
  | Some (d, expires) => if bool_decide (seconds now < expires) then Some d else None
  | None => None
  end.

(** [await ns.put(key, JSON.stringify(d), { expirationTtl })] *)
Definition put (now : Z) (key : string) (d : json) (expirationTtl : Z)
    (ns : namespace) : namespace :=
  <[key := (d, seconds now + expirationTtl)]> ns.

(** [await ns.delete(key)] *)
Definition delete (key : string) (ns : namespace) : namespace :=
  base.delete key ns.

End KV.

(* ===================================================================== *)
(** * Web Crypto: SHA-256 (FIPS 180-4) *)
(* ===================================================================== *)

(** [crypto.subtle.digest('SHA-256', data)] on a byte array.  Bytes and
    32-bit words are integers; additions are reduced modulo 2^32. *)
Module SHA256.

Definition word (x : Z) : Z := x mod 2 ^ 32.
Definition add (x y : Z) : Z := word (x + y).
Definition rotr (n x : Z) : Z :=
  Z.lor (Z.shiftr x n) (word (Z.shiftl x (32 - n))).
Definition lnot32 (x : Z) : Z := Z.lxor x 0xffffffff.

Definition Ch (x y z : Z) : Z := Z.lxor (Z.land x y) (Z.land (lnot32 x) z).
Definition Maj (x y z : Z) : Z :=
  Z.lxor (Z.lxor (Z.land x y) (Z.land x z)) (Z.land y z).
Definition Sigma0 (x : Z) : Z := Z.lxor (Z.lxor (rotr 2 x) (rotr 13 x)) (rotr 22 x).
Definition Sigma1 (x : Z) : Z := Z.lxor (Z.lxor (rotr 6 x) (rotr 11 x)) (rotr 25 x).
Definition sigma0 (x : Z) : Z := Z.lxor (Z.lxor (rotr 7 x) (rotr 18 x)) (Z.shiftr x 3).
Definition sigma1 (x : Z) : Z := Z.lxor (Z.lxor (rotr 17 x) (rotr 19 x)) (Z.shiftr x 10).

(** The primes below 312, the first sixty-four, by trial division. *)
Definition prime (p : Z) : bool :=
  forallb (fun d => negb (p mod Z.of_nat d =? 0)) (seq 2 (Z.to_nat p - 2)).

Definition primes : list Z := filter prime (map Z.of_nat (seq 2 310)).

(** The integer cube root of a number below [2 ^ 108], one bit at a time. *)
Definition cube_root (n : Z) : Z :=
  fold_left (fun r i => let r' := r + 2 ^ Z.of_nat i in
                        if r' * r' * r' <=? n then r' else r)
            (rev (seq 0 36)) 0.

(** The round constants: the first thirty-two bits of the fractional parts
    of the cube roots of the first sixty-four primes. *)
Definition K : list Z :=
  Eval vm_compute in map (fun p => cube_root (p * 2 ^ 96) mod 2 ^ 32) primes.

(** The eight working variables, and the hash value, as a record. *)
Record state := State { ha : Z; hb : Z; hc : Z; hd : Z; he : Z; hf : Z; hg : Z; hh : Z }.

(** The initial hash value: the first thirty-two bits of the fractional
    parts of the square roots of the first eight primes. *)
Definition initial : state :=
  Eval vm_compute in
    let h i := Z.sqrt (nth i primes 0 * 2 ^ 64) mod 2 ^ 32 in
    State (h 0%nat) (h 1%nat) (h 2%nat) (h 3%nat)
          (h 4%nat) (h 5%nat) (h 6%nat) (h 7%nat).

(** Big-endian bytes of a number, most significant first. *)
Fixpoint be_bytes (n : nat) (x : Z) : list Z :=
  match n with
  | O => []
  | S n' => (Z.shiftr x (8 * Z.of_nat n')) mod 256 :: be_bytes n' x
  end.

Fixpoint be_word (bs : list Z) (acc : Z) : Z :=
  match bs with
  | [] => acc
  | b :: rest => be_word rest (acc * 256 + b)
  end.

(** Section 5.1.1: a [0x80] byte, zero bytes up to 56 modulo 64, and the
    length in bits on eight bytes. *)
Definition pad (msg : list Z) : list Z :=
  let len := Z.of_nat (length msg) in
  let zeros := Z.to_nat ((55 - len) mod 64) in
  msg ++ [0x80] ++ repeat 0 zeros ++ be_bytes 8 (8 * len).

(** Cut a list into pieces of [n] elements; [fuel] bounds the number of
    pieces. *)
Fixpoint chunks {A : Type} (fuel n : nat) (l : list A) : list (list A) :=
  match fuel with
  | O => []
  | S fuel' =>
      match l with
      | [] => []
      | _ => firstn n l :: chunks fuel' n (skipn n l)
      end
  end.

(** Section 6.2.2, step 1: the message schedule.  [window] holds the last
    sixteen words, oldest first. *)
Fixpoint schedule (n : nat) (window : list Z) : list Z :=
  match n with
  | O => []
  | S n' =>
      let w := add (add (add (sigma1 (nth 14 window 0)) (nth 9 window 0))
                        (sigma0 (nth 1 window 0))) (nth 0 window 0) in
      w :: schedule n' (tl window ++ [w])
  end.

(** Section 6.2.2, step 3: one round. *)
Definition round (s : state) (kw : Z * Z) : state :=
  let t1 := add (add (add (add (hh s) (Sigma1 (he s))) (Ch (he s) (hf s) (hg s)))
                     (kw.1)) (kw.2) in
  let t2 := add (Sigma0 (ha s)) (Maj (ha s) (hb s) (hc s)) in
  State (add t1 t2) (ha s) (hb s) (hc s) (add (hd s) t1) (he s) (hf s) (hg s).

Definition block (h : state) (bytes : list Z) : state :=
  let m := map (fun b => be_word b 0) (chunks 16 4 bytes) in
  let w := m ++ schedule 48 m in
  let s := fold_left round (combine K w) h in
  State (add (ha h) (ha s)) (add (hb h) (hb s)) (add (hc h) (hc s)) (add (hd h) (hd s))
        (add (he h) (he s)) (add (hf h) (hf s)) (add (hg h) (hg s)) (add (hh h) (hh s)).

Definition digest (msg : list Z) : list Z :=
  let padded := pad msg in
  let h := fold_left block (chunks (length padded) 64 padded) initial in
  concat (map (be_bytes 4) [ha h; hb h; hc h; hd h; he h; hf h; hg h; hh h]).

End SHA256.

(* ===================================================================== *)
(** * [TextEncoder], [btoa] and the base64url rewriting of the worker *)
(* ===================================================================== *)

Module Base64.

(** [new TextEncoder().encode(s)] *)
Definition encode_utf8 (s : string) : list Z :=
  map (fun c => Z.of_N (N_of_ascii c)) (list_ascii_of_string s).

Definition alphabet : string :=
  "ABCDEFGHIJKLMNOPQRSTUVWXYZabcdefghijklmnopqrstuvwxyz0123456789+/".

Definition digit (i : Z) : ascii :=
  match String.get (Z.to_nat i) alphabet with
  | Some c => c
  | None => "="%char
  end.

(** [btoa(String.fromCharCode(...bytes))] *)
Fixpoint btoa (bytes : list Z) : string :=
  match bytes with
  | [] => EmptyString
  | [a] =>
      String (digit (a / 4))
        (String (digit ((a mod 4) * 16)) "==")
  | [a; b] =>
      String (digit (a / 4))
        (String (digit ((a mod 4) * 16 + b / 16))
           (String (digit ((b mod 16) * 4)) "="))
  | a :: b :: c :: rest =>
      String (digit (a / 4))
        (String (digit ((a mod 4) * 16 + b / 16))
           (String (digit ((b mod 16) * 4 + c / 64))
              (String (digit (c mod 64)) (btoa rest))))
  end.

(** [s.replace(/\+/g, '-').replace(/\//g, '_').replace(/=/g, '')] *)
Fixpoint url_safe (s : string) : string :=
  match s with
  | EmptyString => EmptyString
  | String c rest =>
      if Ascii.eqb c "+" then String "-" (url_safe rest)
      else if Ascii.eqb c "/" then String "_" (url_safe rest)
      else if Ascii.eqb c "=" then url_safe rest
      else String c (url_safe rest)
  end.

End Base64.

(* ===================================================================== *)
(** * The runtime: what the worker calls and does not define *)
(* ===================================================================== *)

(** [JSON.stringify], [Date.prototype.toISOString], the [URL] class and the
    compact JWS layer of the [jose] library (HS256 signature and the
    base64url/JSON coding of header and payload) are operations of the
    runtime.  The development is parametric in them. *)
Class Runtime := {
  (** [JSON.stringify(d)] *)
  JSON_stringify : json -> string;
  (** [JSON.stringify(d, null, 2)] *)
  JSON_stringify_indent : json -> string;
  (** [new Date(ms).toISOString()] *)
  toISOString : Z -> string;
  (** [error.stack] *)
  Error_stack : Error -> value;
  (** [btoa(s)]: throws on a character above U+00FF. *)
  btoa : string -> Error + string;
  (** [u = new URL(s); u.searchParams.set(k, v) ...; u.toString()];
      [new URL] throws on a string that is no URL. *)
  URL_with_params : string -> list (string * string) -> Error + string;
  (** [jose]: sign [header] and [payload] with a key (compact serialization) *)
  jws_sign : json -> json -> string -> string;
  (** [jose]: check the signature of a compact JWS with a key and decode its
      payload; throws on a malformed token or a wrong signature. *)
  jws_verify : string -> string -> Error + json
}.

(** The line feed of ["\n"], and the double quote. *)
Definition LF : string := String (ascii_of_nat 10) EmptyString.
Definition DQUOTE : string := String (ascii_of_nat 34) EmptyString.

(* ===================================================================== *)
(** * HTTP requests and responses *)
(* ===================================================================== *)

Module Http.

(** The two HTML pages of the authorization endpoint, by the values
    interpolated into their markup. *)
Inductive page : Type :=
| AuthorizationForm (client_id redirect_uri state code_challenge
                     code_challenge_method : string)
| AuthorizationFailed.

(** The body of a [Response]: nothing ([null]), a text, an HTML page, or
    a [ReadableStream] given by the chunks enqueued before it is closed. *)
Inductive body : Type :=
| NoBody
| Text (text : string)
| Html (markup : page)
| Stream (chunks : list string).

Record Response := {
  status : Z;
  headers : list (string * string);
  content : body
}.

(** The second argument of [fetch(url, init)]. *)
Record RequestInit := {
  method : string;
  init_headers : list (string * string);
  init_body : option string
}.

(** What the worker reads of the [Response] of a [fetch]: [ok], [status],
    [statusText] and the outcome of [await response.json()]. *)
Record FetchResponse := {
  ok : bool;
  fetch_status : Z;
  statusText : string;
  json_body : Error + json
}.

(** [new Response(JSON.stringify(d), { status, headers })] *)
Definition json_response `{Runtime} (d : json) (st : Z)
    (hs : list (string * string)) : Response :=
  {| status := st; headers := hs; content := Text (JSON_stringify d) |}.

(** [application/x-www-form-urlencoded] or multipart form fields, in
    order.  The worker reads text fields only. *)
Definition FormData := list (string * string).

(** [formData.get(name)], also [url.searchParams.get(name)]: the first
    value of the field, [None] for [null]. *)
Definition get (form : FormData) (name : string) : option string :=
  assoc name form.

(** A form value as a JavaScript value. *)
Definition val (x : option string) : value :=
  match x with
  | Some s => Some (JStr s)
  | None => Some JNull
  end.

(** The text of a form value inside a template literal. *)
Definition template (x : option string) : string :=
  match x with
  | Some s => s
  | None => "null"
  end.

Definition content_json : list (string * string) :=
  [("Content-Type", "application/json")].

Definition content_json_cors : list (string * string) :=
  [("Content-Type", "application/json"); ("Access-Control-Allow-Origin", "*")].

End Http.

(* ===================================================================== *)
(** * The [jose] library: signed tokens with claims *)
(* ===================================================================== *)

Module Jose.

(** [payload[k] = v] on the claims of a [SignJWT] builder. *)
Fixpoint set_assoc (k : string) (v : json) (ms : list (string * json))
    : list (string * json) :=
  match ms with
  | [] => [(k, v)]
  | (k', v') :: rest =>
      if String.eqb k' k then (k, v) :: rest else (k', v') :: set_assoc k v rest
  end.

Definition set_claim (k : string) (v : json) (payload : json) : json :=
  match payload with
  | JObj ms => JObj (set_assoc k v ms)
  | _ => JObj [(k, v)]
  end.

(** [.setIssuedAt()]: the claim [iat] is the current time in seconds. *)
Definition setIssuedAt (now : Z) (payload : json) : json :=
  set_claim "iat" (JNum (KV.seconds now)) payload.

(** [.setExpirationTime('24h')]: the claim [exp] is the current time plus
    the time span, in seconds. *)
Definition hours (n : Z) : Z := n * 3600.

Definition setExpirationTime (now : Z) (span : Z) (payload : json) : json :=
  set_claim "exp" (JNum (KV.seconds now + span)) payload.

(** Modelled from the spec: [jose.jwtVerify] belongs to a library that is
    not part of the sources.  Section 4.2: verification "checks signature
    and expiry".  The signature check and the decoding are [jws_verify];
    a payload whose [exp] claim is not in the future is rejected, and so
    is one whose [exp] is no number.  The thrown errors carry the
    library's error codes. *)
Definition jwtVerify `{Runtime} (token : string) (key : string) (now : Z)
    : Error + json :=
  match jws_verify token key with
  | inl e => inl e
  | inr payload =>
      match member payload "exp" with
      | None => inr payload
      | Some (JNum exp) =>
          if bool_decide (exp <= KV.seconds now)
          then inl {| message := "JWTExpired: exp claim timestamp check failed" |}
          else inr payload
      | Some _ => inl {| message := "JWTClaimValidationFailed: exp claim must be a number" |}
      end
  end.

End Jose.

(* ===================================================================== *)
(** * Exceptions inside a [try] block *)
(* ===================================================================== *)

Definition bind {A B : Type} (m : Error + A) (k : A -> Error + B) : Error + B :=
  match m with
  | inl e => inl e
  | inr a => k a
  end.

Notation "'let*' x ':=' m 'in' k" := (bind m (fun x => k))
  (at level 10, x name, m at level 100, k at level 200).

(** [d.k] on a parsed document: reading a property of [null] throws a
    [TypeError]. *)
Definition prop (d : json) (k : string) : Error + value :=
  match d with
  | JNull => inl {| message := "Cannot read properties of null (reading '" +:+ k +:+ "')" |}
  | _ => inr (member d k)
  end.

(** [v.k] on a value: reading a property of [undefined] throws too. *)
Definition prop_of (v : value) (k : string) : Error + value :=
  match v with
  | None =>
      inl {| message := "Cannot read properties of undefined (reading '" +:+ k +:+ "')" |}
  | Some d => prop d k
  end.

(* ===================================================================== *)
(** * [src/oauth.ts]: class [OAuthHandler] *)
(* ===================================================================== *)

Module OAuth.

Import Http.

Section Handler.

Context `{Runtime}.

(** [this.env.JWT_SECRET]; [this.env.TOKENS] is the state the handlers
    thread. *)
Variable JWT_SECRET : string.

(** ** Token Service *)

(** [generateJWT(payload)] *)
Definition generateJWT (now : Z) (payload : json) : string :=
  jws_sign (obj [("alg", str "HS256")])
    (Jose.setExpirationTime now (Jose.hours 24) (Jose.setIssuedAt now payload))
    JWT_SECRET.

(** [verifyToken(token)]: [None] is [null]. *)
Definition verifyToken (now : Z) (token : string) : option json :=
  match Jose.jwtVerify token JWT_SECRET now with
  | inr payload => Some payload
  | inl _ => None
  end.

(** ** Responses of the token endpoint *)

Definition oauth_error (error : string) (error_description : value) (st : Z)
    : Response :=
  json_response
    (obj [("error", str error); ("error_description", error_description)])
    st content_json.

Definition tokenResponse (accessToken newRefreshToken : string) : json :=
  obj [("access_token", str accessToken);
       ("token_type", str "Bearer");
       ("expires_in", num 86400);
       ("refresh_token", str newRefreshToken);
       ("scope", str "marvin:read marvin:write")].

(** The claims handed to [generateJWT] by both grants. *)
Definition access_claims (now : Z) (clientId : option string) (api_key : value)
    : json :=
  obj [("sub", val clientId);
       ("amazing_marvin_api_key", api_key);
       ("iat", num (now / 1000));
       ("exp", num (now / 1000 + 24 * 3600))].

(** The document stored under [refresh_token:<token>]. *)
Definition refresh_doc (now : Z) (clientId : option string) (api_key : value)
    : json :=
  obj [("client_id", val clientId); ("api_key", api_key); ("created_at", num now)].

(** ** [handleRefreshToken(refreshToken, clientId, clientSecret)]

    [uuid] is the value of [crypto.randomUUID()]. *)
Definition refresh_try (now : Z) (uuid : string)
    (refreshToken clientId clientSecret : option string)
    (TOKENS : KV.namespace) : Error + (KV.namespace * Response) :=
  if negb (truthy (val refreshToken)) || negb (truthy (val clientId)) then
    inr (TOKENS,
         oauth_error "invalid_request" (str "Missing refresh token or client ID") 400)
  else
    match KV.get now ("refresh_token:" +:+ template refreshToken) TOKENS with
    | None =>
        inr (TOKENS,
             oauth_error "invalid_grant" (str "Invalid or expired refresh token") 400)
    | Some tokenData =>
        let* client_id := prop tokenData "client_id" in
        if negb (strict_eq client_id (val clientId)) then
          inr (TOKENS, oauth_error "invalid_grant" (str "Client ID mismatch") 400)
        else
          let* api_key := prop tokenData "api_key" in
          let accessToken := generateJWT now (access_claims now clientId api_key) in
          let newRefreshToken := uuid in
          let TOKENS1 :=
            KV.put now ("refresh_token:" +:+ newRefreshToken)
              (refresh_doc now clientId api_key) (86400 * 30) TOKENS in
          let TOKENS2 :=
            KV.delete ("refresh_token:" +:+ template refreshToken) TOKENS1 in
          inr (TOKENS2,
               json_response (tokenResponse accessToken newRefreshToken)
                 200 content_json_cors)
    end.

Definition handleRefreshToken (now : Z) (uuid : string)
    (refreshToken clientId clientSecret : option string)
    (TOKENS : KV.namespace) : KV.namespace * Response :=
  match refresh_try now uuid refreshToken clientId clientSecret TOKENS with
  | inr r => r
  | inl _ =>
      (TOKENS, oauth_error "server_error" (str "Failed to refresh token") 500)
  end.

(** ** [handleTokenExchange(request)] *)

(** The PKCE computation: SHA-256 of the verifier, base64, made URL-safe
    and stripped of its padding. *)
Definition s256 (codeVerifier : string) : string :=
  Base64.url_safe (Base64.btoa (SHA256.digest (Base64.encode_utf8 codeVerifier))).

(** "PKCE verification takes precedence over client secret": the
    [if ... else if ...] on the code challenge.  [Some r] is an early
    [return r]. *)
Definition verify_client (client authData : json)
    (clientSecret codeVerifier : option string) : Error + option Response :=
  let* code_challenge := prop authData "code_challenge" in
  if truthy code_challenge && truthy (val codeVerifier) then
    let* code_challenge_method := prop authData "code_challenge_method" in
    if strict_eq code_challenge_method (str "S256") then
      let base64 := s256 (template codeVerifier) in
      if negb (strict_eq (str base64) code_challenge) then
        inr (Some (oauth_error "invalid_grant" (str "PKCE verification failed") 400))
      else inr None
    else inr None
  else if truthy (val clientSecret) then
    let* client_secret := prop client "client_secret" in
    if negb (strict_eq client_secret (val clientSecret)) then
      inr (Some (oauth_error "invalid_client" None 401))
    else inr None
  else inr None.

(** The rest of the grant, once client or PKCE verification has passed. *)
Definition redeem_code (now : Z) (uuid : string) (authData : json)
    (code clientId redirectUri : option string)
    (TOKENS : KV.namespace) : Error + (KV.namespace * Response) :=
  let* client_id := prop authData "client_id" in
  if negb (truthy client_id) then
    inr (TOKENS,
         oauth_error "invalid_grant" (str "Authorization code expired or invalid") 400)
  else
    let* redirect_uri := prop authData "redirect_uri" in
    if negb (strict_eq redirect_uri (val redirectUri)) then
      inr (TOKENS, oauth_error "invalid_grant" (str "Redirect URI mismatch") 400)
    else
      let* api_key := prop authData "api_key" in
      let accessToken := generateJWT now (access_claims now clientId api_key) in
      let newRefreshToken := uuid in
      let TOKENS1 :=
        KV.put now ("refresh_token:" +:+ newRefreshToken)
          (refresh_doc now clientId api_key) (86400 * 30) TOKENS in
      let TOKENS2 := KV.delete ("auth_code:" +:+ template code) TOKENS1 in
      inr (TOKENS2,
           json_response (tokenResponse accessToken newRefreshToken)
             200 content_json_cors).

Definition exchange_try (now : Z) (uuid : string) (formData : FormData)
    (TOKENS : KV.namespace) : Error + (KV.namespace * Response) :=
  let grantType := get formData "grant_type" in
  let code := get formData "code" in
  let refreshToken := get formData "refresh_token" in
  let clientId := get formData "client_id" in
  let clientSecret := get formData "client_secret" in
  let redirectUri := get formData "redirect_uri" in
  let codeVerifier := get formData "code_verifier" in
  if strict_eq (val grantType) (str "refresh_token") then
    inr (handleRefreshToken now uuid refreshToken clientId clientSecret TOKENS)
  else if negb (strict_eq (val grantType) (str "authorization_code"))
          || negb (truthy (val code)) || negb (truthy (val clientId)) then
    inr (TOKENS, oauth_error "invalid_request" (str "Missing required parameters") 400)
  else
    match KV.get now ("client:" +:+ template clientId) TOKENS with
    | None => inr (TOKENS, oauth_error "invalid_client" None 401)
    | Some client =>
        let authData :=
          default (JObj []) (KV.get now ("auth_code:" +:+ template code) TOKENS) in
        let* verdict := verify_client client authData clientSecret codeVerifier in
        match verdict with
        | Some response => inr (TOKENS, response)
        | None => redeem_code now uuid authData code clientId redirectUri TOKENS
        end
    end.

(** [formData] is [None] when [request.formData()] throws. *)
Definition handleTokenExchange (now : Z) (uuid : string)
    (formData : option FormData) (TOKENS : KV.namespace)
    : KV.namespace * Response :=
  match
    match formData with
    | Some formData => exchange_try now uuid formData TOKENS
    | None => inl {| message := "Parsing a Body as FormData failed" |}
    end
  with
  | inr r => r
  | inl _ => (TOKENS, oauth_error "server_error" (str "Token exchange failed") 500)
  end.

(** ** [handleClientRegistration(request)]

    [registrationRequest] is [None] when [request.json()] throws;
    [uuid1] and [uuid2] are the two values of [crypto.randomUUID()]. *)
Definition client_doc (now : Z) (clientId clientSecret : string)
    (redirect_uris client_name : value) : json :=
  obj [("client_id", str clientId);
       ("client_secret", str clientSecret);
       ("redirect_uris", redirect_uris);
       ("client_name", client_name);
       ("created_at", num now)].

Definition handleClientRegistration (now : Z) (uuid1 uuid2 : string)
    (registrationRequest : option json) (TOKENS : KV.namespace)
    : KV.namespace * Response :=
  match
    match registrationRequest with
    | None => inl {| message := "Unexpected end of JSON input" |}
    | Some registrationRequest =>
        let clientId := uuid1 in
        let clientSecret := uuid2 in
        let* redirect_uris := prop registrationRequest "redirect_uris" in
        let* client_name := prop registrationRequest "client_name" in
        let TOKENS1 :=
          KV.put now ("client:" +:+ clientId)
            (client_doc now clientId clientSecret
               (or_else redirect_uris (Some (JArr [])))
               (or_else client_name (str "Claude MCP Client")))
            (86400 * 30) TOKENS in
        let registrationResponse :=
          obj [("client_id", str clientId);
               ("client_secret", str clientSecret);
               ("client_id_issued_at", num (now / 1000));
               ("client_secret_expires_at", num 0);
               ("redirect_uris", or_else redirect_uris (Some (JArr [])));
               ("token_endpoint_auth_method", str "client_secret_post");
               ("grant_types",
                 Some (JArr [JStr "authorization_code"; JStr "refresh_token"]));
               ("response_types", Some (JArr [JStr "code"]));
               ("client_name", or_else client_name (str "Claude MCP Client"))] in
        inr (TOKENS1, json_response registrationResponse 201 content_json_cors)
    end
  with
  | inr r => r
  | inl _ =>
      (TOKENS,
       oauth_error "invalid_request" (str "Invalid client registration request") 400)
  end.

(** ** [handleAuthorization(request)]: the [GET] of the authorization
    endpoint.  [searchParams] are the query parameters of the URL. *)
Definition handleAuthorization (now : Z) (uuid : string)
    (searchParams : FormData) (TOKENS : KV.namespace)
    : KV.namespace * Response :=
  let clientId := get searchParams "client_id" in
  let redirectUri := get searchParams "redirect_uri" in
  let state := get searchParams "state" in
  let responseType := get searchParams "response_type" in
  let codeChallenge := get searchParams "code_challenge" in
  let codeChallengeMethod := get searchParams "code_challenge_method" in
  if negb (truthy (val clientId)) || negb (truthy (val redirectUri))
     || negb (strict_eq (val responseType) (str "code")) then
    (TOKENS,
     {| status := 400; headers := []; content := Text "Invalid authorization request" |})
  else
    let TOKENS1 :=
      match KV.get now ("client:" +:+ template clientId) TOKENS with
      | Some _ => TOKENS
      | None =>
          KV.put now ("client:" +:+ template clientId)
            (client_doc now (template clientId) uuid
               (Some (JArr [JStr (template redirectUri)]))
               (str "Claude MCP Auto-registered Client"))
            (86400 * 30) TOKENS
      end in
    let text (x : option string) : string :=
      if truthy (val x) then template x else EmptyString in
    (TOKENS1,
     {| status := 200;
        headers := [("Content-Type", "text/html")];
        content := Html (AuthorizationForm (template clientId) (template redirectUri)
                           (text state) (text codeChallenge)
                           (text codeChallengeMethod)) |}).

(** ** [handleAuthorizationSubmit(request)]: the [POST] of the
    authorization endpoint.

    [probe apiKey] is the outcome of the request to the upstream [/me]
    with that key: [response.ok], or a network error.  [uuid] is the
    value of [crypto.randomUUID()]. *)
Definition auth_code_doc (now : Z)
    (clientId redirectUri apiKey codeChallenge codeChallengeMethod : option string)
    : json :=
  obj [("client_id", val clientId);
       ("redirect_uri", val redirectUri);
       ("api_key", val apiKey);
       ("code_challenge", val codeChallenge);
       ("code_challenge_method", val codeChallengeMethod);
       ("created_at", num now)].

Definition handleAuthorizationSubmit (probe : string -> Error + bool)
    (now : Z) (uuid : string) (formData : option FormData)
    (TOKENS : KV.namespace) : KV.namespace * Response :=
  let failed :=
    {| status := 500; headers := []; content := Text "Authorization failed" |} in
  match formData with
  | None => (TOKENS, failed)
  | Some formData =>
      let clientId := get formData "client_id" in
      let redirectUri := get formData "redirect_uri" in
      let state := get formData "state" in
      let apiKey := get formData "api_key" in
      let codeChallenge := get formData "code_challenge" in
      let codeChallengeMethod := get formData "code_challenge_method" in
      if negb (truthy (val clientId)) || negb (truthy (val redirectUri))
         || negb (truthy (val apiKey)) then
        (TOKENS,
         {| status := 400; headers := []; content := Text "Missing required parameters" |})
      else
        match probe (template apiKey) with
        | inl _ => (TOKENS, failed)
        | inr false =>
            (TOKENS,
             {| status := 400;
                headers := [("Content-Type", "text/html")];
                content := Html AuthorizationFailed |})
        | inr true =>
            let authCode := uuid in
            let TOKENS1 :=
              KV.put now ("auth_code:" +:+ authCode)
                (auth_code_doc now clientId redirectUri apiKey
                   codeChallenge codeChallengeMethod)
                600 TOKENS in
            match
              URL_with_params (template redirectUri)
                (("code", authCode)
                 :: (if truthy (val state) then [("state", template state)] else []))
            with
            | inl _ => (TOKENS1, failed)
            | inr redirectUrl =>
                (TOKENS1,
                 {| status := 302;
                    headers := [("Location", redirectUrl)];
                    content := NoBody |})
            end
        end
  end.

End Handler.

End OAuth.

(* ===================================================================== *)
(** * The environment of a tool call *)
(* ===================================================================== *)

(** The bindings and secrets of [CloudflareEnv] that are plain values; the
    KV namespaces [CACHE] and [TOKENS] are state. *)
Record CloudflareEnv := {
  JWT_SECRET : string;
  MARVIN_SYNC_SERVER : value;
  MARVIN_SYNC_DATABASE : value;
  MARVIN_SYNC_USER : value;
  MARVIN_SYNC_PASSWORD : value
}.

(** What lies outside the worker, for code that makes many requests: the
    network ([fetch] to the upstream API and to CouchDB), the clock and the
    random source, as transitions of an abstract world. *)
Class Environment (World : Type) := {
  fetch : string -> Http.RequestInit -> World -> World * (Error + Http.FetchResponse);
  Date_now : World -> Z;
  randomUUID : World -> World * string
}.

(* ===================================================================== *)
(** * [src/marvin-api.ts]: class [MarvinAPIClient] *)
(* ===================================================================== *)

Module Marvin.

Import Http.

Definition AMAZING_MARVIN_BASE_URL : string := "https://serv.amazingmarvin.com/api".
Definition CACHE_TTL : Z := 600.

(** The fields of a client; its [cache] is the [CACHE] of the state. *)
Record MarvinAPIClient := {
  apiKey : value;
  couchUrl : value;
  couchDb : value;
  couchUser : value;
  couchPassword : value
}.

(** [new MarvinAPIClient(apiKey, cache, env)] *)
Definition new_client (apiKey : value) (env : option CloudflareEnv) : MarvinAPIClient :=
  match env with
  | Some env =>
      {| apiKey := apiKey;
         couchUrl := MARVIN_SYNC_SERVER env;
         couchDb := MARVIN_SYNC_DATABASE env;
         couchUser := MARVIN_SYNC_USER env;
         couchPassword := MARVIN_SYNC_PASSWORD env |}
  | None =>
      {| apiKey := apiKey; couchUrl := None; couchDb := None;
         couchUser := None; couchPassword := None |}
  end.

(** The calls made on the KV namespace, in order. *)
Inductive kv_call : Type :=
| KvGet (key : string)
| KvPut (key : string)
| KvDelete (key : string).

Section Client.

Context `{Runtime} {World : Type} `{Environment World}.

Record State := {
  world : World;
  CACHE : KV.namespace;
  journal : list kv_call
}.

(** ** Asynchronous computations that may throw *)

Definition M (A : Type) : Type := State -> State * (Error + A).

Definition ret {A : Type} (a : A) : M A := fun s => (s, inr a).
Definition throw {A : Type} (e : Error) : M A := fun s => (s, inl e).
Definition lift {A : Type} (r : Error + A) : M A := fun s => (s, r).

Definition mbind {A B : Type} (m : M A) (k : A -> M B) : M B :=
  fun s =>
    match m s with
    | (s', inl e) => (s', inl e)
    | (s', inr a) => k a s'
    end.

(** [try { m } catch (error) { handler }] *)
Definition try_catch {A : Type} (m : M A) (handler : Error -> M A) : M A :=
  fun s =>
    match m s with
    | (s', inl e) => handler e s'
    | (s', inr a) => (s', inr a)
    end.

(** [await Promise.all(ps)].  The result is the array of the values of
    the promises, in the order of the array, or the error of the first one
    that rejected.  The source starts the promises together and lets them
    settle in any order; here they run one after the other, in the order of
    the array, each to its end.  What a statement says of the order of the
    calls of different promises, or of how often they reach the cache or the
    upstream, is said of this order only. *)
Fixpoint Promise_all {A : Type} (ps : list (M A)) : M (list A) :=
  fun s =>
    match ps with
    | [] => (s, inr [])
    | p :: rest =>
        let (s1, r) := p s in
        let (s2, rs) := Promise_all rest s1 in
        (s2, match r, rs with
             | inl e, _ => inl e
             | inr _, inl e => inl e
             | inr a, inr l => inr (a :: l)
             end)
    end.

Notation "'await' x ':=' m 'in' k" := (mbind m (fun x => k))
  (at level 10, x name, m at level 100, k at level 200).

(** [m.then(f)] *)
Definition then_ {A B : Type} (m : M A) (f : A -> B) : M B :=
  await a := m in ret (f a).

(** [Promise.all([p, q])] and [Promise.all([p, q, r])] on promises of
    different types: as [Promise_all]. *)
Definition all2 {A B : Type} (p : M A) (q : M B) : M (A * B) :=
  fun s =>
    let (s1, r1) := p s in
    let (s2, r2) := q s1 in
    (s2, match r1, r2 with
         | inl e, _ => inl e
         | inr _, inl e => inl e
         | inr a, inr b => inr (a, b)
         end).

Definition all3 {A B C : Type} (p : M A) (q : M B) (r : M C) : M (A * B * C) :=
  then_ (all2 p (all2 q r)) (fun x => (x.1, x.2.1, x.2.2)).

(** ** The KV namespace [this.cache] and the network *)

Definition cache_get (key : string) : M (option json) :=
  fun s =>
    ({| world := world s; CACHE := CACHE s; journal := journal s ++ [KvGet key] |},
     inr (KV.get (Date_now (world s)) key (CACHE s))).

Definition cache_put (key : string) (d : json) (expirationTtl : Z) : M unit :=
  fun s =>
    ({| world := world s;
        CACHE := KV.put (Date_now (world s)) key d expirationTtl (CACHE s);
        journal := journal s ++ [KvPut key] |},
     inr tt).

Definition cache_delete (key : string) : M unit :=
  fun s =>
    ({| world := world s;
        CACHE := KV.delete key (CACHE s);
        journal := journal s ++ [KvDelete key] |},
     inr tt).

(** [await fetch(url, init)] *)
Definition fetchM (url : string) (init : RequestInit) : M FetchResponse :=
  fun s =>
    let (w, r) := fetch url init (world s) in
    ({| world := w; CACHE := CACHE s; journal := journal s |}, r).

(** [new Date().toISOString()] and [crypto.randomUUID()] *)
Definition isoNow : M string :=
  fun s => (s, inr (toISOString (Date_now (world s)))).

Definition uuidM : M string :=
  fun s =>
    let (w, u) := randomUUID (world s) in
    ({| world := w; CACHE := CACHE s; journal := journal s |}, inr u).

(** ** Array methods on documents *)

(** The receiver of [xs.map], [xs.filter], [xs.find]: an array, or a
    [TypeError], whose message names the receiver as the source spells it
    ([receiver]). *)
Definition as_array (xs : json) (receiver method : string) : Error + list json :=
  match xs with
  | JArr items => inr items
  | JNull => inl {| message := "Cannot read properties of null (reading '"
                               +:+ method +:+ "')" |}
  | _ => inl {| message := receiver +:+ "." +:+ method +:+ " is not a function" |}
  end.

Fixpoint mapE {A B : Type} (f : A -> Error + B) (l : list A) : Error + list B :=
  match l with
  | [] => inr []
  | x :: rest =>
      let* y := f x in
      let* ys := mapE f rest in
      inr (y :: ys)
  end.

Fixpoint filterE {A : Type} (f : A -> Error + bool) (l : list A) : Error + list A :=
  match l with
  | [] => inr []
  | x :: rest =>
      let* keep := f x in
      let* ys := filterE f rest in
      inr (if keep then x :: ys else ys)
  end.

Fixpoint findE {A : Type} (f : A -> Error + bool) (l : list A) : Error + option A :=
  match l with
  | [] => inr None
  | x :: rest =>
      let* found := f x in
      if found then inr (Some x) else findE f rest
  end.

(** [s.includes(sub)] on strings *)
Fixpoint contains (sub s : string) : bool :=
  String.prefix sub s ||
  match s with
  | EmptyString => false
  | String _ rest => contains sub rest
  end.

(** [c?.includes(x)] on a truthy [c]: an array or a string, or a
    [TypeError], whose message names [c] as the source spells it
    ([receiver]). *)
Definition includes (receiver : string) (c : value) (x : value) : Error + bool :=
  match c with
  | Some (JArr items) => inr (existsb (fun i => strict_eq (Some i) x) items)
  | Some (JStr s) => inr (contains (String_of x) s)
  | _ => inl {| message := receiver +:+ "?.includes is not a function" |}
  end.

(** ** The client *)

Variable this : MarvinAPIClient.

Definition GET : RequestInit :=
  {| method := "GET"; init_headers := []; init_body := None |}.

Definition POST (body : option string) : RequestInit :=
  {| method := "POST"; init_headers := []; init_body := body |}.

(** [makeRequest(endpoint, options)] *)
Definition makeRequest (endpoint : string) (options : RequestInit) : M json :=
  let url := AMAZING_MARVIN_BASE_URL +:+ endpoint in
  let headers :=
    [("X-API-Token", String_of (apiKey this)); ("Content-Type", "application/json")]
    ++ init_headers options in
  await response :=
    fetchM url {| method := method options;
                  init_headers := headers;
                  init_body := init_body options |} in
  if negb (ok response) then
    throw {| message := "Marvin API error: " +:+ pretty (fetch_status response)
                        +:+ " " +:+ statusText response |}
  else lift (json_body response).

(** [getCachedOrFetch(cacheKey, fetchFn, ttl)] *)
Definition getCachedOrFetch (cacheKey : string) (fetchFn : M json) (ttl : Z) : M json :=
  await cached := cache_get cacheKey in
  match cached with
  | Some d => ret d
  | None =>
      await data := fetchFn in
      await _ := cache_put cacheKey data ttl in
      ret data
  end.

(** The interface [StandardResponse]. *)
Record StandardResponse := {
  data : value;
  source : string;
  timestamp : string;
  request_id : string;
  total_items : value;
  summary_message : string;
  item_count : value;
  summary_status : string;
  success : bool
}.

(** [createResponse(data, message, itemCount)] *)
Definition createResponse (data : value) (message : string) (itemCount : value)
    : M StandardResponse :=
  await timestamp := isoNow in
  await request_id := uuidM in
  ret {| data := data;
         source := "amazing_marvin_api";
         timestamp := timestamp;
         request_id := request_id;
         total_items := itemCount;
         summary_message := message;
         item_count := itemCount;
         summary_status := "success";
         success := true |}.

(** [JSON.stringify] of a [StandardResponse] *)
Definition envelope (r : StandardResponse) : json :=
  obj [("data", data r);
       ("metadata",
         Some (obj [("source", str (source r));
                    ("timestamp", str (timestamp r));
                    ("request_id", str (request_id r));
                    ("total_items", total_items r)]));
       ("summary",
         Some (obj [("message", str (summary_message r));
                    ("item_count", item_count r);
                    ("status", str (summary_status r))]));
       ("success", Some (JBool (success r)))].

(** [x ? { id: x._id, title: x.title } : undefined] *)
Definition reference (x : option json) : Error + value :=
  match x with
  | Some x =>
      if truthy (Some x) then
        let* id := prop x "_id" in
        let* title := prop x "title" in
        inr (Some (obj [("id", id); ("title", title)]))
      else inr None
  | None => inr None
  end.

(** [id ? xs.find(p => p._id === id) : undefined], [receiver] being the
    name of [xs] in the source *)
Definition find_by_id (receiver : string) (id : value) (xs : json)
    : Error + option json :=
  if truthy id then
    let* items := as_array xs receiver "find" in
    findE (fun p => let* p_id := prop p "_id" in inr (strict_eq p_id id)) items
  else inr None.

(** [ids ? labels.filter(l => ids?.includes(l._id))
           .map(l => ({ id: l._id, title: l.title })) : []], [ids] being
    [<owner>.labelIds] in the source *)
Definition labels_of (owner : string) (ids : value) (labels : json) : Error + json :=
  if truthy ids then
    let* items := as_array labels "labels" "filter" in
    let* kept :=
      filterE (fun l => let* l_id := prop l "_id" in
                        includes (owner +:+ ".labelIds") ids l_id) items in
    let* refs :=
      mapE (fun l =>
              let* id := prop l "_id" in
              let* title := prop l "title" in
              inr (obj [("id", id); ("title", title)])) kept in
    inr (JArr refs)
  else inr (JArr []).

(** [convertTask(task, projects, categories, labels)] *)
Definition convertTask (task projects categories labels : json) : Error + json :=
  let* projectId := prop task "projectId" in
  let* project := find_by_id "projects" projectId projects in
  let* categoryId := prop task "categoryId" in
  let* category := find_by_id "categories" categoryId categories in
  let* labelIds := prop task "labelIds" in
  let* taskLabels := labels_of "task" labelIds labels in
  let* project_ref := reference project in
  let* category_ref := reference category in
  inr (obj [("id", member task "_id");
            ("title", member task "title");
            ("done", member task "done");
            ("day", member task "day");
            ("due_date", member task "dueDate");
            ("priority", member task "priority");
            ("time_estimate", member task "timeEstimate");
            ("project", project_ref);
            ("category", category_ref);
            ("labels", Some taskLabels)]).

(** [convertProject(project, allProjects, labels)] *)
Definition convertProject (project allProjects labels : json) : Error + json :=
  let* parentId := prop project "parentId" in
  let* parentProject := find_by_id "allProjects" parentId allProjects in
  let* labelIds := prop project "labelIds" in
  let* projectLabels := labels_of "project" labelIds labels in
  let* parent_ref := reference parentProject in
  inr (obj [("id", member project "_id");
            ("title", member project "title");
            ("description", member project "description");
            ("parent_project", parent_ref);
            ("labels", Some projectLabels)]).

(** An array value and its [length] as a number. *)
Definition arr (items : list json) : value := Some (JArr items).
Definition len {A : Type} (l : list A) : Z := Z.of_nat (length l).

(** [xs.map(x => ({ id: x._id, title: x.title }))], [receiver] being the
    name of [xs] in the source *)
Definition references (receiver : string) (xs : json) : Error + list json :=
  let* items := as_array xs receiver "map" in
  mapE (fun x =>
          let* id := prop x "_id" in
          let* title := prop x "title" in
          inr (obj [("id", id); ("title", title)])) items.

(** [getLabels()] *)
Definition getLabels : M StandardResponse :=
  await labels := getCachedOrFetch "labels:all" (makeRequest "/labels" GET) CACHE_TTL in
  await cleanLabels := lift (references "labels" labels) in
  createResponse (arr cleanLabels)
    ("Found " +:+ pretty (len cleanLabels) +:+ " labels") (num (len cleanLabels)).

(** [getCategories()] *)
Definition getCategories : M StandardResponse :=
  await categories :=
    getCachedOrFetch "categories:all" (makeRequest "/categories" GET) CACHE_TTL in
  await cleanCategories := lift (references "categories" categories) in
  createResponse (arr cleanCategories)
    ("Found " +:+ pretty (len cleanCategories) +:+ " categories")
    (num (len cleanCategories)).

(** [r.data] of a response whose data is always set *)
Definition data_of (r : StandardResponse) : json := default JNull (data r).

(** [getProjects()] *)
Definition getProjects : M StandardResponse :=
  await both :=
    all2 (getCachedOrFetch "projects:all" (makeRequest "/categories" GET) CACHE_TTL)
         (then_ getLabels data_of) in
  let categories := both.1 in
  let labels := both.2 in
  await projects :=
    lift (let* items := as_array categories "categories" "filter" in
          filterE (fun cat => let* type := prop cat "type" in
                              inr (strict_eq type (str "project"))) items) in
  await cleanProjects :=
    lift (mapE (fun project => convertProject project (JArr projects) labels)
               projects) in
  createResponse (arr cleanProjects)
    ("Found " +:+ pretty (len cleanProjects) +:+ " projects")
    (num (len cleanProjects)).

(** [getAccountInfo()] *)
Definition getAccountInfo : M StandardResponse :=
  await accountInfo := getCachedOrFetch "account:info" (makeRequest "/me" GET) 3600 in
  createResponse (Some accountInfo) "Retrieved account information" None.

(** ** Cache invalidation *)

(** [s.split('T')[0]] *)
Fixpoint before_T (s : string) : string :=
  match s with
  | EmptyString => EmptyString
  | String c rest => if Ascii.eqb c "T" then EmptyString else String c (before_T rest)
  end.

Definition keysToDelete (today : string) : list string :=
  ["tasks:" +:+ today;
   "tasks:" +:+ today +:+ ":raw";
   "projects:all";
   "all_tasks:none";
   "completed:" +:+ today].

(** [invalidateCache(prefixes)] *)
Definition invalidateCache (prefixes : list string) : M unit :=
  await now := isoNow in
  let today := before_T now in
  await _ := Promise_all (map cache_delete (keysToDelete today)) in
  ret tt.

(** ** Write operations *)

(** [createTask(taskData)] *)
Definition createTask (taskData : json) : M StandardResponse :=
  await payload :=
    lift (let* title := prop taskData "title" in
          let* day := prop taskData "day" in
          let* due_date := prop taskData "due_date" in
          let* time_estimate := prop taskData "time_estimate" in
          let* project_id := prop taskData "project_id" in
          let* category_id := prop taskData "category_id" in
          let* label_ids := prop taskData "label_ids" in
          let* parent_id := prop taskData "parent_id" in
          inr (obj [("title", title);
                    ("day", day);
                    ("dueDate", due_date);
                    ("timeEstimate", time_estimate);
                    ("projectId", project_id);
                    ("categoryId", category_id);
                    ("labelIds", label_ids);
                    ("parentId", parent_id)])) in
  await newTask := makeRequest "/addTask" (POST (Some (JSON_stringify payload))) in
  await _ := invalidateCache ["tasks:"; "all_tasks:"] in
  await refs :=
    all3 (then_ getProjects data_of) (then_ getCategories data_of)
         (then_ getLabels data_of) in
  await cleanTask := lift (convertTask newTask refs.1.1 refs.1.2 refs.2) in
  createResponse (Some cleanTask)
    ("Created task: " +:+ String_of (member cleanTask "title")) None.

(** [markTaskDone(taskId)] *)
Definition markTaskDone (taskId : value) : M StandardResponse :=
  await _ :=
    makeRequest "/edit"
      (POST (Some (JSON_stringify (obj [("itemId", taskId); ("done", Some (JBool true))])))) in
  await _ := invalidateCache ["tasks:"; "completed:"] in
  createResponse (Some (JBool true))
    ("Marked task " +:+ String_of taskId +:+ " as completed") None.

(** [isCouchDBConfigured()] *)
Definition isCouchDBConfigured : bool :=
  truthy (couchUrl this) && truthy (couchDb this) && truthy (couchUser this)
  && truthy (couchPassword this).

(** [createCouchAuthHeader()] *)
Definition createCouchAuthHeader : Error + string :=
  if negb (truthy (couchUser this)) || negb (truthy (couchPassword this)) then
    inl {| message := "CouchDB credentials not configured" |}
  else
    let* b := btoa (String_of (couchUser this) +:+ ":" +:+ String_of (couchPassword this)) in
    inr ("Basic " +:+ b).

(** [deleteTask(taskId)] *)
Definition deleteTask (taskId : value) : M StandardResponse :=
  if negb isCouchDBConfigured then
    throw {| message :=
      "CouchDB not configured. Cannot delete tasks without database access." |}
  else
    let docUrl :=
      String_of (couchUrl this) +:+ "/" +:+ String_of (couchDb this) +:+ "/"
      +:+ String_of taskId in
    await auth := lift createCouchAuthHeader in
    await getResponse :=
      fetchM docUrl {| method := "GET";
                       init_headers := [("Authorization", auth)];
                       init_body := None |} in
    if negb (ok getResponse) then
      throw {| message := "Failed to get task for deletion: "
                          +:+ pretty (fetch_status getResponse) +:+ " "
                          +:+ statusText getResponse |}
    else
      await doc := lift (json_body getResponse) in
      await rev := lift (prop doc "_rev") in
      await auth2 := lift createCouchAuthHeader in
      await deleteResponse :=
        fetchM (docUrl +:+ "?rev=" +:+ String_of rev)
          {| method := "DELETE";
             init_headers := [("Authorization", auth2)];
             init_body := None |} in
      if negb (ok deleteResponse) then
        throw {| message := "CouchDB delete error: "
                            +:+ pretty (fetch_status deleteResponse) +:+ " "
                            +:+ statusText deleteResponse |}
      else
        await _ := invalidateCache ["tasks:"; "all_tasks:"; "completed:"] in
        createResponse (Some (JBool true))
          ("Deleted task " +:+ String_of taskId +:+ " permanently via CouchDB") None.

(** [createProject(projectData)] *)
Definition createProject (projectData : json) : M StandardResponse :=
  await payload :=
    lift (let* title := prop projectData "title" in
          let* description := prop projectData "description" in
          let* parent_id := prop projectData "parent_id" in
          inr (obj [("title", title);
                    ("description", description);
                    ("parentId", parent_id)])) in
  await newProject := makeRequest "/addProject" (POST (Some (JSON_stringify payload))) in
  await _ := invalidateCache ["projects:"] in
  await refs := all2 (then_ getProjects data_of) (then_ getLabels data_of) in
  await cleanProject := lift (convertProject newProject refs.1 refs.2) in
  createResponse (Some cleanProject)
    ("Created project: " +:+ String_of (member cleanProject "title")) None.

(** ** Batch operations *)

(** The callback of [batchMarkDone]:
    [async (id) => { try { await this.markTaskDone(id); return true; }
                     catch { return false; } }] *)
Definition mark_one (id : json) : M bool :=
  try_catch (await _ := markTaskDone (Some id) in ret true) (fun _ => ret false).

(** [batchMarkDone(taskIds)] *)
Definition batchMarkDone (taskIds : json) : M StandardResponse :=
  await ids := lift (as_array taskIds "taskIds" "map") in
  await results := Promise_all (map mark_one ids) in
  let successCount := len (filter (fun r => r = true) results) in
  createResponse (arr (map JBool results))
    ("Marked " +:+ pretty successCount +:+ "/" +:+ pretty (len ids)
     +:+ " tasks as completed") None.

(** The callback of [batchCreateTasks]:
    [async (taskData) => { try { const result = await this.createTask(taskData);
                                 return result.data; }
                           catch (error) { return null; } }] *)
Definition create_one (taskData : json) : M value :=
  try_catch (await result := createTask taskData in ret (data result))
            (fun _ => ret (Some JNull)).

(** [results.filter(t => t !== null)] *)
Definition not_null (results : list value) : list value :=
  filter (fun t => strict_eq t (Some JNull) = false) results.

(** [batchCreateTasks(tasksData)] *)
Definition batchCreateTasks (tasksData : json) : M StandardResponse :=
  await tasks := lift (as_array tasksData "tasksData" "map") in
  await results := Promise_all (map create_one tasks) in
  let successfulTasks := not_null results in
  createResponse (arr (map (default JNull) successfulTasks))
    ("Created " +:+ pretty (len successfulTasks) +:+ "/" +:+ pretty (len tasks)
     +:+ " tasks") None.

End Client.

Notation "'await' x ':=' m 'in' k" := (mbind m (fun x => k))
  (at level 10, x name, m at level 100, k at level 200).

End Marvin.


(* ===================================================================== *)
(** * [src/worker.ts]: the protocol endpoint *)
(* ===================================================================== *)

Module Worker.

Import Http Marvin.

(** What [fetch] reads of a [Request] to the path [/]: its method, its
    headers (under the spelling the worker asks for them with), and the
    outcome of [await request.json()] ([None] when it throws). *)
Record Request := {
  request_method : string;
  request_headers : list (string * string);
  request_json : option json
}.

Definition corsHeaders : list (string * string) :=
  [("Access-Control-Allow-Origin", "*");
   ("Access-Control-Allow-Methods", "GET, POST, OPTIONS");
   ("Access-Control-Allow-Headers", "Content-Type, Authorization");
   ("Access-Control-Max-Age", "86400")].

Definition sse_headers (cors : list (string * string)) : list (string * string) :=
  cors ++ [("Content-Type", "text/event-stream");
           ("Cache-Control", "no-cache");
           ("Connection", "keep-alive")].

Definition json_headers (cors : list (string * string)) : list (string * string) :=
  cors ++ [("Content-Type", "application/json")].

(** What the [switch] of [handleMCPRequest] leaves: a [return] from inside
    it, or a [result] for the response built after it. *)
Inductive outcome : Type :=
| Return (response : Response)
| Result (result : value).

Section Handler.

Context `{Runtime} {World : Type} `{Environment World}.

(** The static Tool Catalog, [MCP_TOOLS] of [src/config.ts]. *)
Variable MCP_TOOLS : list json.

(** [new MCPToolHandler(apiClient).handleToolCall(toolName, params)] of
    [src/mcp-tools.ts], the Operation Dispatcher. *)
Variable handleToolCall : MarvinAPIClient -> value -> json -> M (World := World) json.

(** [{ content: [{ type: 'text', text: JSON.stringify(d, null, 2) }] }] *)
Definition text_content (d : json) : value :=
  Some (obj [("content",
              Some (JArr [obj [("type", str "text");
                               ("text", str (JSON_stringify_indent d))]]))]).

(** The [case 'tools/call'] on one of the two test tools. *)
Definition test_tool (name : value) (userInfo : value) (env : CloudflareEnv)
    : M value :=
  if strict_eq name (str "test_connection") then
    await timestamp := isoNow in
    ret (text_content
           (obj [("status", str "success");
                 ("message", str "MCP server connection test successful");
                 ("server", str "Amazing Marvin Remote MCP");
                 ("version", str "1.0.0");
                 ("timestamp", str timestamp)]))
  else if strict_eq name (str "marvin_test_connection") then
    try_catch
      (await no_key :=
         lift (if negb (truthy userInfo) then inr true
               else let* key := prop_of userInfo "amazing_marvin_api_key" in
                    inr (negb (truthy key))) in
       if no_key : bool then
         await timestamp := isoNow in
         ret (text_content
                (obj [("status", str "auth_required");
                      ("message", str "MCP server connection successful, but Amazing Marvin API key is required");
                      ("instructions", str "Please authorize this connector to access your Amazing Marvin account by clicking the authorization button in Claude");
                      ("server", str "Amazing Marvin Remote MCP");
                      ("version", str "1.0.0");
                      ("timestamp", str timestamp)]))
       else
         await key := lift (prop_of userInfo "amazing_marvin_api_key") in
         let apiClient := new_client key (Some env) in
         await accountInfo := getAccountInfo apiClient in
         (* [accountInfo.result]: a [StandardResponse] has no such member *)
         let result_member : value := None in
         await timestamp := isoNow in
         ret (text_content
                (obj [("status", str "success");
                      ("message", str "Successfully connected to Amazing Marvin API");
                      ("account",
                        Some (obj [("email",
                                     or_else (opt_member result_member "email")
                                             (str "Unknown"));
                                   ("subscriptionType",
                                     or_else (opt_member result_member "subscriptionType")
                                             (str "Unknown"))]));
                      ("timestamp", str timestamp)])))
      (fun error =>
         await timestamp := isoNow in
         ret (text_content
                (obj [("status", str "error");
                      ("message", str "Failed to connect to Amazing Marvin API");
                      ("error", str (message error));
                      ("instructions", str "Please check your Amazing Marvin API key and try again");
                      ("timestamp", str timestamp)])))
  else
    await timestamp := isoNow in
    ret (text_content
           (obj [("status", str "auth_required");
                 ("message", str ("Tool " +:+ DQUOTE +:+ String_of name
                                  +:+ DQUOTE
                                  +:+ " requires authorization to access Amazing Marvin API"));
                 ("instructions", str "Please authorize this connector to access your Amazing Marvin account by clicking the authorization button in Claude");
                 ("tool", name);
                 ("server", str "Amazing Marvin Remote MCP");
                 ("version", str "1.0.0");
                 ("timestamp", str timestamp)])).

(** The [case 'tools/call']. *)
Definition tools_call (params userInfo : value) (env : CloudflareEnv) : M value :=
  if negb (truthy (opt_member params "name")) then
    throw {| message := "Tool name is required" |}
  else
    let name := opt_member params "name" in
    if strict_eq name (str "test_connection")
       || strict_eq name (str "marvin_test_connection") then
      test_tool name userInfo env
    else if negb (truthy userInfo) then
      throw {| message := "Authentication required for tool calls" |}
    else
      await key := lift (prop_of userInfo "amazing_marvin_api_key") in
      let apiClient := new_client key (Some env) in
      let arguments := or_else (opt_member params "arguments") (Some (JObj [])) in
      await toolResult := handleToolCall apiClient name (default JNull arguments) in
      ret (text_content toolResult).

(** The [result] of [case 'initialize']. *)
Definition initialize_result (requestedVersion : value) : json :=
  obj [("protocolVersion", requestedVersion);
       ("capabilities",
         Some (obj [("tools", Some (obj [("listChanged", Some (JBool true))]))]));
       ("serverInfo",
         Some (obj [("name", str "Amazing Marvin Remote MCP");
                    ("version", str "1.0.0")]))].

(** The [switch (method)] of [handleMCPRequest]. *)
Definition dispatch (method params userInfo : value) (env : CloudflareEnv)
    (cors : list (string * string)) (supportsSSE : bool) : M outcome :=
  if strict_eq method (str "initialize") then
    await protocolVersion := lift (prop_of params "protocolVersion") in
    let requestedVersion := or_else protocolVersion (str "2024-11-05") in
    ret (Result (Some (initialize_result requestedVersion)))
  else if strict_eq method (str "tools/list") then
    ret (Result (Some (obj [("tools", Some (JArr MCP_TOOLS))])))
  else if strict_eq method (str "ping") then
    ret (Result (Some (obj [("status", str "pong")])))
  else if strict_eq method (str "prompts/list") then
    ret (Result (Some (obj [("prompts", Some (JArr []))])))
  else if strict_eq method (str "resources/list") then
    ret (Result (Some (obj [("resources", Some (JArr []))])))
  else if strict_eq method (str "notifications/initialized") then
    if supportsSSE then
      ret (Return {| status := 200; headers := sse_headers cors; content := Stream [] |})
    else
      ret (Return {| status := 204; headers := cors; content := NoBody |})
  else if strict_eq method (str "tools/call") then
    await result := tools_call params userInfo env in
    ret (Result result)
  else
    throw {| message := "Unknown method: " +:+ String_of method |}.

(** The delivery of a JSON-RPC message: one server-sent event on a stream
    that is then closed, or a JSON body. *)
Definition deliver (message : json) (cors : list (string * string))
    (supportsSSE : bool) : Response :=
  if supportsSSE then
    {| status := 200;
       headers := sse_headers cors;
       content := Stream ["data: " +:+ JSON_stringify message +:+ LF +:+ LF] |}
  else
    {| status := 200;
       headers := json_headers cors;
       content := Text (JSON_stringify message) |}.

(** The [response] and the [errorResponse] of [handleMCPRequest]. *)
Definition response_of (id result : value) : json :=
  obj [("jsonrpc", str "2.0"); ("id", id); ("result", result)].

Definition errorResponse_of (id : value) (error : Error) : json :=
  obj [("jsonrpc", str "2.0");
       ("id", id);
       ("error",
         Some (obj [("code", num (-32603));
                    ("message", str (message error));
                    ("data", Some (obj [("stack", Error_stack error)]))]))].

(** [handleMCPRequest(mcpRequest, userInfo, env, corsHeaders, supportsSSE)] *)
Definition handleMCPRequest (mcpRequest : json) (userInfo : value)
    (env : CloudflareEnv) (cors : list (string * string)) (supportsSSE : bool)
    (s : State) : State * Response :=
  let method := member mcpRequest "method" in
  let params := member mcpRequest "params" in
  let id := member mcpRequest "id" in
  match dispatch method params userInfo env cors supportsSSE s with
  | (s', inr (Return response)) => (s', response)
  | (s', inr (Result result)) =>
      (s', deliver (response_of id result) cors supportsSSE)
  | (s', inl error) =>
      (s', deliver (errorResponse_of id error) cors supportsSSE)
  end.

(** [(request.headers.get('Accept') || '').includes('text/event-stream')] *)
Definition accepts_sse (headers : list (string * string)) : bool :=
  let acceptHeader := or_else (val (get headers "Accept")) (str EmptyString) in
  contains "text/event-stream" (String_of acceptHeader).

(** The API token that [fetch] hands to every call. *)
Definition hardcoded_userInfo : value :=
  Some (obj [("amazing_marvin_api_key", str "7jRRMJUcqfAxQTFABtEMytsAf4I=")]).

(** The server descriptor of [GET /]. *)
Definition info : json :=
  obj [("name", str "Amazing Marvin Remote MCP");
       ("version", str "1.0.0");
       ("description", str "Remote MCP server for Amazing Marvin productivity system");
       ("tools", num (len MCP_TOOLS));
       ("endpoints",
         Some (obj [("mcp_discovery", str "/.well-known/oauth-authorization-server");
                    ("oauth_register", str "/oauth/register");
                    ("oauth_auth", str "/oauth/authorize");
                    ("oauth_token", str "/oauth/token");
                    ("mcp", str "/")]));
       ("docs", str "https://github.com/your-repo/amazing-marvin-remote-mcp")].

(** [fetch(request, env, ctx)] on a request whose path is [/]. *)
Definition fetch_root (request : Request) (env : CloudflareEnv) (s : State)
    : State * Response :=
  if String.eqb (request_method request) "OPTIONS" then
    (s, {| status := 204; headers := corsHeaders; content := NoBody |})
  else if String.eqb (request_method request) "GET" then
    (s, {| status := 200;
           headers := json_headers corsHeaders;
           content := Text (JSON_stringify_indent info) |})
  else if negb (String.eqb (request_method request) "POST") then
    (s, {| status := 405; headers := corsHeaders; content := Text "Method not allowed" |})
  else
    let supportsSSE := accepts_sse (request_headers request) in
    match request_json request with
    | None =>
        (s, json_response
              (obj [("jsonrpc", str "2.0");
                    ("id", Some JNull);
                    ("error", Some (obj [("code", num (-32700));
                                         ("message", str "Parse error")]))])
              400 (json_headers corsHeaders))
    | Some mcpRequest =>
        match
          (let* method := prop mcpRequest "method" in
           let isToolCall := strict_eq method (str "tools/call") in
           let* toolName :=
             if isToolCall then
               let* params := prop mcpRequest "params" in
               inr (opt_member params "name")
             else inr (Some JNull) in
           let isUnauthenticatedTool :=
             isToolCall && (strict_eq toolName (str "test_connection")
                            || strict_eq toolName (str "marvin_test_connection")) in
           let requiresAuth := false in
           let userInfo := hardcoded_userInfo in
           inr userInfo)
        with
        | inr userInfo => handleMCPRequest mcpRequest userInfo env corsHeaders supportsSSE s
        | inl error =>
            (s, json_response
                  (obj [("error", str "Internal server error");
                        ("message", str (message error))])
                  500 (json_headers corsHeaders))
        end
    end.

End Handler.

End Worker.

(* ===================================================================== *)
(** * A simulated runtime, to run the handlers on concrete requests *)
(* ===================================================================== *)

(** The theorems below hold in every runtime and every environment.  The
    examples need one of each to compute in: a JSON printer, a calendar, a
    JWS layer that verifies a token by signing the payloads it knows and
    comparing, and a small upstream that refuses every request whose body
    mentions [bad]. *)
Module Sim.

Import Http.

Fixpoint escape (s : string) : string :=
  match s with
  | EmptyString => EmptyString
  | String c rest =>
      if Ascii.eqb c (ascii_of_nat 34) || Ascii.eqb c (ascii_of_nat 92)
      then String (ascii_of_nat 92) (String c (escape rest))
      else String c (escape rest)
  end.

Definition quoted (s : string) : string := DQUOTE +:+ escape s +:+ DQUOTE.

(** Compact JSON text. *)
Fixpoint stringify (d : json) : string :=
  match d with
  | JNull => "null"
  | JBool true => "true"
  | JBool false => "false"
  | JNum n => pretty n
  | JStr s => quoted s
  | JArr items => "[" +:+ String.concat "," (List.map stringify items) +:+ "]"
  | JObj members =>
      "{" +:+ String.concat ","
               (List.map (fun kv => let (k, v) := kv : string * json in
                                    quoted k +:+ ":" +:+ stringify v) members)
      +:+ "}"
  end.

(** Decimal digits, padded with zeros on the left to a width. *)
Definition padded (width : nat) (n : Z) : string :=
  let digits := pretty n in
  String.concat EmptyString (repeat "0" (width - String.length digits)) +:+ digits.

(** The civil date of a day number (days since 1970-01-01). *)
Definition civil (days : Z) : Z * Z * Z :=
  let z := days + 719468 in
  let era := z / 146097 in
  let doe := z - era * 146097 in
  let yoe := (doe - doe / 1460 + doe / 36524 - doe / 146096) / 365 in
  let doy := doe - (365 * yoe + yoe / 4 - yoe / 100) in
  let mp := (5 * doy + 2) / 153 in
  let d := doy - (153 * mp + 2) / 5 + 1 in
  let m := if mp <? 10 then mp + 3 else mp - 9 in
  let y := yoe + era * 400 + (if m <=? 2 then 1 else 0) in
  (y, m, d).

Definition iso (ms : Z) : string :=
  let '(y, m, d) := civil (ms / 86400000) in
  let t := ms mod 86400000 in
  padded 4 y +:+ "-" +:+ padded 2 m +:+ "-" +:+ padded 2 d +:+ "T"
  +:+ padded 2 (t / 3600000) +:+ ":" +:+ padded 2 (t / 60000 mod 60) +:+ ":"
  +:+ padded 2 (t / 1000 mod 60) +:+ "." +:+ padded 3 (t mod 1000) +:+ "Z".

Definition ascii_only (s : string) : bool :=
  forallb (fun b => b <? 128) (Base64.encode_utf8 s).

Definition query (params : list (string * string)) : string :=
  String.concat "&" (List.map (fun kv => kv.1 +:+ "=" +:+ kv.2) params).

(** The compact serialization: header, payload and a keyed digest of both. *)
Definition sign (header payload : json) (key : string) : string :=
  let input := stringify header +:+ "." +:+ stringify payload in
  Base64.url_safe (Base64.btoa (Base64.encode_utf8 input)) +:+ "."
  +:+ Base64.url_safe (Base64.btoa (SHA256.digest (Base64.encode_utf8 (key +:+ input)))).

(** Verification against the payloads [known] to the simulation: a token
    is accepted when it is the signature of one of them under the key. *)
Definition verify (known : list json) (token key : string) : Error + json :=
  match
    List.find (fun p => String.eqb (sign (obj [("alg", str "HS256")]) p key) token) known
  with
  | Some p => inr p
  | None => inl {| message := "signature verification failed" |}
  end.

Definition runtime (known : list json) : Runtime := {|
  JSON_stringify := stringify;
  JSON_stringify_indent := stringify;
  toISOString := iso;
  Error_stack := fun e => Some (JStr ("Error: " +:+ message e));
  btoa := fun s =>
    if ascii_only s then inr (Base64.btoa (Base64.encode_utf8 s))
    else inl {| message := "Invalid character" |};
  URL_with_params := fun url params =>
    if Marvin.contains "://" url then inr (url +:+ "?" +:+ query params)
    else inl {| message := "Invalid URL" |};
  jws_sign := sign;
  jws_verify := verify known
|}.

(** The simulated world: a clock and a counter. *)
Record world := { clock : Z; serial : Z }.

Definition tick (w : world) : world :=
  {| clock := clock w + 1; serial := serial w + 1 |}.

(** The simulated upstream: a request whose URL or body mentions [bad] is
    answered [404 Not Found]; [/addTask] and [/addProject] answer with the
    new document, the listings with an empty array, the rest with an empty
    object. *)
Definition respond (url : string) (init : RequestInit) (w : world) : FetchResponse :=
  let body := default EmptyString (init_body init) in
  if Marvin.contains "bad" url || Marvin.contains "bad" body then
    {| ok := false; fetch_status := 404; statusText := "Not Found";
       json_body := inr (JObj []) |}
  else if Marvin.contains "/addTask" url || Marvin.contains "/addProject" url then
    {| ok := true; fetch_status := 200; statusText := "OK";
       json_body := inr (JObj [("_id", JStr ("doc-" +:+ pretty (serial w)));
                               ("title", JStr body)]) |}
  else if Marvin.contains "/labels" url || Marvin.contains "/categories" url then
    {| ok := true; fetch_status := 200; statusText := "OK"; json_body := inr (JArr []) |}
  else
    {| ok := true; fetch_status := 200; statusText := "OK"; json_body := inr (JObj []) |}.

Definition environment : Environment world := {|
  fetch := fun url init w => (tick w, inr (respond url init w));
  Date_now := clock;
  randomUUID := fun w => (tick w, "uuid-" +:+ pretty (serial w))
|}.

End Sim.

(* ===================================================================== *)
(** * Concrete runs of the authorization flow *)
(* ===================================================================== *)

(** A client registers, the user submits an upstream credential that the
    probe accepts, and the client comes to the token endpoint.  Three
    authorizations are prepared: one with an S256 challenge for the
    verifier [abc], one with the same challenge and no challenge method, one
    without PKCE. *)
Module Scenario.

Import Http OAuth.

Definition rt : Runtime := Sim.runtime [].

Definition secret : string := "jwt-secret".

Definition probe_ok (apiKey : string) : Error + bool := inr true.

Definition registered : KV.namespace :=
  (handleClientRegistration (H := rt) 1000000 "client-1" "secret-1"
     (Some (JObj [("redirect_uris", JArr [JStr "http://localhost/cb"])])) ∅).1.

(** The S256 challenge of the verifier [abc]. *)
Definition challenge : string := "ungWv48Bz-pBQUDeXa4iI7ADYaOWF3qctBD_YfIAFa0".

Definition submit (fields : FormData) : KV.namespace :=
  (handleAuthorizationSubmit (H := rt) probe_ok 1001000 "code-1"
     (Some ([("client_id", "client-1");
             ("redirect_uri", "http://localhost/cb");
             ("state", "xyz");
             ("api_key", "marvin-key")] ++ fields))
     registered).1.

Definition authorized_s256 : KV.namespace :=
  submit [("code_challenge", challenge); ("code_challenge_method", "S256")].

Definition authorized_no_method : KV.namespace :=
  submit [("code_challenge", challenge); ("code_challenge_method", EmptyString)].

Definition authorized_no_pkce : KV.namespace :=
  submit [("code_challenge", EmptyString); ("code_challenge_method", EmptyString)].

Definition exchange_form (fields : FormData) : FormData :=
  [("grant_type", "authorization_code");
   ("code", "code-1");
   ("client_id", "client-1")] ++ fields.

(** The right verifier, with a client secret that is not the client's. *)
Definition form_verifier_wrong_secret : FormData :=
  exchange_form [("client_secret", "not-the-secret");
                 ("redirect_uri", "http://localhost/cb");
                 ("code_verifier", "abc")].

(** A verifier that is not the one of the challenge. *)
Definition form_other_verifier : FormData :=
  exchange_form [("redirect_uri", "http://localhost/cb");
                 ("code_verifier", "not-abc")].

(** A verifier that is not the one of the challenge, with a client secret
    that is not the client's. *)
Definition form_other_verifier_wrong_secret : FormData :=
  exchange_form [("client_secret", "not-the-secret");
                 ("redirect_uri", "http://localhost/cb");
                 ("code_verifier", "not-abc")].

(** Another redirect URI, with the client's secret and with a wrong one. *)
Definition form_other_redirect : FormData :=
  exchange_form [("client_secret", "secret-1");
                 ("redirect_uri", "http://elsewhere/cb")].

Definition form_other_redirect_wrong_secret : FormData :=
  exchange_form [("client_secret", "not-the-secret");
                 ("redirect_uri", "http://elsewhere/cb")].

(** The store after the first exchange of the S256 authorization. *)
Definition exchanged : KV.namespace :=
  (handleTokenExchange (H := rt) secret 1002000 "refresh-1"
     (Some form_verifier_wrong_secret) authorized_s256).1.

End Scenario.

(* ===================================================================== *)
(** * Concrete runs of the API client and of the protocol endpoint *)
(* ===================================================================== *)

(** The simulated world on 2026-11-02, an empty cache, a client, and a
    batch of two tasks of which the simulated upstream refuses the second. *)
Module Runs.

Import Http Marvin.

Definition rt : Runtime := Sim.runtime [].

Definition start : State (World := Sim.world) :=
  {| world := {| Sim.clock := 1793577600123; Sim.serial := 0 |};
     CACHE := ∅;
     journal := [] |}.

Definition client : MarvinAPIClient := new_client (str "an-api-key") None.

Definition two_tasks : list json :=
  [JObj [("title", JStr "write the report")];
   JObj [("title", JStr "a bad task")]].

Definition three_ids : list json := [JStr "task-1"; JStr "bad-task"; JStr "task-3"].

Definition env : CloudflareEnv :=
  {| JWT_SECRET := "jwt-secret";
     MARVIN_SYNC_SERVER := None;
     MARVIN_SYNC_DATABASE := None;
     MARVIN_SYNC_USER := None;
     MARVIN_SYNC_PASSWORD := None |}.

(** An Operation Dispatcher that knows no tool. *)
Definition no_tools (apiClient : MarvinAPIClient) (toolName : value) (params : json)
    : M (World := Sim.world) json :=
  throw {| message := "Unknown tool: " +:+ String_of toolName |}.

Definition post (body : json) : Worker.Request :=
  {| Worker.request_method := "POST";
     Worker.request_headers := [("Content-Type", "application/json")];
     Worker.request_json := Some body |}.

Definition initialize_empty_params : json :=
  JObj [("jsonrpc", JStr "2.0"); ("id", JNum 1); ("method", JStr "initialize");
        ("params", JObj [])].

Definition initialize_no_params : json :=
  JObj [("jsonrpc", JStr "2.0"); ("id", JNum 1); ("method", JStr "initialize")].

End Runs.

(* ===================================================================== *)
(** * Notions used in the statements *)
(* ===================================================================== *)

Module Notions.

Import Http.

(** The condition under which the [if ... else if ...] on the code
    challenge lets a request through to the checks on the code: PKCE
    verification applies, or no client secret came with the request, or the
    secret is the client's. *)
Definition client_check_passes (client authData : json)
    (clientSecret codeVerifier : option string) : bool :=
  (truthy (member authData "code_challenge") && truthy (val codeVerifier))
  || negb (truthy (val clientSecret))
  || strict_eq (member client "client_secret") (val clientSecret).

(** The claims [generateJWT] signs at time [t0]. *)
Definition issued_claims (t0 : Z) (payload : json) : json :=
  Jose.setExpirationTime t0 (Jose.hours 24) (Jose.setIssuedAt t0 payload).

Section Runs.

Context `{Runtime} {World : Type} `{Environment World}.

(** The outcomes of running [f] on each element of a list, one after the
    other, each run starting in the state the one before it left; and the
    state the last run leaves. *)
Fixpoint attempts {A B : Type} (f : A -> Marvin.M (World := World) B) (xs : list A)
    (s : Marvin.State) : list (Error + B) :=
  match xs with
  | [] => []
  | x :: rest => (f x s).2 :: attempts f rest (f x s).1
  end.

Fixpoint after {A B : Type} (f : A -> Marvin.M (World := World) B) (xs : list A)
    (s : Marvin.State) : Marvin.State :=
  match xs with
  | [] => s
  | x :: rest => after f rest (f x s).1
  end.

Definition succeeded {B : Type} (o : Error + B) : bool :=
  match o with
  | inr _ => true
  | inl _ => false
  end.

(** The number of runs that threw, and of runs that did not. *)
Definition failures {B : Type} (os : list (Error + B)) : nat :=
  length (List.filter (fun o => negb (succeeded o)) os).

Definition successes {B : Type} (os : list (Error + B)) : nat :=
  length (List.filter succeeded os).

(** The entries of the data of a batch response that stand for an item that
    failed ([false] or [null]), and the others. *)
Definition failure_entry (d : json) : bool :=
  match d with
  | JBool false | JNull => true
  | _ => false
  end.

Definition entries (r : Marvin.StandardResponse) : list json :=
  match Marvin.data r with
  | Some (JArr items) => items
  | _ => []
  end.

Definition reported_failures (r : Marvin.StandardResponse) : nat :=
  length (List.filter failure_entry (entries r)).

Definition reported_successes (r : Marvin.StandardResponse) : nat :=
  length (List.filter (fun d => negb (failure_entry d)) (entries r)).

(** The documents that the runs that did not throw answered with, in the
    order of the runs. *)
Definition answered (os : list (Error + Marvin.StandardResponse)) : list json :=
  omap (fun o => match o with
                 | inr r => Marvin.data r
                 | inl _ => None
                 end) os.

(** The keys of the [delete] calls of a journal. *)
Definition deleted (calls : list Marvin.kv_call) : list string :=
  omap (fun c => match c with
                 | Marvin.KvDelete k => Some k
                 | _ => None
                 end) calls.

(** The date part of the current time in a state. *)
Definition today (s : Marvin.State (World := World)) : string :=
  Marvin.before_T (toISOString (Date_now (Marvin.world s))).

(** From [s] to [s'] the journal grew by calls that delete exactly the keys
    [ds], in order, and every other key that had an entry still has one. *)
Definition evicts (ds : list string) (s s' : Marvin.State (World := World)) : Prop :=
  exists calls,
    Marvin.journal s' = Marvin.journal s ++ calls /\
    deleted calls = ds /\
    forall k, k ∉ ds ->
      is_Some (Marvin.CACHE s !! k) -> is_Some (Marvin.CACHE s' !! k).

(** A computation that deletes nothing from the cache. *)
Definition quiet {A : Type} (m : Marvin.M (World := World) A) : Prop :=
  forall s, evicts [] s (m s).1.

(** A write operation: in every state, either it fails having deleted
    nothing, or it has deleted exactly the five keys of [keysToDelete], for
    the date of a state [s1] it went through. *)
Definition write_evicts {A : Type} (m : Marvin.M (World := World) A) : Prop :=
  forall s,
    (evicts [] s (m s).1 /\ succeeded (m s).2 = false)
    \/ exists s1, evicts (Marvin.keysToDelete (today s1)) s (m s).1.

End Runs.

End Notions.

Import Notions.

(** One step through a [let*], an [if] or a [match] in a hypothesis. *)
Ltac step_in H :=
  match type of H with
  | context [bind ?m _] => let E := fresh "E" in destruct m eqn:E; cbn [bind] in H
  | context [if ?c then _ else _] => let E := fresh "E" in destruct c eqn:E
  | context [match ?x with _ => _ end] => let E := fresh "E" in destruct x eqn:E
  end; simplify_eq.

(** Case analysis along every [let*], [if] and [match] of the hypotheses. *)
Ltac crunch :=
  repeat (match goal with
          | H : context [bind ?m _] |- _ =>
              let E := fresh "E" in destruct m eqn:E; cbn [bind] in H
          | H : context [if ?c then _ else _] |- _ =>
              let E := fresh "E" in destruct c eqn:E
          | H : context [match ?x with _ => _ end] |- _ =>
              let E := fresh "E" in destruct x eqn:E
          end; simplify_eq);
  simplify_eq.

(* ===================================================================== *)
(** * Notions on base64url text *)
(* ===================================================================== *)

Module Alphabet.

(** A character of the base64url alphabet of RFC 4648, section 5. *)
Definition base64url_char (c : ascii) : bool :=
  let n := nat_of_ascii c in
  ((65 <=? n) && (n <=? 90) || (97 <=? n) && (n <=? 122) || (48 <=? n) && (n <=? 57)
   || (n =? 45) || (n =? 95))%nat.

(** What [url_safe] makes of one base64 digit. *)
Definition url_char (c : ascii) : ascii :=
  if Ascii.eqb c "+" then "-"%char else if Ascii.eqb c "/" then "_"%char else c.

(** The length of the unpadded base64 text of [n] bytes. *)
Definition unpadded (n : nat) : nat :=
  (4 * (n / 3) + (if n mod 3 =? 0 then 0 else n mod 3 + 1))%nat.

End Alphabet.

(* ===================================================================== *)
(** * [src/marvin-api.ts], continued: listings, time tracking, deletion *)
(* ===================================================================== *)

Module MarvinOps.

Import Http Marvin.

Section Client.

Context `{Runtime} {World : Type} `{Environment World}.

Variable this : MarvinAPIClient.

Local Abbreviation M := (@Marvin.M World).

(** [Promise.all([p, q, r, t])] on promises of different types. *)
Definition all4 {A B C D : Type} (p : M A) (q : M B) (r : M C) (t : M D)
    : M (A * B * C * D) :=
  then_ (all2 p (all3 q r t)) (fun x => (x.1, x.2.1.1, x.2.1.2, x.2.2)).

(** [tasks.map((task) => this.convertTask(task, projects, categories, labels))] *)
Definition clean_tasks (receiver : string) (tasks projects categories labels : json)
    : Error + list json :=
  let* items := as_array tasks receiver "map" in
  mapE (fun task => convertTask task projects categories labels) items.

(** The listings of tasks differ in the cache key, the endpoint, the name
    of the array of upstream tasks and the message: [Promise.all] of the
    cached request and the three reference listings, then the conversion of
    each task. *)
Definition task_listing (cacheKey endpoint receiver : string) (message : Z -> string)
    : M StandardResponse :=
  await got :=
    all4 (getCachedOrFetch cacheKey (makeRequest this endpoint GET) CACHE_TTL)
         (then_ (getProjects this) data_of)
         (then_ (getCategories this) data_of)
         (then_ (getLabels this) data_of) in
  await cleanTasks :=
    lift (clean_tasks receiver got.1.1.1 got.1.1.2 got.1.2 got.2) in
  createResponse (arr cleanTasks) (message (len cleanTasks)) (num (len cleanTasks)).

(** [getTasks()] *)
Definition getTasks : M StandardResponse :=
  await now := isoNow in
  let cacheKey := "tasks:" +:+ before_T now in
  task_listing (cacheKey +:+ ":raw") "/todayItems" "tasks"
    (fun n => "Found " +:+ pretty n +:+ " scheduled tasks for today").

(** [getDueItems()] *)
Definition getDueItems : M StandardResponse :=
  await now := isoNow in
  let cacheKey := "due_items:" +:+ before_T now in
  task_listing cacheKey "/dueItems" "tasks"
    (fun n => "Found " +:+ pretty n +:+ " due/overdue items").

(** A parameter with the default value [7]. *)
Definition days_or_default (days : value) : value :=
  match days with
  | None => num 7
  | Some _ => days
  end.

(** [getCompletedTasks(days = 7)] *)
Definition getCompletedTasks (days : value) : M StandardResponse :=
  let days := days_or_default days in
  await now := isoNow in
  let cacheKey := "completed:" +:+ String_of days +:+ ":" +:+ before_T now in
  task_listing cacheKey ("/doneItems?days=" +:+ String_of days) "completedTasks"
    (fun n => "Found " +:+ pretty n +:+ " completed tasks in the last "
              +:+ String_of days +:+ " days").

(** [getCompletedTasksForDate(date)] *)
Definition getCompletedTasksForDate (date : value) : M StandardResponse :=
  let cacheKey := "completed:" +:+ String_of date in
  task_listing cacheKey ("/doneItems?date=" +:+ String_of date) "completedTasks"
    (fun n => "Found " +:+ pretty n +:+ " completed tasks on " +:+ String_of date).

(** [getTimeTrackingSummary(days = 7)] *)
Definition getTimeTrackingSummary (days : value) : M StandardResponse :=
  let days := days_or_default days in
  await now := isoNow in
  let cacheKey := "time_tracking:" +:+ String_of days +:+ ":" +:+ before_T now in
  await summary :=
    getCachedOrFetch cacheKey
      (makeRequest this ("/timeTrackingDailySummary?days=" +:+ String_of days) GET)
      CACHE_TTL in
  createResponse (Some summary)
    ("Retrieved time tracking summary for " +:+ String_of days +:+ " days") None.

(** [startTimeTracking(taskId)] *)
Definition startTimeTracking (taskId : value) : M StandardResponse :=
  await result :=
    makeRequest this "/startTimeTracking"
      (POST (Some (JSON_stringify (obj [("itemId", taskId)])))) in
  createResponse (Some result)
    ("Started time tracking for task " +:+ String_of taskId) None.

(** [stopTimeTracking()] *)
Definition stopTimeTracking : M StandardResponse :=
  await result := makeRequest this "/stopTimeTracking" (POST None) in
  createResponse (Some result) "Stopped time tracking" None.

(** ** [batchDeleteTasks(taskIds)]

    The callback pushes onto the arrays [results], [deleted] and [failed]
    when its deletion settles.  With the deletions run one after the other
    the pushes come in the order of [taskIds]; the outcome of one callback
    is what it pushes: the identifier, or the entry of [failed]. *)
Definition delete_one (id : json) : M (json + json) :=
  try_catch (await _ := deleteTask this (Some id) in ret (inl id))
            (fun error =>
               ret (inr (obj [("id", Some id); ("error", str (message error))]))).

Definition pushed_results (outcomes : list (json + json)) : list bool :=
  map (fun o => match o with inl _ => true | inr _ => false end) outcomes.

Definition pushed_deleted (outcomes : list (json + json)) : list json :=
  omap (fun o => match o with inl id => Some id | inr _ => None end) outcomes.

Definition pushed_failed (outcomes : list (json + json)) : list json :=
  omap (fun o => match o with inl _ => None | inr f => Some f end) outcomes.

(** [failed.slice(0, 3).map(f => `${f.id}: ${f.error}`).join('; ')] and the
    count of the others. *)
Definition errorSummary (failed : list json) : string :=
  if 0 <? len failed then
    LF +:+ "Errors: "
    +:+ String.concat "; "
          (map (fun f => String_of (member f "id") +:+ ": " +:+ String_of (member f "error"))
               (firstn 3 failed))
    +:+ (if 3 <? len failed
         then " and " +:+ pretty (len failed - 3) +:+ " more..."
         else EmptyString)
  else EmptyString.

Definition batchDeleteTasks (taskIds : json) : M StandardResponse :=
  await ids := lift (as_array taskIds "taskIds" "map") in
  await outcomes := Promise_all (map delete_one ids) in
  let results := pushed_results outcomes in
  let deleted := pushed_deleted outcomes in
  let failed := pushed_failed outcomes in
  let successCount := len (filter (fun r => r = true) results) in
  createResponse
    (Some (obj [("results", arr (map JBool results));
                ("deleted", arr deleted);
                ("failed", arr failed)]))
    ("Deleted " +:+ pretty successCount +:+ "/" +:+ pretty (len ids)
     +:+ " tasks permanently." +:+ errorSummary failed)
    (num successCount).

End Client.

End MarvinOps.

(* ===================================================================== *)
(** * Notions on the cache: the keys an operation may change *)
(* ===================================================================== *)

Module Frames.

Section Frame.

Context `{Runtime} {World : Type} `{Environment World}.

(** [m] changes the cache under keys of [K] only: every other key has the
    entry (value and expiration) it had. *)
Definition within (K : string -> Prop) {A : Type} (m : Marvin.M (World := World) A)
    : Prop :=
  forall s k, ~ K k -> Marvin.CACHE (m s).1 !! k = Marvin.CACHE s !! k.

End Frame.

(** The keys of the three reference listings. *)
Definition reference_key (k : string) : Prop :=
  k = "labels:all" \/ k = "categories:all" \/ k = "projects:all".

(** The keys [invalidateCache] deletes, for some date. *)
Definition evicted_key (k : string) : Prop :=
  exists day, k ∈ Marvin.keysToDelete day.

(** The keys a write operation may change. *)
Definition write_key (k : string) : Prop := evicted_key k \/ reference_key k.

(** The keys a listing cached under [key] may change. *)
Definition listing_key (key : string) (k : string) : Prop :=
  k = key \/ reference_key k.

End Frames.

(* ===================================================================== *)
(** * Notions on clean tasks *)
(* ===================================================================== *)

Module Clean.

(** A document that is an object without the member [_id]: what the
    reference listings hand out. *)
Definition unkeyed (d : json) : Prop :=
  exists ms, d = JObj ms /\ assoc "_id" ms = None.

(** A clean task that names no project and no category, and whose labels
    carry no identifier. *)
Definition unresolved (clean : json) : Prop :=
  member clean "project" = None /\
  member clean "category" = None /\
  exists labels,
    member clean "labels" = Some (JArr labels) /\
    Forall (fun l => member l "id" = None) labels.

End Clean.

(* ===================================================================== *)
(** * Notions on the batch deletion *)
(* ===================================================================== *)

Module Batches.

(** What the callback of [batchDeleteTasks] pushes for an identifier, by
    the outcome of the deletion: the identifier onto [deleted], or an entry
    with the message of the error onto [failed]. *)
Definition pushed (id : json) (o : Error + Marvin.StandardResponse) : json + json :=
  match o with
  | inr _ => inl id
  | inl e => inr (obj [("id", Some id); ("error", str (message e))])
  end.

Definition not_configured : Error :=
  {| message := "CouchDB not configured. Cannot delete tasks without database access." |}.

End Batches.

(* ===================================================================== *)
(** * Notions on the listing of projects *)
(* ===================================================================== *)

Module Projects.

(** A project among the categories: its [type] is [project]. *)
Definition is_project (cat : json) : bool := strict_eq (member cat "type") (str "project").

(** The project that the [parentId] of a project names, if any. *)
Definition parent_of (projects : list json) (p : json) : option json :=
  if truthy (member p "parentId")
  then List.find (fun q => strict_eq (member q "_id") (member p "parentId")) projects
  else None.

End Projects.

(* ===================================================================== *)
(** * [src/marvin-api.ts]: the CouchDB writes *)
(* ===================================================================== *)

Module Couch.

Import Http Marvin.

Section Client.

Context `{Runtime} {World : Type} `{Environment World}.

Variable this : MarvinAPIClient.

Local Abbreviation M := (@Marvin.M World).

(** [Date.now()] *)
Definition nowM : M Z := fun s => (s, inr (Date_now (world s))).

(** [postToCouch(doc)] *)
Definition postToCouch (doc : json) : M json :=
  if negb (isCouchDBConfigured this) then
    throw {| message :=
      "CouchDB not configured. Please set MARVIN_SYNC_* environment variables." |}
  else
    let url := String_of (couchUrl this) +:+ "/" +:+ String_of (couchDb this) in
    await auth := lift (createCouchAuthHeader this) in
    await response :=
      fetchM url {| method := "POST";
                    init_headers := [("Authorization", auth);
                                     ("Content-Type", "application/json")];
                    init_body := Some (JSON_stringify doc) |} in
    if negb (ok response) then
      throw {| message := "CouchDB error: " +:+ pretty (fetch_status response)
                          +:+ " " +:+ statusText response |}
    else lift (json_body response).

(** [createTimeBlock(params)], on the members of [params]. *)
Definition createTimeBlock (title date time durationMin notes : value)
    : M StandardResponse :=
  await now := nowM in
  let timeBlockDoc :=
    obj [("db", str "PlannerItems");
         ("title", title);
         ("date", date);
         ("time", time);
         ("duration", durationMin);
         ("notes", or_else notes (str EmptyString));
         ("createdAt", num now);
         ("updatedAt", num now)] in
  await result := postToCouch timeBlockDoc in
  await id := lift (prop result "id") in
  createResponse (Some (obj [("id", id)]))
    ("Time Block " +:+ DQUOTE +:+ String_of title +:+ DQUOTE +:+ " created successfully")
    (num 1).

End Client.

End Couch.

(* ===================================================================== *)
(** * [src/config.ts] and [src/mcp-tools.ts]: catalog and dispatcher *)
(* ===================================================================== *)

Module Tools.

Import Http Marvin MarvinOps Couch.

(** The [name] of each entry of the Tool Catalog [MCP_TOOLS], in order. *)
Definition MCP_TOOL_NAMES : list string :=
  ["test_connection"; "marvin_test_connection";
   "get_daily_productivity_overview"; "get_tasks"; "get_projects"; "get_categories";
   "get_due_items"; "get_child_tasks"; "get_all_tasks"; "get_labels"; "get_goals";
   "get_account_info"; "get_completed_tasks"; "get_completed_tasks_for_date";
   "create_task"; "mark_task_done"; "create_project"; "start_time_tracking";
   "stop_time_tracking"; "batch_mark_done"; "batch_create_tasks";
   "create_project_with_tasks"; "quick_daily_planning"; "get_daily_focus";
   "create_event"; "create_time_block";
   "get_productivity_summary"; "get_productivity_summary_for_time_range";
   "get_project_overview"; "get_time_tracking_summary"; "get_done_items";
   "get_time_tracks"].

(** The two tools that the worker answers itself. *)
Definition unauthenticatedTools : list string :=
  ["test_connection"; "marvin_test_connection"].

Section Handler.

Context `{Runtime} {World : Type} `{Environment World}.

Local Abbreviation M := (@Marvin.M World).

(** [this.apiClient] *)
Variable apiClient : MarvinAPIClient.

(** The operations that are called by the dispatcher and are not modelled:
    of the client, the listings that recur through the upstream data or
    lower the case of titles, the goals, the time tracks and the events; of
    the handler, its seven composite operations.  Each is given by the
    document it answers with. *)
Variable getChildTasks : value -> value -> M json.
Variable getAllTasks : value -> M json.
Variable getGoals : M json.
Variable getTimeTracks : value -> value -> M json.
Variable createEvent : json -> M json.
Variable getDailyProductivityOverview : M json.
Variable createProjectWithTasks : json -> M json.
Variable quickDailyPlanning : M json.
Variable getDailyFocus : M json.
Variable getProductivitySummary : M json.
Variable getProductivitySummaryForTimeRange : value -> value -> M json.
Variable getProjectOverview : M json.

(** An operation of the client, by the document of its response. *)
Definition answer (m : M StandardResponse) : M json := then_ m envelope.

(** An argument that a method is then called on: [undefined] throws. *)
Definition receiver (v : value) (method : string) : Error + json :=
  match v with
  | Some d => inr d
  | None => inl {| message := "Cannot read properties of undefined (reading '"
                              +:+ method +:+ "')" |}
  end.

(** The [switch (toolName)]: the [case] of a tool name, [None] for the
    [default]. *)
Definition operation (toolName : value) (params : json) : option (M json) :=
  let named name := strict_eq toolName (str name) in
  if named "get_daily_productivity_overview" then Some getDailyProductivityOverview
  else if named "get_tasks" then Some (answer (getTasks apiClient))
  else if named "get_projects" then Some (answer (getProjects apiClient))
  else if named "get_categories" then Some (answer (getCategories apiClient))
  else if named "get_due_items" then Some (answer (getDueItems apiClient))
  else if named "get_child_tasks" then
    Some (await parent_id := lift (prop params "parent_id") in
          await recursive := lift (prop params "recursive") in
          getChildTasks parent_id (or_else recursive (Some (JBool false))))
  else if named "get_all_tasks" then
    Some (await label := lift (prop params "label") in getAllTasks label)
  else if named "get_labels" then Some (answer (getLabels apiClient))
  else if named "get_goals" then Some getGoals
  else if named "get_account_info" then Some (answer (getAccountInfo apiClient))
  else if named "get_completed_tasks" then
    Some (await days := lift (prop params "days") in
          answer (getCompletedTasks apiClient (or_else days (num 7))))
  else if named "get_completed_tasks_for_date" then
    Some (await date := lift (prop params "date") in
          answer (getCompletedTasksForDate apiClient date))
  else if named "create_task" then Some (answer (createTask apiClient params))
  else if named "mark_task_done" then
    Some (await task_id := lift (prop params "task_id") in
          answer (markTaskDone apiClient task_id))
  else if named "create_project" then Some (answer (createProject apiClient params))
  else if named "start_time_tracking" then
    Some (await task_id := lift (prop params "task_id") in
          answer (startTimeTracking apiClient task_id))
  else if named "stop_time_tracking" then Some (answer (stopTimeTracking apiClient))
  else if named "batch_mark_done" then
    Some (await task_ids := lift (prop params "task_ids") in
          await taskIds := lift (receiver task_ids "map") in
          answer (batchMarkDone apiClient taskIds))
  else if named "batch_create_tasks" then
    Some (await tasks := lift (prop params "tasks") in
          await tasksData := lift (receiver tasks "map") in
          answer (batchCreateTasks apiClient tasksData))
  else if named "create_project_with_tasks" then Some (createProjectWithTasks params)
  else if named "quick_daily_planning" then Some quickDailyPlanning
  else if named "get_daily_focus" then Some getDailyFocus
  else if named "get_productivity_summary" then Some getProductivitySummary
  else if named "get_productivity_summary_for_time_range" then
    Some (await start_date := lift (prop params "start_date") in
          await end_date := lift (prop params "end_date") in
          getProductivitySummaryForTimeRange start_date end_date)
  else if named "get_project_overview" then Some getProjectOverview
  else if named "get_time_tracking_summary" then
    Some (await days := lift (prop params "days") in
          answer (getTimeTrackingSummary apiClient (or_else days (num 7))))
  else if named "get_done_items" then
    Some (await days := lift (prop params "days") in
          answer (getCompletedTasks apiClient (or_else days (num 7))))
  else if named "get_time_tracks" then
    Some (await start_date := lift (prop params "start_date") in
          await end_date := lift (prop params "end_date") in
          getTimeTracks start_date end_date)
  else if named "create_event" then
    Some (await title := lift (prop params "title") in
          await start := lift (prop params "start") in
          await duration_min := lift (prop params "duration_min") in
          await all_day := lift (prop params "all_day") in
          await notes := lift (prop params "notes") in
          await cal_id := lift (prop params "cal_id") in
          createEvent (obj [("title", title);
                            ("start", start);
                            ("durationMin", duration_min);
                            ("allDay", or_else all_day (Some (JBool false)));
                            ("notes", notes);
                            ("calId", cal_id)]))
  else if named "create_time_block" then
    Some (await title := lift (prop params "title") in
          await date := lift (prop params "date") in
          await time := lift (prop params "time") in
          await duration_min := lift (prop params "duration_min") in
          await notes := lift (prop params "notes") in
          answer (createTimeBlock apiClient title date time duration_min notes))
  else None.

(** The response of the [catch]. *)
Definition failure (toolName : value) (error : Error) (timestamp request_id : string)
    : json :=
  obj [("data", Some JNull);
       ("metadata",
         Some (obj [("source", str "amazing_marvin_mcp");
                    ("timestamp", str timestamp);
                    ("request_id", str request_id)]));
       ("summary",
         Some (obj [("message",
                      str ("Error executing tool " +:+ String_of toolName +:+ ": "
                           +:+ message error));
                    ("status", str "error")]));
       ("debug", Some (obj [("processing_time_ms", num 0)]));
       ("success", Some (JBool false))].

(** [handleToolCall(toolName, params)] *)
Definition handleToolCall (toolName : value) (params : json) : M json :=
  try_catch
    match operation toolName params with
    | Some run => run
    | None => throw {| message := "Unknown tool: " +:+ String_of toolName |}
    end
    (fun error =>
       await timestamp := isoNow in
       await request_id := uuidM in
       ret (failure toolName error timestamp request_id)).

End Handler.

End Tools.

(* ===================================================================== *)
(** * Further concrete runs *)
(* ===================================================================== *)

(** Inputs for runs of the authorization flow, of the cache and of the
    dispatcher in the simulated world. *)
Module Cases.

Import Http Marvin.

(** The form that [Scenario.authorized_s256] was submitted with. *)
Definition fields_s256 : FormData :=
  [("client_id", "client-1");
   ("redirect_uri", "http://localhost/cb");
   ("state", "xyz");
   ("api_key", "marvin-key");
   ("code_challenge", Scenario.challenge);
   ("code_challenge_method", "S256")].

(** An exchange of a public client: the verifier and no client secret. *)
Definition form_pkce : FormData :=
  Scenario.exchange_form [("redirect_uri", "http://localhost/cb");
                          ("code_verifier", "abc")].

(** The request for the labels, and the state after a first read of them
    through the cache. *)
Definition labels_request : M (World := Sim.world) json :=
  makeRequest (H0 := Sim.environment) Runs.client "/labels" GET.

Definition labels_read : State (World := Sim.world) :=
  (getCachedOrFetch (H0 := Sim.environment) "labels:all" labels_request 600
     Runs.start).1.

(** A fetch that must not run. *)
Definition not_run {A : Type} : M (World := Sim.world) A :=
  throw {| message := "not run" |}.

(** Two projects, the second inside the first, and a category. *)
Definition categories : list json :=
  [JObj [("_id", JStr "p1"); ("title", JStr "Home"); ("type", JStr "project")];
   JObj [("_id", JStr "c1"); ("title", JStr "Errands"); ("type", JStr "category")];
   JObj [("_id", JStr "p2"); ("title", JStr "Kitchen"); ("type", JStr "project");
         ("parentId", JStr "p1")]].

(** A state whose cache serves them under [projects:all]. *)
Definition with_projects : State (World := Sim.world) :=
  {| world := world Runs.start;
     CACHE := KV.put (Sim.clock (world Runs.start)) "projects:all" (JArr categories) 600 ∅;
     journal := [] |}.

(** An upstream that answers every request [401 Unauthorized]. *)
Definition refusing : Environment Sim.world := {|
  fetch := fun url init w =>
    (Sim.tick w,
     inr {| ok := false; fetch_status := 401; statusText := "Unauthorized";
            json_body := inr (JObj []) |});
  Date_now := Sim.clock;
  randomUUID := fun w => (Sim.tick w, "uuid-" +:+ pretty (Sim.serial w))
|}.

(** A [tools/call] of [get_labels]. *)
Definition call_get_labels : json :=
  JObj [("jsonrpc", JStr "2.0"); ("id", JNum 7); ("method", JStr "tools/call");
        ("params", JObj [("name", JStr "get_labels"); ("arguments", JObj [])])].

(** The dispatcher over operations that are left out: they throw. *)
Definition dispatcher `{Environment Sim.world} (apiClient : MarvinAPIClient)
    : value -> json -> M (World := Sim.world) json :=
  Tools.handleToolCall (H := Runs.rt) apiClient
    (fun _ _ => throw {| message := "left out" |})
    (fun _ => throw {| message := "left out" |})
    (throw {| message := "left out" |})
    (fun _ _ => throw {| message := "left out" |})
    (fun _ => throw {| message := "left out" |})
    (throw {| message := "left out" |})
    (fun _ => throw {| message := "left out" |})
    (throw {| message := "left out" |})
    (throw {| message := "left out" |})
    (throw {| message := "left out" |})
    (fun _ _ => throw {| message := "left out" |})
    (throw {| message := "left out" |}).

End Cases.

(* ===================================================================== *)
(** * Proofs: general lemmas *)
(* ===================================================================== *)

Lemma append_inj (p a b : string) : p +:+ a = p +:+ b -> a = b.
Proof. induction p as [|c p IH]; cbn; [done|]. intros [= Heq]. auto. Qed.

Lemma strict_eq_val_refl (x : option string) :
  strict_eq (Http.val x) (Http.val x) = true.
Proof. destruct x as [s|]; cbn; [apply String.eqb_refl | done]. Qed.

Lemma truthy_val (x : option string) :
  truthy (Http.val x) = true <-> exists s, x = Some s /\ s <> EmptyString.
Proof.
  destruct x as [s|]; cbn.
  - rewrite negb_true_iff, String.eqb_neq. split.
    + intros Hs. by exists s.
    + by intros (s' & [= <-] & Hs).
  - split; [done|]. by intros (s & Hs & _).
Qed.

Lemma prop_not_null (d : json) (k : string) : d <> JNull -> prop d k = inr (member d k).
Proof. by destruct d. Qed.

Lemma member_obj_head (k : string) (d : json) (rest : list (string * value)) :
  member (obj ((k, Some d) :: rest)) k = Some d.
Proof. cbn. by rewrite String.eqb_refl. Qed.

Module KVFacts.

Lemma get_absent now k (ns : KV.namespace) :
  ns !! k = None -> KV.get now k ns = None.
Proof. unfold KV.get. by intros ->. Qed.

Lemma get_delete_ne now k k' (ns : KV.namespace) :
  k <> k' -> KV.get now k' (KV.delete k ns) = KV.get now k' ns.
Proof. intros. unfold KV.get, KV.delete. by rewrite lookup_delete_ne. Qed.

Lemma get_put_eq now now' k d ttl (ns : KV.namespace) :
  KV.seconds now' < KV.seconds now + ttl ->
  KV.get now' k (KV.put now k d ttl ns) = Some d.
Proof.
  intros. unfold KV.get, KV.put. rewrite lookup_insert_eq.
  by rewrite bool_decide_eq_true_2.
Qed.

Lemma get_put_ne now now' k k' d ttl (ns : KV.namespace) :
  k <> k' -> KV.get now' k' (KV.put now k d ttl ns) = KV.get now' k' ns.
Proof. intros. unfold KV.get, KV.put. by rewrite lookup_insert_ne. Qed.

End KVFacts.

(* ===================================================================== *)
(** * Proofs: the token endpoint *)
(* ===================================================================== *)

Module OAuthSpec.

Import Http OAuth.

Section Exchange.

Context `{Runtime}.
Variable JWT_SECRET : string.

Lemma verify_client_status client authData cs cv r :
  verify_client client authData cs cv = inr (Some r) ->
  (r = oauth_error "invalid_grant" (str "PKCE verification failed") 400
   /\ truthy (member authData "code_challenge") && truthy (val cv) = true)
  \/ (r = oauth_error "invalid_client" None 401
      /\ client_check_passes client authData cs cv = false).
Proof.
  unfold verify_client, client_check_passes, prop. intros Hv.
  destruct authData; repeat step_in Hv; auto.
  all: right; split; [done|].
  all: match goal with E : negb _ = true |- _ => apply negb_true_iff in E end.
  all: destruct client; by simplify_eq.
Qed.

Lemma verify_client_throws client authData cs cv e :
  verify_client client authData cs cv = inl e -> client = JNull \/ authData = JNull.
Proof.
  unfold verify_client, prop. intros Hv.
  destruct authData; auto; destruct client; auto; repeat step_in Hv.
Qed.

Lemma token_reply_members (accessToken newRefreshToken : string) :
  member (tokenResponse accessToken newRefreshToken) "access_token" = str accessToken /\
  member (tokenResponse accessToken newRefreshToken) "token_type" = str "Bearer" /\
  member (tokenResponse accessToken newRefreshToken) "expires_in" = num 86400 /\
  member (tokenResponse accessToken newRefreshToken) "refresh_token"
  = str newRefreshToken.
Proof. repeat split. Qed.

Lemma redeem_code_inv now uuid authData code clientId redirectUri TOKENS TOKENS' r :
  redeem_code JWT_SECRET now uuid authData code clientId redirectUri TOKENS
  = inr (TOKENS', r) ->
  status r = 200 ->
  exists api_key,
    truthy (member authData "client_id") = true /\
    strict_eq (member authData "redirect_uri") (val redirectUri) = true /\
    r = json_response
          (tokenResponse
             (generateJWT JWT_SECRET now (access_claims now clientId api_key)) uuid)
          200 content_json_cors /\
    TOKENS' = KV.delete ("auth_code:" +:+ template code)
                (KV.put now ("refresh_token:" +:+ uuid)
                   (refresh_doc now clientId api_key) (86400 * 30) TOKENS).
Proof.
  unfold redeem_code. intros Hr Hs.
  repeat step_in Hr; try done.
  unfold prop in *. destruct authData; simplify_eq.
  all: eexists; repeat split; eauto using negb_false_iff.
  all: try (by apply negb_false_iff).
Qed.

Lemma redeem_code_failure now uuid authData code clientId redirectUri TOKENS TOKENS' r :
  redeem_code JWT_SECRET now uuid authData code clientId redirectUri TOKENS
  = inr (TOKENS', r) ->
  authData <> JNull ->
  strict_eq (member authData "redirect_uri") (val redirectUri) = false ->
  TOKENS' = TOKENS /\
  exists description, r = oauth_error "invalid_grant" (str description) 400.
Proof.
  unfold redeem_code. intros Hr Hn Hne.
  rewrite !prop_not_null in Hr by done. cbn [bind] in Hr.
  rewrite Hne in Hr. cbn [negb] in Hr.
  destruct (truthy (member authData "client_id")); cbn [negb] in Hr;
    simplify_eq; eauto.
Qed.

(** The unfolding of an [authorization_code] exchange up to the lookup of
    the client. *)
Lemma exchange_unfold now uuid form TOKENS :
  get form "grant_type" = Some "authorization_code" ->
  handleTokenExchange JWT_SECRET now uuid (Some form) TOKENS =
  if negb (truthy (val (get form "code"))) || negb (truthy (val (get form "client_id")))
  then (TOKENS, oauth_error "invalid_request" (str "Missing required parameters") 400)
  else
    match KV.get now ("client:" +:+ template (get form "client_id")) TOKENS with
    | None => (TOKENS, oauth_error "invalid_client" None 401)
    | Some client =>
        let authData :=
          default (JObj [])
            (KV.get now ("auth_code:" +:+ template (get form "code")) TOKENS) in
        match verify_client client authData (get form "client_secret")
                (get form "code_verifier") with
        | inl _ => (TOKENS, oauth_error "server_error" (str "Token exchange failed") 500)
        | inr (Some response) => (TOKENS, response)
        | inr None =>
            match redeem_code JWT_SECRET now uuid authData (get form "code")
                    (get form "client_id") (get form "redirect_uri") TOKENS with
            | inr r => r
            | inl _ =>
                (TOKENS, oauth_error "server_error" (str "Token exchange failed") 500)
            end
        end
    end.
Proof.
  intros Hg. unfold handleTokenExchange, exchange_try.
  rewrite Hg. cbn [val strict_eq str].
  change (String.eqb "authorization_code" "refresh_token") with false.
  change (String.eqb "authorization_code" "authorization_code") with true.
  cbn [negb orb].
  destruct (_ || _); [done|].
  destruct (KV.get now ("client:" +:+ _) TOKENS); [|done].
  cbn zeta. destruct (verify_client _ _ _ _) as [e|[response|]]; done.
Qed.

Lemma exchange_success_inv now uuid form TOKENS TOKENS' r :
  get form "grant_type" = Some "authorization_code" ->
  handleTokenExchange JWT_SECRET now uuid (Some form) TOKENS = (TOKENS', r) ->
  status r = 200 ->
  truthy (val (get form "code")) = true /\
  truthy (val (get form "client_id")) = true /\
  exists client authData api_key,
    KV.get now ("client:" +:+ template (get form "client_id")) TOKENS = Some client /\
    KV.get now ("auth_code:" +:+ template (get form "code")) TOKENS = Some authData /\
    verify_client client authData (get form "client_secret")
      (get form "code_verifier") = inr None /\
    truthy (member authData "client_id") = true /\
    strict_eq (member authData "redirect_uri") (val (get form "redirect_uri")) = true /\
    r = json_response
          (tokenResponse
             (generateJWT JWT_SECRET now
                (access_claims now (get form "client_id") api_key)) uuid)
          200 content_json_cors /\
    TOKENS' = KV.delete ("auth_code:" +:+ template (get form "code"))
                (KV.put now ("refresh_token:" +:+ uuid)
                   (refresh_doc now (get form "client_id") api_key)
                   (86400 * 30) TOKENS).
Proof.
  intros Hg Hx Hs. rewrite exchange_unfold in Hx by done.
  destruct (truthy (val (get form "code"))) eqn:Ecode; cbn [negb orb] in Hx;
    [|by simplify_eq].
  destruct (truthy (val (get form "client_id"))) eqn:Ecid; cbn [negb orb] in Hx;
    [|by simplify_eq].
  destruct (KV.get now ("client:" +:+ _) TOKENS) as [client|] eqn:Ec; [|by simplify_eq].
  cbn zeta in Hx.
  destruct (verify_client client _ _ _) as [e|[resp|]] eqn:Ev.
  - by simplify_eq.
  - simplify_eq. apply verify_client_status in Ev as [[-> _]|[-> _]]; done.
  - destruct (redeem_code _ _ _ _ _ _ _ _) as [e|[T r']] eqn:Er; [by simplify_eq|].
    simplify_eq.
    apply redeem_code_inv in Er as (api_key & Hcid & Hred & -> & ->); [|done].
    destruct (KV.get now ("auth_code:" +:+ _) TOKENS) as [authData|] eqn:Ea;
      cbn [default from_option id] in *; [|done].
    repeat split; eauto 12.
Qed.

(** An exchange that names a code the store does not hold (never issued,
    expired, or consumed) changes nothing and issues nothing. *)
Lemma exchange_absent_code now uuid form TOKENS T2 r2 :
  get form "grant_type" = Some "authorization_code" ->
  KV.get now ("auth_code:" +:+ template (get form "code")) TOKENS = None ->
  handleTokenExchange JWT_SECRET now uuid (Some form) TOKENS = (T2, r2) ->
  T2 = TOKENS /\
  (status r2 = 400 \/ status r2 = 401 \/ status r2 = 500) /\
  (forall client,
      truthy (val (get form "code")) = true ->
      truthy (val (get form "client_id")) = true ->
      KV.get now ("client:" +:+ template (get form "client_id")) TOKENS = Some client ->
      client <> JNull ->
      client_check_passes client (JObj []) (get form "client_secret")
        (get form "code_verifier") = true ->
      r2 = oauth_error "invalid_grant" (str "Authorization code expired or invalid") 400).
Proof.
  intros Hg Ha Hx. rewrite exchange_unfold in Hx by done.
  rewrite Ha in Hx. cbn [default from_option id] in Hx.
  destruct (truthy (val (get form "code"))) eqn:Ecode; cbn [negb orb] in Hx;
    [|simplify_eq; cbn; split; [done|split; [auto|intros; simplify_eq]]].
  destruct (truthy (val (get form "client_id"))) eqn:Ecid; cbn [negb orb] in Hx;
    [|simplify_eq; cbn; split; [done|split; [auto|intros; simplify_eq]]].
  destruct (KV.get now ("client:" +:+ _) TOKENS) as [client|] eqn:Ec;
    [|simplify_eq; cbn; split; [done|split; [auto|intros; simplify_eq]]].
  unfold verify_client, redeem_code, client_check_passes in *.
  cbn [prop member assoc bind truthy andb negb orb] in *.
  destruct (truthy (val (get form "client_secret"))) eqn:Esec; cbn [negb orb] in *.
  - destruct (prop client "client_secret") as [e|secret] eqn:Ep; cbn [bind] in Hx.
    + simplify_eq. cbn. split; [done|split; [auto|]]. intros c _ _ [= ->] Hn _.
      destruct c; by simplify_eq.
    + destruct (strict_eq secret _) eqn:Eeq; cbn [negb bind] in Hx; simplify_eq; cbn.
      * split; [done|split; [auto|]]. done.
      * split; [done|split; [auto|]]. intros c _ _ [= ->] Hn Hs.
        unfold prop in Ep. destruct c; simplify_eq; rewrite Hs in Eeq; done.
  - simplify_eq. cbn. split; [done|split; [auto|]]. done.
Qed.

(** The checks that come before the checks on the code: the parameters,
    the registration of the client, the client secret. *)
Lemma exchange_earlier_checks now uuid form TOKENS :
  get form "grant_type" = Some "authorization_code" ->
  let answer := handleTokenExchange JWT_SECRET now uuid (Some form) TOKENS in
  let authData :=
    default (JObj [])
      (KV.get now ("auth_code:" +:+ template (get form "code")) TOKENS) in
  (truthy (val (get form "code")) = false
   \/ truthy (val (get form "client_id")) = false ->
   answer
   = (TOKENS, oauth_error "invalid_request" (str "Missing required parameters") 400)) /\
  (truthy (val (get form "code")) = true ->
   truthy (val (get form "client_id")) = true ->
   KV.get now ("client:" +:+ template (get form "client_id")) TOKENS = None ->
   answer = (TOKENS, oauth_error "invalid_client" None 401)) /\
  (forall client,
      truthy (val (get form "code")) = true ->
      truthy (val (get form "client_id")) = true ->
      KV.get now ("client:" +:+ template (get form "client_id")) TOKENS = Some client ->
      client <> JNull ->
      authData <> JNull ->
      client_check_passes client authData (get form "client_secret")
        (get form "code_verifier") = false ->
      answer = (TOKENS, oauth_error "invalid_client" None 401)).
Proof.
  intros Hg answer authData. unfold answer. rewrite exchange_unfold by done.
  split; [|split].
  - intros [-> | ->]; cbn [negb orb]; [done|]. by rewrite orb_true_r.
  - intros -> -> ->. done.
  - intros client -> -> -> Hclient HauthData Hfails. cbn [negb orb]. cbn zeta.
    fold authData.
    assert (Hcheck : verify_client client authData (get form "client_secret")
                       (get form "code_verifier")
                     = inr (Some (oauth_error "invalid_client" None 401))).
    { unfold client_check_passes in Hfails.
      apply orb_false_elim in Hfails as [Hfails Hsecret].
      apply orb_false_elim in Hfails as [Hpkce Hsupplied].
      apply negb_false_iff in Hsupplied.
      unfold verify_client. rewrite !prop_not_null by done. cbn [bind].
      by rewrite Hpkce, Hsupplied, Hsecret. }
    by rewrite Hcheck.
Qed.

(** C2 (amended).  A successful [authorization_code] exchange deletes the
    stored code, and no later exchange presenting that code succeeds: it
    leaves the store as it is and answers 400, 401 or 500.  It answers
    [invalid_grant] (400) whenever the request names a registered client and
    passes the check on the client secret; a request that does not is
    answered by that check: [invalid_client] (401) when the client is not
    registered, and when the client secret of the request is not the
    client's. *)
Theorem code_single_use now uuid form TOKENS TOKENS' r :
  get form "grant_type" = Some "authorization_code" ->
  handleTokenExchange JWT_SECRET now uuid (Some form) TOKENS = (TOKENS', r) ->
  status r = 200 ->
  TOKENS' !! ("auth_code:" +:+ template (get form "code")) = None /\
  forall now' uuid' form' T2 r2,
    get form' "grant_type" = Some "authorization_code" ->
    get form' "code" = get form "code" ->
    handleTokenExchange JWT_SECRET now' uuid' (Some form') TOKENS' = (T2, r2) ->
    T2 = TOKENS' /\
    (status r2 = 400 \/ status r2 = 401 \/ status r2 = 500) /\
    (forall client,
        truthy (val (get form' "client_id")) = true ->
        KV.get now' ("client:" +:+ template (get form' "client_id")) TOKENS'
        = Some client ->
        client <> JNull ->
        client_check_passes client (JObj []) (get form' "client_secret")
          (get form' "code_verifier") = true ->
        r2 = oauth_error "invalid_grant"
               (str "Authorization code expired or invalid") 400) /\
    (truthy (val (get form' "client_id")) = true ->
     KV.get now' ("client:" +:+ template (get form' "client_id")) TOKENS' = None ->
     r2 = oauth_error "invalid_client" None 401) /\
    (forall client,
        truthy (val (get form' "client_id")) = true ->
        KV.get now' ("client:" +:+ template (get form' "client_id")) TOKENS'
        = Some client ->
        client <> JNull ->
        client_check_passes client (JObj []) (get form' "client_secret")
          (get form' "code_verifier") = false ->
        r2 = oauth_error "invalid_client" None 401).
Proof.
  intros Hg Hx Hs.
  destruct (exchange_success_inv _ _ _ _ _ _ Hg Hx Hs)
    as (Hcode & _ & client & authData & api_key & _ & _ & _ & _ & _ & _ & ->).
  assert (Hgone : forall T, KV.delete ("auth_code:" +:+ template (get form "code")) T
                            !! ("auth_code:" +:+ template (get form "code")) = None).
  { intros T. unfold KV.delete. apply lookup_delete_eq. }
  split; [apply Hgone|].
  intros now' uuid' form' T2 r2 Hg' Hsame Hx'.
  match type of Hx' with
  | handleTokenExchange _ _ _ _ ?T = _ => set (T1 := T) in *
  end.
  assert (Habsent : KV.get now' ("auth_code:" +:+ template (get form' "code")) T1
                    = None).
  { rewrite Hsame. apply KVFacts.get_absent. unfold T1. apply Hgone. }
  assert (Hcode' : truthy (val (get form' "code")) = true) by (by rewrite Hsame).
  destruct (exchange_earlier_checks now' uuid' form' T1 Hg')
    as (_ & Hunknown & Hsecret).
  rewrite Habsent in Hsecret. cbn [default from_option id] in Hsecret.
  rewrite Hx' in Hunknown, Hsecret.
  eapply exchange_absent_code in Hx' as (-> & Hst & Hgrant); [|done|done].
  split; [done|]. split; [done|]. split; [|split].
  - intros c Hcid Hc Hn Hp. by apply (Hgrant c).
  - intros Hcid Hnone. by injection (Hunknown Hcode' Hcid Hnone).
  - intros c Hcid Hc Hn Hp.
    by injection (Hsecret c Hcode' Hcid Hc Hn ltac:(discriminate) Hp).
Qed.

(** C8 (amended).  An [authorization_code] exchange whose [redirect_uri]
    differs from the one stored with the code issues no tokens: the store
    is left as it is and the answer is an error (400, 401 or 500).  The
    error is [invalid_grant] (400) whenever the request names the code and a
    registered client and passes the check on the client secret; otherwise
    the check that fails first answers: [invalid_request] (400) without a
    code or a client, [invalid_client] (401) when the client is not
    registered, and when the client secret of the request is not the
    client's. *)
Theorem redirect_uri_binding now uuid form TOKENS authData T2 r2 :
  get form "grant_type" = Some "authorization_code" ->
  KV.get now ("auth_code:" +:+ template (get form "code")) TOKENS = Some authData ->
  authData <> JNull ->
  strict_eq (member authData "redirect_uri") (val (get form "redirect_uri")) = false ->
  handleTokenExchange JWT_SECRET now uuid (Some form) TOKENS = (T2, r2) ->
  T2 = TOKENS /\
  (status r2 = 400 \/ status r2 = 401 \/ status r2 = 500) /\
  (forall client,
      truthy (val (get form "code")) = true ->
      truthy (val (get form "client_id")) = true ->
      KV.get now ("client:" +:+ template (get form "client_id")) TOKENS = Some client ->
      client <> JNull ->
      client_check_passes client authData (get form "client_secret")
        (get form "code_verifier") = true ->
      exists description, r2 = oauth_error "invalid_grant" (str description) 400) /\
  (truthy (val (get form "code")) = false
   \/ truthy (val (get form "client_id")) = false ->
   r2 = oauth_error "invalid_request" (str "Missing required parameters") 400) /\
  (truthy (val (get form "code")) = true ->
   truthy (val (get form "client_id")) = true ->
   KV.get now ("client:" +:+ template (get form "client_id")) TOKENS = None ->
   r2 = oauth_error "invalid_client" None 401) /\
  (forall client,
      truthy (val (get form "code")) = true ->
      truthy (val (get form "client_id")) = true ->
      KV.get now ("client:" +:+ template (get form "client_id")) TOKENS = Some client ->
      client <> JNull ->
      client_check_passes client authData (get form "client_secret")
        (get form "code_verifier") = false ->
      r2 = oauth_error "invalid_client" None 401).
Proof.
  intros Hg Ha Hn Hne Hx.
  destruct (exchange_earlier_checks now uuid form TOKENS Hg)
    as (Hmissing & Hunknown & Hsecret).
  rewrite Ha in Hsecret. cbn [default from_option id] in Hsecret.
  rewrite Hx in Hmissing, Hunknown, Hsecret.
  enough (Hfirst :
    T2 = TOKENS /\
    (status r2 = 400 \/ status r2 = 401 \/ status r2 = 500) /\
    (forall client,
        truthy (val (get form "code")) = true ->
        truthy (val (get form "client_id")) = true ->
        KV.get now ("client:" +:+ template (get form "client_id")) TOKENS
        = Some client ->
        client <> JNull ->
        client_check_passes client authData (get form "client_secret")
          (get form "code_verifier") = true ->
        exists description, r2 = oauth_error "invalid_grant" (str description) 400)).
  { destruct Hfirst as (HT & Hst & Hgrant).
    split; [done|]. split; [done|]. split; [done|]. split; [|split].
    - intros Hm. by injection (Hmissing Hm).
    - intros Hcode Hcid Hnone. by injection (Hunknown Hcode Hcid Hnone).
    - intros c Hcode Hcid Hc Hcn Hp. by injection (Hsecret c Hcode Hcid Hc Hcn Hn Hp). }
  clear Hmissing Hunknown Hsecret.
  rewrite exchange_unfold in Hx by done.
  rewrite Ha in Hx. cbn [default from_option id] in Hx.
  destruct (truthy (val (get form "code"))) eqn:Ecode; cbn [negb orb] in Hx;
    [|simplify_eq; cbn; split; [done|split; [auto|intros; simplify_eq]]].
  destruct (truthy (val (get form "client_id"))) eqn:Ecid; cbn [negb orb] in Hx;
    [|simplify_eq; cbn; split; [done|split; [auto|intros; simplify_eq]]].
  destruct (KV.get now ("client:" +:+ _) TOKENS) as [client|] eqn:Ec;
    [|simplify_eq; cbn; split; [done|split; [auto|intros; simplify_eq]]].
  cbn zeta in Hx.
  destruct (verify_client client _ _ _) as [e|[resp|]] eqn:Ev.
  - simplify_eq. split; [done|]. split; [cbn; auto|].
    intros c _ _ [= ->] Hc _. by apply verify_client_throws in Ev as [?|?].
  - simplify_eq. split; [done|].
    apply verify_client_status in Ev as [[-> _]|[-> Hfail]].
    + split; [cbn; auto|]. eauto.
    + split; [cbn; auto|]. intros c _ _ [= <-] _ Hp.
      rewrite Hp in Hfail. done.
  - destruct (redeem_code _ _ _ _ _ _ _ _) as [e|[T r']] eqn:Er.
    + simplify_eq. unfold redeem_code in Er.
      rewrite !prop_not_null in Er by done. cbn [bind] in Er.
      rewrite Hne in Er. cbn [negb] in Er.
      destruct (truthy (member authData "client_id")); cbn [negb] in Er; done.
    + simplify_eq.
      apply redeem_code_failure in Er as (-> & d & ->); [|done..].
      split; [done|]. split; [cbn; auto|]. eauto.
Qed.

(** The comparison that is made.  For a stored code that carries a
    challenge with the method [S256], and a request that supplies a
    verifier: a verifier whose SHA-256, base64url without padding, is the
    challenge lets the exchange through to the checks on the code (and
    succeeds when the code is bound to the request's redirect URI); any other
    verifier is answered [invalid_grant] (400); the client secret of the
    request plays no part. *)
Theorem pkce_s256 now uuid form TOKENS client authData challenge verifier :
  get form "grant_type" = Some "authorization_code" ->
  truthy (val (get form "code")) = true ->
  truthy (val (get form "client_id")) = true ->
  KV.get now ("client:" +:+ template (get form "client_id")) TOKENS = Some client ->
  KV.get now ("auth_code:" +:+ template (get form "code")) TOKENS = Some authData ->
  authData <> JNull ->
  member authData "code_challenge" = Some (JStr challenge) ->
  challenge <> EmptyString ->
  member authData "code_challenge_method" = Some (JStr "S256") ->
  get form "code_verifier" = Some verifier ->
  verifier <> EmptyString ->
  (s256 verifier <> challenge ->
   handleTokenExchange JWT_SECRET now uuid (Some form) TOKENS
   = (TOKENS, oauth_error "invalid_grant" (str "PKCE verification failed") 400)) /\
  (s256 verifier = challenge ->
   truthy (member authData "client_id") = true ->
   strict_eq (member authData "redirect_uri") (val (get form "redirect_uri")) = true ->
   handleTokenExchange JWT_SECRET now uuid (Some form) TOKENS
   = (KV.delete ("auth_code:" +:+ template (get form "code"))
        (KV.put now ("refresh_token:" +:+ uuid)
           (refresh_doc now (get form "client_id") (member authData "api_key"))
           (86400 * 30) TOKENS),
      json_response
        (tokenResponse
           (generateJWT JWT_SECRET now
              (access_claims now (get form "client_id") (member authData "api_key")))
           uuid)
        200 content_json_cors)) /\
  (forall clientSecret,
      verify_client client authData clientSecret (Some verifier)
      = verify_client client authData None (Some verifier)).
Proof.
  intros Hg Hcode Hcid Hc Ha Hn Hch Hne Hm Hv Hvne.
  assert (Hpk : forall cs,
             verify_client client authData cs (Some verifier)
             = inr (if String.eqb (s256 verifier) challenge then None
                    else Some (oauth_error "invalid_grant"
                                 (str "PKCE verification failed") 400))).
  { intros cs. unfold verify_client. rewrite !prop_not_null by done.
    cbn [bind]. rewrite Hch, Hm.
    assert (truthy (Some (JStr challenge)) = true) as ->.
    { cbn [truthy]. by apply negb_true_iff, String.eqb_neq. }
    assert (truthy (val (Some verifier)) = true) as ->.
    { cbn [truthy val]. by apply negb_true_iff, String.eqb_neq. }
    cbn [andb strict_eq str template].
    change (String.eqb "S256" "S256") with true. cbn iota.
    by destruct (String.eqb (s256 verifier) challenge). }
  split; [|split].
  - intros Hdiff. rewrite exchange_unfold by done.
    rewrite Hcode, Hcid, Hc, Ha, Hv. cbn [negb orb default from_option id]. cbn zeta.
    rewrite Hpk. apply String.eqb_neq in Hdiff. by rewrite Hdiff.
  - intros Hsame Hclient Hred. rewrite exchange_unfold by done.
    rewrite Hcode, Hcid, Hc, Ha, Hv. cbn [negb orb default from_option id]. cbn zeta.
    rewrite Hpk. apply String.eqb_eq in Hsame. rewrite Hsame.
    unfold redeem_code. rewrite !prop_not_null by done. cbn [bind].
    by rewrite Hclient, Hred.
  - intros cs. by rewrite !Hpk.
Qed.

(** C3, what the code does instead.  The verifier is compared with the
    stored challenge only when the stored method is the text [S256].  For a
    stored code that carries a challenge with any other method (the empty
    text, for one, which the authorization form stores when the request
    named no method), a request that supplies a verifier is let through
    whatever the verifier is and whatever its client secret is: when the code
    is bound to the redirect URI of the request, the exchange is answered 200
    with an access token and a refresh token, and the code is consumed. *)
Theorem pkce_method_bypass now uuid form TOKENS client authData challenge verifier :
  get form "grant_type" = Some "authorization_code" ->
  truthy (val (get form "code")) = true ->
  truthy (val (get form "client_id")) = true ->
  KV.get now ("client:" +:+ template (get form "client_id")) TOKENS = Some client ->
  KV.get now ("auth_code:" +:+ template (get form "code")) TOKENS = Some authData ->
  authData <> JNull ->
  member authData "code_challenge" = Some (JStr challenge) ->
  challenge <> EmptyString ->
  strict_eq (member authData "code_challenge_method") (str "S256") = false ->
  get form "code_verifier" = Some verifier ->
  verifier <> EmptyString ->
  truthy (member authData "client_id") = true ->
  strict_eq (member authData "redirect_uri") (val (get form "redirect_uri")) = true ->
  let answer := handleTokenExchange JWT_SECRET now uuid (Some form) TOKENS in
  answer.1
  = KV.delete ("auth_code:" +:+ template (get form "code"))
      (KV.put now ("refresh_token:" +:+ uuid)
         (refresh_doc now (get form "client_id") (member authData "api_key"))
         (86400 * 30) TOKENS) /\
  status answer.2 = 200 /\
  exists accessToken body,
    content answer.2 = Text (JSON_stringify body) /\
    member body "access_token" = str accessToken /\
    member body "refresh_token" = str uuid.
Proof.
  intros Hg Hcode Hcid Hc Ha Hn Hch Hne Hm Hv Hvne Hclient Hred answer.
  assert (Hanswer :
    answer
    = (KV.delete ("auth_code:" +:+ template (get form "code"))
         (KV.put now ("refresh_token:" +:+ uuid)
            (refresh_doc now (get form "client_id") (member authData "api_key"))
            (86400 * 30) TOKENS),
       json_response
         (tokenResponse
            (generateJWT JWT_SECRET now
               (access_claims now (get form "client_id") (member authData "api_key")))
            uuid)
         200 content_json_cors)).
  { unfold answer. rewrite exchange_unfold by done.
    rewrite Hcode, Hcid, Hc, Ha, Hv. cbn [negb orb default from_option id]. cbn zeta.
    assert (Hpass : verify_client client authData (get form "client_secret")
                      (Some verifier) = inr None).
    { unfold verify_client. rewrite !prop_not_null by done.
      cbn [bind]. rewrite Hch, Hm.
      assert (truthy (Some (JStr challenge)) = true) as ->.
      { cbn [truthy]. by apply negb_true_iff, String.eqb_neq. }
      assert (truthy (val (Some verifier)) = true) as ->.
      { cbn [truthy val]. by apply negb_true_iff, String.eqb_neq. }
      reflexivity. }
    rewrite Hpass.
    unfold redeem_code. rewrite !prop_not_null by done. cbn [bind].
    by rewrite Hclient, Hred. }
  rewrite Hanswer. split; [reflexivity|]. split; [reflexivity|].
  eexists _, _. split; [reflexivity|].
  split; apply token_reply_members.
Qed.

(** ** Refresh tokens *)

Lemma exchange_refresh now uuid form TOKENS :
  get form "grant_type" = Some "refresh_token" ->
  handleTokenExchange JWT_SECRET now uuid (Some form) TOKENS
  = handleRefreshToken JWT_SECRET now uuid (get form "refresh_token")
      (get form "client_id") (get form "client_secret") TOKENS.
Proof.
  intros Hg. unfold handleTokenExchange, exchange_try. rewrite Hg.
  cbn [val strict_eq str].
  by change (String.eqb "refresh_token" "refresh_token") with true.
Qed.

Lemma refresh_success_inv now uuid rt cid cs TOKENS T1 r1 :
  handleRefreshToken JWT_SECRET now uuid rt cid cs TOKENS = (T1, r1) ->
  status r1 = 200 ->
  truthy (val rt) = true /\ truthy (val cid) = true /\
  exists api_key,
    r1 = json_response
           (tokenResponse
              (generateJWT JWT_SECRET now (access_claims now cid api_key)) uuid)
           200 content_json_cors /\
    T1 = KV.delete ("refresh_token:" +:+ template rt)
           (KV.put now ("refresh_token:" +:+ uuid) (refresh_doc now cid api_key)
              (86400 * 30) TOKENS).
Proof.
  unfold handleRefreshToken, refresh_try. intros Hx Hs.
  destruct (truthy (val rt)) eqn:Ert; cbn [negb orb] in Hx; [|by simplify_eq].
  destruct (truthy (val cid)) eqn:Ecid; cbn [negb orb] in Hx; [|by simplify_eq].
  destruct (KV.get now _ TOKENS) as [tokenData|]; [|by simplify_eq].
  destruct (prop tokenData "client_id") as [e|client_id]; cbn [bind] in Hx;
    [by simplify_eq|].
  destruct (strict_eq client_id (val cid)); cbn [negb] in Hx; [|by simplify_eq].
  destruct (prop tokenData "api_key") as [e|api_key]; cbn [bind] in Hx;
    [by simplify_eq|].
  simplify_eq. eauto 6.
Qed.

Lemma refresh_absent now uuid rt cid cs TOKENS :
  truthy (val cid) = true ->
  rt <> Some EmptyString ->
  TOKENS !! ("refresh_token:" +:+ template rt) = None ->
  handleRefreshToken JWT_SECRET now uuid rt cid cs TOKENS
  = (TOKENS, oauth_error "invalid_grant" (str "Invalid or expired refresh token") 400)
  \/ rt = None /\
     handleRefreshToken JWT_SECRET now uuid rt cid cs TOKENS
     = (TOKENS,
        oauth_error "invalid_request" (str "Missing refresh token or client ID") 400).
Proof.
  intros Hcid Hne Hgone. unfold handleRefreshToken, refresh_try.
  rewrite Hcid. destruct rt as [s|]; cbn [truthy val negb orb].
  - left. destruct (String.eqb s EmptyString) eqn:Es.
    { apply String.eqb_eq in Es. by subst. }
    cbn [negb]. by rewrite KVFacts.get_absent.
  - right. done.
Qed.

(** C4.  A successful refresh answers 200 with a JSON body that carries
    an access token and, as [refresh_token], the new refresh token; it
    stores that one token and deletes the presented one, leaving every other
    key as it was.  Presented again, the old token is answered
    [invalid_grant] (400) and changes nothing; the new token, presented
    within its thirty days, succeeds and is answered with the next refresh
    token, after which it is answered [invalid_grant] in turn.  [uuid] is the
    fresh token: it is not empty and differs from the presented one. *)
Theorem refresh_rotation now uuid refreshToken clientId clientSecret TOKENS T1 r1 :
  handleRefreshToken JWT_SECRET now uuid refreshToken clientId clientSecret TOKENS
  = (T1, r1) ->
  status r1 = 200 ->
  uuid <> template refreshToken ->
  uuid <> EmptyString ->
  (forall form,
      get form "grant_type" = Some "refresh_token" ->
      handleTokenExchange JWT_SECRET now uuid (Some form) TOKENS
      = handleRefreshToken JWT_SECRET now uuid (get form "refresh_token")
          (get form "client_id") (get form "client_secret") TOKENS) /\
  (exists accessToken body,
      r1 = {| status := 200;
              headers := [("Content-Type", "application/json");
                          ("Access-Control-Allow-Origin", "*")];
              content := Text (JSON_stringify body) |} /\
      member body "access_token" = str accessToken /\
      member body "token_type" = str "Bearer" /\
      member body "expires_in" = num 86400 /\
      member body "refresh_token" = str uuid) /\
  T1 !! ("refresh_token:" +:+ template refreshToken) = None /\
  is_Some (T1 !! ("refresh_token:" +:+ uuid)) /\
  (forall k,
      k <> "refresh_token:" +:+ template refreshToken ->
      k <> "refresh_token:" +:+ uuid ->
      T1 !! k = TOKENS !! k) /\
  (forall now' uuid' cid' cs',
      truthy (val cid') = true ->
      handleRefreshToken JWT_SECRET now' uuid' refreshToken cid' cs' T1
      = (T1, oauth_error "invalid_grant" (str "Invalid or expired refresh token") 400)) /\
  (forall now' uuid' cs',
      KV.seconds now' < KV.seconds now + 86400 * 30 ->
      exists T2 r2 body2,
        handleRefreshToken JWT_SECRET now' uuid' (Some uuid) clientId cs' T1 = (T2, r2) /\
        status r2 = 200 /\
        content r2 = Text (JSON_stringify body2) /\
        member body2 "refresh_token" = str uuid' /\
        forall now'' uuid'' cid'' cs'',
          truthy (val cid'') = true ->
          handleRefreshToken JWT_SECRET now'' uuid'' (Some uuid) cid'' cs'' T2
          = (T2, oauth_error "invalid_grant"
                   (str "Invalid or expired refresh token") 400)).
Proof.
  intros Hx Hs Hfresh Hne.
  destruct (refresh_success_inv _ _ _ _ _ _ _ _ Hx Hs)
    as (Hrt & Hcid & api_key & -> & ->).
  apply truthy_val in Hrt as (rt & -> & Hrt).
  apply truthy_val in Hcid as (cid & -> & Hcidne).
  cbn [template] in *.
  assert (Hkeys : "refresh_token:" +:+ rt <> "refresh_token:" +:+ uuid).
  { intros Heq. apply append_inj in Heq. congruence. }
  split; [intros form Hg; by apply exchange_refresh|].
  split.
  { eexists _, _. split; [reflexivity|]. apply token_reply_members. }
  split; [unfold KV.delete; apply lookup_delete_eq|].
  split.
  { unfold KV.delete, KV.put. rewrite lookup_delete_ne, lookup_insert_eq by done. eauto. }
  split.
  { intros k Hk1 Hk2. unfold KV.delete, KV.put.
    by rewrite lookup_delete_ne, lookup_insert_ne. }
  split.
  { intros now' uuid' cid' cs' Hcid'.
    destruct (refresh_absent now' uuid' (Some rt) cid' cs'
                (KV.delete ("refresh_token:" +:+ rt)
                   (KV.put now ("refresh_token:" +:+ uuid)
                      (refresh_doc now (Some cid) api_key) (86400 * 30) TOKENS)))
      as [Hr|[? _]]; try done.
    - congruence.
    - unfold KV.delete. apply lookup_delete_eq. }
  intros now' uuid' cs' Htime.
  set (T1 := KV.delete ("refresh_token:" +:+ rt) _).
  assert (Hget : KV.get now' ("refresh_token:" +:+ uuid) T1
                 = Some (refresh_doc now (Some cid) api_key)).
  { unfold T1. rewrite KVFacts.get_delete_ne by done. by apply KVFacts.get_put_eq. }
  eexists _, _, _. split.
  { unfold handleRefreshToken, refresh_try.
    cbn [truthy val negb orb template].
    assert (String.eqb uuid EmptyString = false) as -> by by apply String.eqb_neq.
    assert (String.eqb cid EmptyString = false) as -> by by apply String.eqb_neq.
    cbn [negb orb]. rewrite Hget.
    unfold refresh_doc at 1 2. cbn [obj omap list_omap snd fst val prop member assoc bind].
    change (String.eqb "client_id" "client_id") with true. cbn iota.
    cbn [strict_eq]. rewrite String.eqb_refl. cbn [negb].
    reflexivity. }
  split; [done|]. split; [reflexivity|].
  split; [apply token_reply_members|].
  intros now'' uuid'' cid'' cs'' Hcid''.
  match goal with |- handleRefreshToken _ _ _ _ _ _ ?T = _ => set (T2 := T) end.
  destruct (refresh_absent now'' uuid'' (Some uuid) cid'' cs'' T2) as [Hr|[? _]];
    try done.
  - congruence.
  - unfold T2, KV.delete. apply lookup_delete_eq.
Qed.

(** ** Access tokens *)

Lemma assoc_set_assoc_eq (k : string) (v : json) (ms : list (string * json)) :
  assoc k (Jose.set_assoc k v ms) = Some v.
Proof.
  induction ms as [|[k' v'] ms IH]; cbn.
  - by rewrite String.eqb_refl.
  - destruct (String.eqb k' k) eqn:E; cbn; [by rewrite String.eqb_refl|].
    by rewrite E.
Qed.

Lemma assoc_set_assoc_ne (k k' : string) (v : json) (ms : list (string * json)) :
  k <> k' -> assoc k' (Jose.set_assoc k v ms) = assoc k' ms.
Proof.
  intros Hne. induction ms as [|[k0 v0] ms IH]; cbn.
  - by apply String.eqb_neq in Hne as ->.
  - destruct (String.eqb k0 k) eqn:E; cbn.
    + apply String.eqb_eq in E as ->. by apply String.eqb_neq in Hne as ->.
    + by rewrite IH.
Qed.

Lemma member_set_claim_eq (k : string) (v payload : json) :
  member (Jose.set_claim k v payload) k = Some v.
Proof.
  destruct payload; cbn; rewrite ?String.eqb_refl; try done.
  apply assoc_set_assoc_eq.
Qed.

(** The claims of an issued token: the payload with [iat] and [exp] set. *)
Lemma issued_claims_iat_exp t0 payload :
  member (Notions.issued_claims t0 payload) "iat" = Some (JNum (KV.seconds t0)) /\
  member (Notions.issued_claims t0 payload) "exp" = Some (JNum (KV.seconds t0 + 86400)).
Proof.
  unfold Notions.issued_claims, Jose.setExpirationTime, Jose.setIssuedAt, Jose.hours.
  split; [|apply member_set_claim_eq].
  unfold Jose.set_claim at 1.
  destruct (Jose.set_claim "iat" _ payload) as [| | | | |ms] eqn:E;
    try (by destruct payload).
  cbn [member]. rewrite assoc_set_assoc_ne by done.
  change (assoc "iat" ms) with (member (JObj ms) "iat"). rewrite <- E.
  apply member_set_claim_eq.
Qed.

(** C7.  A token is issued with [exp] 86400 seconds after [iat], the time
    of issue.  [verifyToken] answers every string with claims or [null]:
    the claims are those of a token whose signature is right, and a token
    whose signature is right but whose [exp] is not in the future is
    answered [null].  So a token issued at [t0] that the runtime verifies
    is accepted before [t0] plus 24 hours and refused from then on. *)
Theorem token_expiry t0 payload now :
  jws_verify (generateJWT JWT_SECRET t0 payload) JWT_SECRET
  = inr (Notions.issued_claims t0 payload) ->
  generateJWT JWT_SECRET t0 payload
  = jws_sign (obj [("alg", str "HS256")]) (Notions.issued_claims t0 payload) JWT_SECRET /\
  member (Notions.issued_claims t0 payload) "exp"
  = Some (JNum (KV.seconds t0 + 24 * 3600)) /\
  (forall token,
      verifyToken JWT_SECRET now token = None
      \/ exists claims,
           verifyToken JWT_SECRET now token = Some claims /\
           jws_verify token JWT_SECRET = inr claims) /\
  (forall token claims exp,
      jws_verify token JWT_SECRET = inr claims ->
      member claims "exp" = Some (JNum exp) ->
      exp <= KV.seconds now ->
      verifyToken JWT_SECRET now token = None) /\
  (KV.seconds t0 + 24 * 3600 <= KV.seconds now ->
   verifyToken JWT_SECRET now (generateJWT JWT_SECRET t0 payload) = None) /\
  (KV.seconds now < KV.seconds t0 + 24 * 3600 ->
   verifyToken JWT_SECRET now (generateJWT JWT_SECRET t0 payload)
   = Some (Notions.issued_claims t0 payload)).
Proof.
  intros Hverify.
  destruct (issued_claims_iat_exp t0 payload) as [_ Hexp].
  split; [done|]. split; [done|].
  split.
  { intros token. unfold verifyToken, Jose.jwtVerify.
    destruct (jws_verify token JWT_SECRET) as [e|claims]; [by left|].
    destruct (member claims "exp") as [[| |exp| | |]|]; eauto.
    case_bool_decide; eauto. }
  split.
  { intros token claims exp Hv Hm Hle. unfold verifyToken, Jose.jwtVerify.
    rewrite Hv, Hm. by rewrite bool_decide_eq_true_2. }
  unfold verifyToken, Jose.jwtVerify. rewrite Hverify, Hexp.
  split; intros Ht.
  - rewrite bool_decide_eq_true_2; [done|]. lia.
  - rewrite bool_decide_eq_false_2; [done|]. lia.
Qed.

End Exchange.

End OAuthSpec.

Module OAuthRuns.

Import Http OAuth Scenario.

(** C2, the claim as stated fails: the S256 authorization is exchanged
    with the right verifier and a client secret that is not the client's
    (PKCE takes precedence, the exchange succeeds); the same request sent
    again is answered [invalid_client] with status 401, not [invalid_grant]
    with status 400. *)
Lemma code_replay_is_invalid_client :
  let first := handleTokenExchange (H := rt) secret 1002000 "refresh-1"
                 (Some form_verifier_wrong_secret) authorized_s256 in
  let second := handleTokenExchange (H := rt) secret 1003000 "refresh-2"
                  (Some form_verifier_wrong_secret) first.1 in
  status first.2 = 200 /\
  second.2 = oauth_error (H := rt) "invalid_client" None 401 /\
  status second.2 = 401.
Proof. split; [|split]; vm_compute; reflexivity. Qed.

(** A run of [code_single_use]: the code of the S256 authorization is
    gone after the first exchange, and a second exchange is refused. *)
Lemma code_single_use_witness :
  exchanged !! "auth_code:code-1" = None /\
  forall now' uuid' form' T2 r2,
    get form' "grant_type" = Some "authorization_code" ->
    get form' "code" = Some "code-1" ->
    handleTokenExchange (H := rt) secret now' uuid' (Some form') exchanged = (T2, r2) ->
    T2 = exchanged /\
    (status r2 = 400 \/ status r2 = 401 \/ status r2 = 500) /\
    (forall client,
        truthy (val (get form' "client_id")) = true ->
        KV.get now' ("client:" +:+ template (get form' "client_id")) exchanged
        = Some client ->
        client <> JNull ->
        client_check_passes client (JObj []) (get form' "client_secret")
          (get form' "code_verifier") = true ->
        r2 = oauth_error (H := rt) "invalid_grant"
               (str "Authorization code expired or invalid") 400) /\
    (truthy (val (get form' "client_id")) = true ->
     KV.get now' ("client:" +:+ template (get form' "client_id")) exchanged = None ->
     r2 = oauth_error (H := rt) "invalid_client" None 401) /\
    (forall client,
        truthy (val (get form' "client_id")) = true ->
        KV.get now' ("client:" +:+ template (get form' "client_id")) exchanged
        = Some client ->
        client <> JNull ->
        client_check_passes client (JObj []) (get form' "client_secret")
          (get form' "code_verifier") = false ->
        r2 = oauth_error (H := rt) "invalid_client" None 401).
Proof.
  apply (OAuthSpec.code_single_use (H := rt) secret 1002000 "refresh-1"
           form_verifier_wrong_secret authorized_s256 exchanged
           (handleTokenExchange (H := rt) secret 1002000 "refresh-1"
              (Some form_verifier_wrong_secret) authorized_s256).2).
  - reflexivity.
  - reflexivity.
  - vm_compute. reflexivity.
Defined.

(** A run of [pkce_method_bypass]: the stored code carries the challenge
    of the verifier [abc] and the empty text as its method; a request with
    another verifier, and with a client secret that is not the client's, is
    answered 200. *)
Lemma pkce_method_bypass_witness :
  (exists authData,
      KV.get 1002000 "auth_code:code-1" authorized_no_method = Some authData /\
      member authData "code_challenge" = Some (JStr challenge) /\
      member authData "code_challenge_method" = Some (JStr EmptyString)) /\
  (exists client,
      KV.get 1002000 "client:client-1" authorized_no_method = Some client /\
      member client "client_secret" = Some (JStr "secret-1")) /\
  get form_other_verifier_wrong_secret "client_secret" = Some "not-the-secret" /\
  get form_other_verifier_wrong_secret "code_verifier" = Some "not-abc" /\
  s256 "not-abc" <> challenge /\
  status (handleTokenExchange (H := rt) secret 1002000 "refresh-1"
            (Some form_other_verifier_wrong_secret) authorized_no_method).2 = 200.
Proof.
  split; [eexists; repeat split; vm_compute; reflexivity|].
  split; [eexists; repeat split; vm_compute; reflexivity|].
  split; [reflexivity|]. split; [reflexivity|].
  split; [apply String.eqb_neq; vm_compute; reflexivity|].
  destruct (KV.get 1002000 "client:client-1" authorized_no_method) as [client|]
    eqn:Hclient; [|vm_compute in Hclient; discriminate Hclient].
  destruct (KV.get 1002000 "auth_code:code-1" authorized_no_method) as [authData|]
    eqn:Hcode; [|vm_compute in Hcode; discriminate Hcode].
  assert (Hstored :
    authData <> JNull /\
    member authData "code_challenge" = Some (JStr challenge) /\
    strict_eq (member authData "code_challenge_method") (str "S256") = false /\
    truthy (member authData "client_id") = true /\
    strict_eq (member authData "redirect_uri") (Some (JStr "http://localhost/cb"))
    = true).
  { assert (Hsame := Hcode). vm_compute in Hsame. injection Hsame as <-.
    split; [discriminate|]. repeat split; reflexivity. }
  destruct Hstored as (Hobject & Hchallenge & Hmethod & Hbound & Hredirect).
  destruct (OAuthSpec.pkce_method_bypass (H := rt) secret 1002000 "refresh-1"
              form_other_verifier_wrong_secret authorized_no_method client
              authData challenge "not-abc") as (_ & Hstatus & _);
    [reflexivity | reflexivity | reflexivity | exact Hclient | exact Hcode
    | exact Hobject | exact Hchallenge | discriminate | exact Hmethod | reflexivity
    | discriminate | exact Hbound | exact Hredirect | exact Hstatus].
Defined.

(** A run of [pkce_s256] on the S256 authorization: the verifier [abc]
    succeeds although the client secret of the request is wrong, and the
    verifier [not-abc] is answered [invalid_grant]. *)
Lemma pkce_s256_witness :
  s256 "abc" = challenge /\ s256 "not-abc" <> challenge /\
  status (handleTokenExchange (H := rt) secret 1002000 "refresh-1"
            (Some form_verifier_wrong_secret) authorized_s256).2 = 200 /\
  handleTokenExchange (H := rt) secret 1002000 "refresh-1"
    (Some form_other_verifier) authorized_s256
  = (authorized_s256,
     oauth_error (H := rt) "invalid_grant" (str "PKCE verification failed") 400).
Proof.
  assert (Hne : s256 "not-abc" <> challenge).
  { apply String.eqb_neq. vm_compute. reflexivity. }
  split; [vm_compute; reflexivity|]. split; [exact Hne|]. split.
  - edestruct (OAuthSpec.pkce_s256 (H := rt) secret 1002000 "refresh-1"
                 form_verifier_wrong_secret authorized_s256) as (_ & Hgood & _).
    1-5: vm_compute; reflexivity.
    1: discriminate.
    1: vm_compute; reflexivity.
    2: vm_compute; reflexivity.
    2: vm_compute; reflexivity.
    3: { rewrite Hgood; [reflexivity | reflexivity | vm_compute; reflexivity
                        | vm_compute; reflexivity]. }
    all: apply String.eqb_neq; vm_compute; reflexivity.
  - edestruct (OAuthSpec.pkce_s256 (H := rt) secret 1002000 "refresh-1"
                 form_other_verifier authorized_s256) as (Hbad & _ & _).
    1-5: vm_compute; reflexivity.
    1: discriminate.
    1: vm_compute; reflexivity.
    2: vm_compute; reflexivity.
    2: vm_compute; reflexivity.
    3: { apply Hbad, Hne. }
    all: apply String.eqb_neq; vm_compute; reflexivity.
Defined.

(** C8, the claim as stated fails: the code was issued without PKCE for
    [http://localhost/cb]; a request with another redirect URI and a client
    secret that is not the client's is answered [invalid_client] with status
    401, not [invalid_grant] with status 400. *)
Lemma redirect_mismatch_is_invalid_client :
  (exists authData,
      KV.get 1002000 "auth_code:code-1" authorized_no_pkce = Some authData /\
      member authData "redirect_uri" = Some (JStr "http://localhost/cb")) /\
  get form_other_redirect_wrong_secret "redirect_uri" = Some "http://elsewhere/cb" /\
  handleTokenExchange (H := rt) secret 1002000 "refresh-1"
    (Some form_other_redirect_wrong_secret) authorized_no_pkce
  = (authorized_no_pkce, oauth_error (H := rt) "invalid_client" None 401).
Proof.
  split; [eexists; split; vm_compute; reflexivity|].
  split; [reflexivity|]. vm_compute. reflexivity.
Qed.

(** A run of [redirect_uri_binding]: with the client's secret, the other
    redirect URI is answered [invalid_grant] and the store is unchanged. *)
Lemma redirect_uri_binding_witness :
  exists description,
    handleTokenExchange (H := rt) secret 1002000 "refresh-1"
      (Some form_other_redirect) authorized_no_pkce
    = (authorized_no_pkce,
       oauth_error (H := rt) "invalid_grant" (str description) 400).
Proof.
  destruct (handleTokenExchange (H := rt) secret 1002000 "refresh-1"
              (Some form_other_redirect) authorized_no_pkce) as [T2 r2] eqn:Hx.
  edestruct (OAuthSpec.redirect_uri_binding (H := rt) secret 1002000 "refresh-1"
               form_other_redirect authorized_no_pkce) as (HT & _ & Hgrant & _).
  - reflexivity.
  - vm_compute. reflexivity.
  - discriminate.
  - vm_compute. reflexivity.
  - exact Hx.
  - edestruct Hgrant as (d & Hr).
    1-3: vm_compute; reflexivity.
    1: discriminate.
    1: vm_compute; reflexivity.
    exists d. by rewrite HT, Hr.
Defined.

(** A run of [refresh_rotation] on the store left by the first exchange:
    [refresh-1] is rotated into [refresh-2], which the reply carries. *)
Lemma refresh_rotation_witness :
  let rotated :=
    (handleRefreshToken (H := rt) secret 1005000 "refresh-2"
       (Some "refresh-1") (Some "client-1") None exchanged).1 in
  rotated !! "refresh_token:refresh-1" = None /\
  is_Some (rotated !! "refresh_token:refresh-2") /\
  handleRefreshToken (H := rt) secret 1006000 "refresh-3"
    (Some "refresh-1") (Some "client-1") None rotated
  = (rotated,
     oauth_error (H := rt) "invalid_grant"
       (str "Invalid or expired refresh token") 400) /\
  status (handleRefreshToken (H := rt) secret 1006000 "refresh-3"
            (Some "refresh-2") (Some "client-1") None rotated).2 = 200 /\
  exists body,
    content (handleRefreshToken (H := rt) secret 1005000 "refresh-2"
               (Some "refresh-1") (Some "client-1") None exchanged).2
    = Text (JSON_stringify (Runtime := rt) body) /\
    member body "refresh_token" = str "refresh-2".
Proof.
  intros rotated.
  destruct (OAuthSpec.refresh_rotation (H := rt) secret 1005000 "refresh-2"
              (Some "refresh-1") (Some "client-1") None exchanged rotated
              (handleRefreshToken (H := rt) secret 1005000 "refresh-2"
                 (Some "refresh-1") (Some "client-1") None exchanged).2)
    as (_ & Hreply & Hold & Hnew & _ & Hreuse & Honce).
  - reflexivity.
  - vm_compute. reflexivity.
  - discriminate.
  - discriminate.
  - split; [exact Hold|]. split; [exact Hnew|]. split; [|split].
    + apply Hreuse. reflexivity.
    + destruct (Honce 1006000 "refresh-3" None) as (T2 & r2 & body2 & Hx & Hs & _).
      * vm_compute. reflexivity.
      * by rewrite Hx.
    + destruct Hreply as (accessToken & body & Hr & _ & _ & _ & Htoken).
      exists body. rewrite Hr. split; [reflexivity | exact Htoken].
Defined.

(** A run of [token_expiry] in a runtime that knows the claims of the
    token issued at [t0 = 1002000]: it is accepted one second before
    the 24 hours are over and refused when they are. *)
Lemma token_expiry_witness :
  let claims := access_claims 1002000 (Some "client-1") (str "marvin-key") in
  let known := Sim.runtime [issued_claims 1002000 claims] in
  let token := generateJWT (H := known) secret 1002000 claims in
  verifyToken (H := known) secret (1002000 + 86399000) token
  = Some (issued_claims 1002000 claims) /\
  verifyToken (H := known) secret (1002000 + 86400000) token = None.
Proof.
  intros claims known token. split.
  - destruct (OAuthSpec.token_expiry (H := known) secret 1002000 claims
                (1002000 + 86399000)) as (_ & _ & _ & _ & _ & Hok).
    + vm_compute. reflexivity.
    + apply Hok. vm_compute. reflexivity.
  - destruct (OAuthSpec.token_expiry (H := known) secret 1002000 claims
                (1002000 + 86400000)) as (_ & _ & _ & _ & Hexpired & _).
    + vm_compute. reflexivity.
    + apply Hexpired. vm_compute. discriminate.
Defined.

End OAuthRuns.

(* ===================================================================== *)
(** * Proofs: the protocol endpoint *)
(* ===================================================================== *)

Module WorkerSpec.

Import Http Marvin Worker.

Section Endpoint.

Context `{Runtime} {World : Type} `{Environment World}.
Variable MCP_TOOLS : list json.
Variable handleToolCall : MarvinAPIClient -> value -> json -> M (World := World) json.

Lemma strict_eq_str_inv (v : value) (s : string) :
  strict_eq v (str s) = true -> v = Some (JStr s).
Proof.
  destruct v as [[| | |s'| |]|]; cbn; try done.
  by intros ->%String.eqb_eq.
Qed.

(** The transport mode only matters to the [switch] on a notification. *)
Lemma dispatch_transport method params userInfo env cors supportsSSE s :
  dispatch MCP_TOOLS handleToolCall method params userInfo env cors supportsSSE s =
  if strict_eq method (str "notifications/initialized") then
    (s, inr (Return (if supportsSSE
                     then {| status := 200; headers := sse_headers cors;
                             content := Stream [] |}
                     else {| status := 204; headers := cors; content := NoBody |})))
  else dispatch MCP_TOOLS handleToolCall method params userInfo env cors false s.
Proof.
  destruct (strict_eq method (str "notifications/initialized")) eqn:E.
  - apply strict_eq_str_inv in E as ->. by destruct supportsSSE.
  - unfold dispatch. rewrite E. by repeat (destruct (strict_eq method _)).
Qed.

Lemma dispatch_no_return method params userInfo env cors s s' response :
  strict_eq method (str "notifications/initialized") = false ->
  dispatch MCP_TOOLS handleToolCall method params userInfo env cors false s
  <> (s', inr (Return response)).
Proof.
  intros E. unfold dispatch. rewrite E.
  repeat (destruct (strict_eq method _); [unfold mbind, ret, lift;
          repeat (case_match; simplify_eq); done|]).
  done.
Qed.

(** A [tools/call] that returns has a result, and so has every [case]
    that leaves one. *)
Lemma test_tool_result name userInfo env s s' (v : value) :
  test_tool name userInfo env s = (s', inr v) -> is_Some v.
Proof.
  unfold test_tool, try_catch, mbind, isoNow, ret, lift. intros E.
  crunch; eauto.
Qed.

Lemma tools_call_result params userInfo env s s' (v : value) :
  tools_call handleToolCall params userInfo env s = (s', inr v) -> is_Some v.
Proof.
  unfold tools_call, throw. intros E.
  destruct (negb (truthy (opt_member params "name"))); [by inversion E|].
  destruct (_ || _); [eapply test_tool_result; exact E|].
  destruct (negb (truthy userInfo)); [by inversion E|].
  unfold mbind, lift, ret in E. crunch; eauto.
Qed.

Lemma dispatch_result method params userInfo env cors supportsSSE s s' (v : value) :
  dispatch MCP_TOOLS handleToolCall method params userInfo env cors supportsSSE s
  = (s', inr (Result v)) ->
  is_Some v.
Proof.
  unfold dispatch. intros E.
  repeat match type of E with
         | (if ?c then _ else _) _ = _ => destruct c
         end;
    try (unfold mbind, lift, ret, throw in E; crunch; by eexists).
  unfold mbind in E.
  destruct (tools_call handleToolCall params userInfo env s) as [s1 [e|v']] eqn:Ecall;
    [by inversion E|].
  unfold ret in E. simplify_eq. eapply tools_call_result; exact Ecall.
Qed.

(** The members of the two JSON-RPC messages. *)
Lemma response_of_members (id : value) (result : json) :
  member (response_of id (Some result)) "jsonrpc" = str "2.0" /\
  member (response_of id (Some result)) "id" = id /\
  member (response_of id (Some result)) "result" = Some result /\
  member (response_of id (Some result)) "error" = None.
Proof. unfold response_of. by destruct id. Qed.

Lemma errorResponse_of_members (id : value) (error : Error) :
  member (errorResponse_of id error) "jsonrpc" = str "2.0" /\
  member (errorResponse_of id error) "id" = id /\
  member (errorResponse_of id error) "result" = None /\
  exists e,
    member (errorResponse_of id error) "error" = Some e /\
    member e "code" = num (-32603) /\
    member e "message" = str (message error).
Proof.
  unfold errorResponse_of.
  destruct id; cbn; (split; [done|]); (split; [done|]); (split; [done|]);
    by eexists.
Qed.

(** What a request other than the notification is answered with, in the
    two transport modes: the same state, and the same message, which is the
    [response] of the result or the [errorResponse] of the error that the
    [switch] left. *)
Lemma handleMCPRequest_message mcpRequest userInfo env cors s :
  strict_eq (member mcpRequest "method") (str "notifications/initialized") = false ->
  exists s' message,
    (forall supportsSSE,
        handleMCPRequest MCP_TOOLS handleToolCall mcpRequest userInfo env cors
          supportsSSE s
        = (s',
           if supportsSSE
           then {| status := 200;
                   headers := cors ++ [("Content-Type", "text/event-stream");
                                       ("Cache-Control", "no-cache");
                                       ("Connection", "keep-alive")];
                   content := Stream ["data: " +:+ JSON_stringify message
                                      +:+ LF +:+ LF] |}
           else {| status := 200;
                   headers := cors ++ [("Content-Type", "application/json")];
                   content := Text (JSON_stringify message) |})) /\
    match dispatch MCP_TOOLS handleToolCall (member mcpRequest "method")
            (member mcpRequest "params") userInfo env cors false s with
    | (s1, inr (Result v)) =>
        s' = s1 /\
        exists result, v = Some result /\
                       message = response_of (member mcpRequest "id") (Some result)
    | (s1, inl error) =>
        s' = s1 /\ message = errorResponse_of (member mcpRequest "id") error
    | (_, inr (Return _)) => False
    end.
Proof.
  intros Hmethod.
  destruct (dispatch MCP_TOOLS handleToolCall (member mcpRequest "method")
              (member mcpRequest "params") userInfo env cors false s)
    as [s1 [error|[response|v]]] eqn:Hrun.
  - exists s1, (errorResponse_of (member mcpRequest "id") error). split; [|done].
    intros supportsSSE. unfold handleMCPRequest.
    rewrite (dispatch_transport _ _ _ _ _ supportsSSE), Hmethod, Hrun.
    by destruct supportsSSE.
  - by apply dispatch_no_return in Hrun.
  - destruct (dispatch_result _ _ _ _ _ _ _ _ _ Hrun) as [result ->].
    exists s1, (response_of (member mcpRequest "id") (Some result)).
    split; [|by eauto].
    intros supportsSSE. unfold handleMCPRequest.
    rewrite (dispatch_transport _ _ _ _ _ supportsSSE), Hmethod, Hrun.
    by destruct supportsSSE.
Qed.

Lemma strict_eq_str_false (v : value) (s : string) :
  strict_eq v (str s) = false -> v <> str s.
Proof. intros Hne ->. cbn in Hne. by rewrite String.eqb_refl in Hne. Qed.

(** C5 (amended).  Whatever the request, the two transport modes leave
    the same state.  A request other than the notification
    [notifications/initialized] is answered 200 in both modes, with the same
    JSON-RPC message (version 2.0, the [id] of the request, and either a
    result or an error): as the text of a JSON body in one mode, as the data
    of the single event of a stream in the other; the headers differ in the
    content type and in the two stream headers.  The notification is
    answered with no message, and there the modes differ in the status too:
    200 with an empty stream, 204 with no body. *)
Theorem transport_symmetry mcpRequest userInfo env cors s :
  let streamed :=
    handleMCPRequest MCP_TOOLS handleToolCall mcpRequest userInfo env cors true s in
  let buffered :=
    handleMCPRequest MCP_TOOLS handleToolCall mcpRequest userInfo env cors false s in
  streamed.1 = buffered.1 /\
  ((member mcpRequest "method" <> str "notifications/initialized" /\
    exists message,
      streamed.2 = {| status := 200;
                      headers := cors ++ [("Content-Type", "text/event-stream");
                                          ("Cache-Control", "no-cache");
                                          ("Connection", "keep-alive")];
                      content := Stream ["data: " +:+ JSON_stringify message
                                         +:+ LF +:+ LF] |} /\
      buffered.2 = {| status := 200;
                      headers := cors ++ [("Content-Type", "application/json")];
                      content := Text (JSON_stringify message) |} /\
      member message "jsonrpc" = str "2.0" /\
      member message "id" = member mcpRequest "id" /\
      ((is_Some (member message "result") /\ member message "error" = None)
       \/ (member message "result" = None /\
           exists error,
             member message "error" = Some error /\
             member error "code" = num (-32603))))
   \/ (member mcpRequest "method" = str "notifications/initialized" /\
       streamed.2 = {| status := 200;
                       headers := cors ++ [("Content-Type", "text/event-stream");
                                           ("Cache-Control", "no-cache");
                                           ("Connection", "keep-alive")];
                       content := Stream [] |} /\
       buffered.2 = {| status := 204; headers := cors; content := NoBody |})).
Proof.
  cbn zeta.
  destruct (strict_eq (member mcpRequest "method") (str "notifications/initialized"))
    eqn:E.
  - unfold handleMCPRequest. rewrite (dispatch_transport _ _ _ _ _ true).
    rewrite (dispatch_transport _ _ _ _ _ false), E.
    split; [done|]. right. split; [by apply strict_eq_str_inv|]. by split.
  - destruct (handleMCPRequest_message mcpRequest userInfo env cors s E)
      as (s' & message & Hrun & Hshape).
    rewrite !Hrun. split; [done|]. left. split; [by apply strict_eq_str_false|].
    exists message. split; [done|]. split; [done|].
    destruct (dispatch MCP_TOOLS handleToolCall _ _ _ _ _ false s)
      as [s1 [error|[response|v]]]; [| done |].
    + destruct Hshape as [_ ->].
      destruct (errorResponse_of_members (member mcpRequest "id") error)
        as (Hv & Hid & Hresult & e & He & Hcode & _).
      split; [done|]. split; [done|]. right. by split; [|exists e].
    + destruct Hshape as (_ & result & _ & ->).
      destruct (response_of_members (member mcpRequest "id") result)
        as (Hv & Hid & Hresult & Herror).
      split; [done|]. split; [done|]. left. by split; [exists result|].
Qed.

(** [fetch] hands a well-formed message on to [handleMCPRequest], with the
    hardcoded API token and whatever the headers of the request are. *)
Lemma fetch_root_post headers mcpRequest env s :
  mcpRequest <> JNull ->
  fetch_root MCP_TOOLS handleToolCall
    {| request_method := "POST"; request_headers := headers;
       request_json := Some mcpRequest |} env s
  = handleMCPRequest MCP_TOOLS handleToolCall mcpRequest hardcoded_userInfo env
      corsHeaders (accepts_sse headers) s.
Proof.
  intros Hn. unfold fetch_root. cbn [request_method request_headers request_json].
  change (String.eqb "POST" "OPTIONS") with false.
  change (String.eqb "POST" "GET") with false.
  change (String.eqb "POST" "POST") with true. cbn [negb].
  rewrite !prop_not_null by done. cbn [bind].
  by destruct (strict_eq (member mcpRequest "method") (str "tools/call")).
Qed.

(** C9.  An [initialize] request whose [params] is an object without
    [protocolVersion] is answered with a JSON-RPC message whose [result] has
    the member [protocolVersion] with the value [2024-11-05], and no
    [error].  One without [params] gets no result: the message has an
    [error] with the code -32603 and no [result], and the HTTP status is
    200.  The message is the text of the body, or the data of the one event
    of the stream; the state is left as it was. *)
Theorem initialize_without_params headers mcpRequest env s :
  member mcpRequest "method" = Some (JStr "initialize") ->
  let request :=
    {| request_method := "POST"; request_headers := headers;
       request_json := Some mcpRequest |} in
  let answer := fetch_root MCP_TOOLS handleToolCall request env s in
  let carried (message : json) :=
    answer.2
    = if accepts_sse headers
      then {| status := 200;
              headers := corsHeaders ++ [("Content-Type", "text/event-stream");
                                         ("Cache-Control", "no-cache");
                                         ("Connection", "keep-alive")];
              content := Stream ["data: " +:+ JSON_stringify message +:+ LF +:+ LF] |}
      else {| status := 200;
              headers := corsHeaders ++ [("Content-Type", "application/json")];
              content := Text (JSON_stringify message) |} in
  (forall ps,
      member mcpRequest "params" = Some (JObj ps) ->
      assoc "protocolVersion" ps = None ->
      answer.1 = s /\
      exists message result,
        carried message /\
        message = response_of (member mcpRequest "id")
                    (Some (initialize_result (str "2024-11-05"))) /\
        member message "jsonrpc" = str "2.0" /\
        member message "id" = member mcpRequest "id" /\
        member message "result" = Some result /\
        member message "error" = None /\
        member result "protocolVersion" = Some (JStr "2024-11-05") /\
        opt_member (member result "serverInfo") "name"
        = Some (JStr "Amazing Marvin Remote MCP")) /\
  (member mcpRequest "params" = None ->
   answer.1 = s /\
   exists message error thrown,
     carried message /\
     message = errorResponse_of (member mcpRequest "id") thrown /\
     status answer.2 = 200 /\
     member message "jsonrpc" = str "2.0" /\
     member message "id" = member mcpRequest "id" /\
     member message "result" = None /\
     member message "error" = Some error /\
     member error "code" = Some (JNum (-32603)) /\
     member error "message" = Some (JStr (JS.message thrown)) /\
     member error "data" = Some (obj [("stack", Error_stack thrown)])).
Proof.
  intros Hm request answer carried.
  assert (Hn : mcpRequest <> JNull) by (intros ->; done).
  unfold carried, answer, request. rewrite fetch_root_post by done.
  unfold handleMCPRequest, dispatch. rewrite Hm.
  cbn [strict_eq str]. change (String.eqb "initialize" "initialize") with true.
  cbn iota. split.
  - intros ps Hp Hv. rewrite Hp. cbn [prop_of prop member lift mbind ret].
    rewrite Hv. cbn [or_else fst snd]. split; [reflexivity|].
    destruct (response_of_members (member mcpRequest "id")
                (initialize_result (str "2024-11-05")))
      as (Hversion & Hid & Hresult & Herror).
    eexists _, _. split; [by destruct (accepts_sse headers)|].
    split; [reflexivity|]. split; [exact Hversion|]. split; [exact Hid|].
    split; [exact Hresult|]. split; [exact Herror|]. by split.
  - intros Hp. rewrite Hp. cbn [prop_of lift mbind fst snd]. split; [reflexivity|].
    match goal with
    | |- context [errorResponse_of ?id ?e] =>
        destruct (errorResponse_of_members id e)
          as (Hversion & Hid & Hresult & error & Herror & Hcode & Htext);
        exists (errorResponse_of id e), error, e
    end.
    split; [by destruct (accepts_sse headers)|].
    split; [reflexivity|]. split; [by destruct (accepts_sse headers)|].
    split; [exact Hversion|]. split; [exact Hid|]. split; [exact Hresult|].
    split; [exact Herror|]. split; [exact Hcode|]. split; [exact Htext|].
    unfold errorResponse_of in Herror.
    destruct (member mcpRequest "id"); cbn in Herror; by simplify_eq.
Qed.

(** C1, what the code does instead: a [tools/call] of [get_tasks] is
    served whatever the headers of the request are (with no [Authorization]
    header too), and the Resource Client of the call is built from the
    hardcoded token, not from a claim of a verified access token. *)
Theorem tool_call_without_token headers id arguments env s :
  fetch_root MCP_TOOLS handleToolCall
    {| request_method := "POST";
       request_headers := headers;
       request_json :=
         Some (JObj [("jsonrpc", JStr "2.0");
                     ("id", id);
                     ("method", JStr "tools/call");
                     ("params", JObj [("name", JStr "get_tasks");
                                      ("arguments", JObj arguments)])]) |} env s
  = let apiClient :=
      new_client (str "7jRRMJUcqfAxQTFABtEMytsAf4I=") (Some env) in
    match handleToolCall apiClient (str "get_tasks") (JObj arguments) s with
    | (s', inr toolResult) =>
        (s', deliver (response_of (Some id) (text_content toolResult))
               corsHeaders (accepts_sse headers))
    | (s', inl error) =>
        (s', deliver (errorResponse_of (Some id) error)
               corsHeaders (accepts_sse headers))
    end.
Proof.
  rewrite fetch_root_post by done.
  unfold handleMCPRequest, dispatch, tools_call, mbind, ret, lift.
  cbn -[deliver response_of errorResponse_of text_content new_client].
  by destruct (handleToolCall _ _ _ s) as [s' [error|toolResult]].
Qed.

End Endpoint.

End WorkerSpec.

(* ===================================================================== *)
(** * Proofs: batches and cache eviction of the API client *)
(* ===================================================================== *)

Module MarvinSpec.

Import Http Marvin.

Section Client.

Context `{Runtime} {World : Type} `{Environment World}.
Variable this : MarvinAPIClient.

Implicit Types s : State (World := World).

(** ** Batches *)

Lemma Promise_all_map {A B C : Type} (f : A -> M B) (g : A -> M C)
    (h : Error + B -> C) (xs : list A) s :
  (forall x s0, g x s0 = ((f x s0).1, inr (h (f x s0).2))) ->
  Promise_all (map g xs) s = (after f xs s, inr (map h (attempts f xs s))).
Proof.
  intros Hg. revert s. induction xs as [|x xs IH]; intros s; [done|].
  cbn [map Promise_all after attempts]. rewrite Hg, IH. reflexivity.
Qed.

Lemma mark_one_run (id : json) s :
  mark_one this id s
  = ((markTaskDone this (Some id) s).1,
     inr (succeeded (markTaskDone this (Some id) s).2)).
Proof.
  unfold mark_one, try_catch, mbind, ret.
  by destruct (markTaskDone this (Some id) s) as [s' [e|r]].
Qed.

Lemma create_one_run (taskData : json) s :
  create_one this taskData s
  = ((createTask this taskData s).1,
     inr (match (createTask this taskData s).2 with
          | inr result => data result
          | inl _ => Some JNull
          end)).
Proof.
  unfold create_one, try_catch, mbind, ret.
  by destruct (createTask this taskData s) as [s' [e|r]].
Qed.

Lemma createResponse_run (d : value) (message : string) (itemCount : value) s :
  exists s' r,
    createResponse d message itemCount s = (s', inr r) /\
    data r = d /\ summary_message r = message /\ success r = true /\
    CACHE s' = CACHE s /\ journal s' = journal s.
Proof.
  unfold createResponse, mbind, isoNow, uuidM, ret.
  destruct (randomUUID (world s)) as [w u]. cbn. eauto 10.
Qed.

Lemma successes_failures {B : Type} (os : list (Error + B)) :
  (successes os + failures os = length os)%nat.
Proof.
  unfold successes, failures. induction os as [|[e|b] os IH]; cbn; lia.
Qed.

Lemma length_attempts {A B : Type} (f : A -> M B) (xs : list A) s :
  length (attempts f xs s) = length xs.
Proof. revert s. induction xs as [|x xs IH]; intros s; cbn; [done|]. by rewrite IH. Qed.

Lemma count_true (os : list (Error + StandardResponse)) :
  length (filter (fun r => r = true) (map succeeded os)) = successes os.
Proof.
  unfold successes. induction os as [|[e|b] os IH]; [done| |]; cbn [map succeeded].
  - by rewrite filter_cons_False.
  - rewrite filter_cons_True by done. cbn. by rewrite IH.
Qed.

Lemma reported_marks (os : list (Error + StandardResponse)) :
  length (List.filter (fun d => negb (failure_entry d))
            (map JBool (map succeeded os))) = successes os /\
  length (List.filter failure_entry (map JBool (map succeeded os))) = failures os.
Proof.
  unfold successes, failures.
  induction os as [|[e|b] os [IH1 IH2]]; cbn; [done| |]; by rewrite ?IH1, ?IH2.
Qed.

Lemma mbind_inr {A B : Type} (m : M A) (k : A -> M B) s s' (b : B) :
  mbind m k s = (s', inr b) ->
  exists s1 a, m s = (s1, inr a) /\ k a s1 = (s', inr b).
Proof.
  unfold mbind. destruct (m s) as [s1 [e|a]]; [done|]. eauto.
Qed.

Lemma convertTask_obj (task projects categories labels d : json) :
  convertTask task projects categories labels = inr d -> exists ms, d = JObj ms.
Proof.
  unfold convertTask. intros Hc. repeat step_in Hc. unfold obj. eauto.
Qed.

Lemma createTask_data (taskData : json) s s' r :
  createTask this taskData s = (s', inr r) -> exists ms, data r = Some (JObj ms).
Proof.
  unfold createTask. intros Hc.
  do 4 (apply mbind_inr in Hc as (? & ? & _ & Hc)).
  apply mbind_inr in Hc as (s1 & cleanTask & Hconv & Hc).
  unfold lift in Hconv. injection Hconv as _ Hconv.
  apply convertTask_obj in Hconv as [ms ->].
  destruct (createResponse_run (Some (JObj ms))
              ("Created task: " +:+ String_of (member (JObj ms) "title")) None s1)
    as (s2 & r2 & Hr & Hd & _).
  rewrite Hr in Hc. injection Hc as _ <-. eauto.
Qed.

(** The created tasks among the outcomes of a batch, in order. *)
Lemma created_tasks (tasks : list json) s :
  let creations := attempts (createTask this) tasks s in
  let results :=
    map (fun o => match o with
                  | inr result => data result
                  | inl _ => Some JNull
                  end) creations in
  length (not_null results) = successes creations /\
  length (List.filter (fun d => negb (failure_entry d))
            (map (default JNull) (not_null results))) = successes creations /\
  length (List.filter failure_entry (map (default JNull) (not_null results))) = 0%nat /\
  map (default JNull) (not_null results) = answered creations /\
  Forall (fun d => exists ms, d = JObj ms) (answered creations).
Proof.
  cbn zeta. unfold successes, not_null, answered. revert s.
  induction tasks as [|t tasks IH]; intros s; [done|].
  cbn [attempts map].
  destruct (createTask this t s) as [s' [e|r]] eqn:Hc; cbn [fst snd succeeded].
  - rewrite filter_cons_False by (cbn; congruence). apply IH.
  - apply createTask_data in Hc as [ms Hd]. rewrite Hd.
    rewrite filter_cons_True by done.
    destruct (IH s') as (IH1 & IH2 & IH3 & IH4 & IH5).
    cbn. rewrite Hd. rewrite IH1. cbn in IH2, IH3. rewrite IH2, IH3.
    split; [done|]. split; [done|]. split; [done|].
    split; [by rewrite IH4|]. constructor; [by exists ms|done].
Qed.

(** C6 (amended).  A batch never throws and attempts every item,
    whether the one before it failed or not; its response is a success.
    With N items of which M fail, [batchMarkDone] answers with one boolean
    per item, in the order of the items, N-M of them [true] and M [false],
    and the message "Marked N-M/N tasks as completed"; [batchCreateTasks]
    answers with the N-M tasks that were created, each the clean task that
    its [createTask] answered with, in the order of the items, no entry for
    the M items that failed, and the message "Created N-M/N tasks". *)
Theorem batch_partial_failure (ids tasks : list json) s :
  let marks := attempts (fun id => markTaskDone this (Some id)) ids s in
  let creations := attempts (createTask this) tasks s in
  (exists s' r,
      batchMarkDone this (JArr ids) s = (s', inr r) /\
      success r = true /\
      data r = Some (JArr (map JBool (map succeeded marks))) /\
      length (entries r) = length ids /\
      reported_successes r = (length ids - failures marks)%nat /\
      reported_failures r = failures marks /\
      summary_message r
      = "Marked " +:+ pretty (Z.of_nat (length ids - failures marks)) +:+ "/"
        +:+ pretty (Z.of_nat (length ids)) +:+ " tasks as completed") /\
  (exists s' r,
      batchCreateTasks this (JArr tasks) s = (s', inr r) /\
      success r = true /\
      data r = Some (JArr (answered creations)) /\
      Forall (fun d => exists ms, d = JObj ms) (entries r) /\
      length (entries r) = (length tasks - failures creations)%nat /\
      reported_successes r = (length tasks - failures creations)%nat /\
      reported_failures r = 0%nat /\
      summary_message r
      = "Created " +:+ pretty (Z.of_nat (length tasks - failures creations)) +:+ "/"
        +:+ pretty (Z.of_nat (length tasks)) +:+ " tasks").
Proof.
  intros marks creations. split.
  - unfold batchMarkDone. unfold mbind at 1 2. unfold lift. cbn [as_array].
    rewrite (Promise_all_map (fun id => markTaskDone this (Some id)) _ succeeded)
      by apply mark_one_run.
    fold marks.
    assert (Hn : (length ids - failures marks)%nat = successes marks).
    { pose proof (successes_failures marks) as Hsf. unfold marks in *.
      rewrite length_attempts in Hsf. lia. }
    match goal with |- context [createResponse ?d ?m ?i ?s0] =>
      destruct (createResponse_run d m i s0) as (s' & r & Hr & Hd & Hm & Hok & _)
    end.
    exists s', r. rewrite Hr. split; [done|]. split; [done|]. split; [done|].
    unfold reported_successes, reported_failures, entries. rewrite Hd, Hm.
    unfold arr. destruct (reported_marks marks) as [Hs Hf].
    split; [unfold marks; by rewrite !length_map, length_attempts|].
    split; [by rewrite Hs|]. split; [done|].
    unfold len. by rewrite count_true, Hn.
  - unfold batchCreateTasks. unfold mbind at 1 2. unfold lift. cbn [as_array].
    rewrite (Promise_all_map (createTask this) _
               (fun o => match o with
                         | inr result => data result
                         | inl _ => Some JNull
                         end))
      by apply create_one_run.
    fold creations.
    assert (Hn : (length tasks - failures creations)%nat = successes creations).
    { pose proof (successes_failures creations) as Hsf. unfold creations in *.
      rewrite length_attempts in Hsf. lia. }
    destruct (created_tasks tasks s) as (Hlen & Hs & Hf & Hdata & Hobjects).
    fold creations in Hlen, Hs, Hf, Hdata, Hobjects.
    match goal with |- context [createResponse ?d ?m ?i ?s0] =>
      destruct (createResponse_run d m i s0) as (s' & r & Hr & Hd & Hm & Hok & _)
    end.
    exists s', r. rewrite Hr. split; [done|]. split; [done|].
    unfold reported_successes, reported_failures, entries. rewrite Hd, Hm.
    unfold arr. rewrite <- Hdata.
    split; [done|]. split; [by rewrite Hdata|].
    rewrite length_map, Hlen, Hs, Hf, Hn.
    repeat split; try done.
    unfold len. by rewrite Hlen.
Qed.

End Client.

End MarvinSpec.

Module CacheSpec.

Import Http Marvin.

Section Client.

Context `{Runtime} {World : Type} `{Environment World}.
Variable this : MarvinAPIClient.

Implicit Types s : State (World := World).

Local Abbreviation quiet := (@Notions.quiet World _).
Local Abbreviation write_evicts := (@Notions.write_evicts _ World _ _).
Local Abbreviation M := (@Marvin.M World).

Lemma deleted_app (l1 l2 : list kv_call) : deleted (l1 ++ l2) = deleted l1 ++ deleted l2.
Proof. unfold deleted. apply omap_app. Qed.

Lemma evicts_refl s : evicts [] s s.
Proof. exists []. by rewrite app_nil_r. Qed.

Lemma evicts_trans (d1 d2 : list string) s s1 s2 :
  evicts d1 s s1 -> evicts d2 s1 s2 -> evicts (d1 ++ d2) s s2.
Proof.
  intros (l1 & Hj1 & Hd1 & Hf1) (l2 & Hj2 & Hd2 & Hf2).
  exists (l1 ++ l2). rewrite Hj2, Hj1, app_assoc, deleted_app, Hd1, Hd2.
  split; [done|]. split; [done|].
  intros k Hk Hs. apply Hf2, Hf1; try done; set_solver.
Qed.

(** ** Computations that delete nothing *)

Lemma quiet_ret {A : Type} (a : A) : quiet (ret a).
Proof. intros s. apply evicts_refl. Qed.

Lemma quiet_throw {A : Type} (e : Error) : quiet (throw (A := A) e).
Proof. intros s. apply evicts_refl. Qed.

Lemma quiet_lift {A : Type} (r : Error + A) : quiet (lift r).
Proof. intros s. apply evicts_refl. Qed.

Lemma quiet_mbind {A B : Type} (m : M A) (k : A -> M B) :
  quiet m -> (forall a, quiet (k a)) -> quiet (mbind m k).
Proof.
  intros Hm Hk s. unfold mbind. specialize (Hm s).
  destruct (m s) as [s1 [e|a]]; [done|].
  apply (evicts_trans [] [] s s1); [done|apply Hk].
Qed.

Lemma quiet_then {A B : Type} (m : M A) (f : A -> B) : quiet m -> quiet (then_ m f).
Proof. intros Hm. apply quiet_mbind; [done|]. intros a. apply quiet_ret. Qed.

Lemma quiet_all2 {A B : Type} (p : M A) (q : M B) : quiet p -> quiet q -> quiet (all2 p q).
Proof.
  intros Hp Hq s. unfold all2. specialize (Hp s).
  destruct (p s) as [s1 r1]. specialize (Hq s1). destruct (q s1) as [s2 r2].
  apply (evicts_trans [] [] s s1 s2); done.
Qed.

Lemma quiet_all3 {A B C : Type} (p : M A) (q : M B) (r : M C) :
  quiet p -> quiet q -> quiet r -> quiet (all3 p q r).
Proof. intros. unfold all3. by apply quiet_then, quiet_all2; [|apply quiet_all2]. Qed.

Lemma quiet_cache_get (key : string) : quiet (cache_get key).
Proof. intros s. exists [KvGet key]. done. Qed.

Lemma quiet_cache_put (key : string) (d : json) (ttl : Z) : quiet (cache_put key d ttl).
Proof.
  intros s. exists [KvPut key]. split; [done|]. split; [done|].
  intros k _ Hs. cbn. unfold KV.put.
  destruct (decide (key = k)) as [->|Hne].
  - rewrite lookup_insert_eq. eauto.
  - by rewrite lookup_insert_ne.
Qed.

Lemma quiet_fetchM (url : string) (init : RequestInit) : quiet (fetchM url init).
Proof.
  intros s. unfold fetchM. destruct (fetch url init (world s)) as [w r].
  exists []. by rewrite app_nil_r.
Qed.

Lemma quiet_isoNow : quiet isoNow.
Proof. intros s. apply evicts_refl. Qed.

Lemma quiet_uuidM : quiet uuidM.
Proof.
  intros s. unfold uuidM. destruct (randomUUID (world s)) as [w u].
  exists []. by rewrite app_nil_r.
Qed.

Lemma quiet_makeRequest (endpoint : string) (options : RequestInit) :
  quiet (makeRequest this endpoint options).
Proof.
  unfold makeRequest. apply quiet_mbind; [apply quiet_fetchM|].
  intros response. destruct (negb (ok response)); [apply quiet_throw|apply quiet_lift].
Qed.

Lemma quiet_getCachedOrFetch (key : string) (fetchFn : M json) (ttl : Z) :
  quiet fetchFn -> quiet (getCachedOrFetch key fetchFn ttl).
Proof.
  intros Hf. unfold getCachedOrFetch. apply quiet_mbind; [apply quiet_cache_get|].
  intros [d|]; [apply quiet_ret|].
  apply quiet_mbind; [done|]. intros data.
  apply quiet_mbind; [apply quiet_cache_put|]. intros _. apply quiet_ret.
Qed.

Lemma quiet_createResponse (d : value) (message : string) (itemCount : value) :
  quiet (createResponse d message itemCount).
Proof.
  unfold createResponse. apply quiet_mbind; [apply quiet_isoNow|]. intros t.
  apply quiet_mbind; [apply quiet_uuidM|]. intros u. apply quiet_ret.
Qed.

Lemma quiet_getLabels : quiet (getLabels this).
Proof.
  unfold getLabels.
  apply quiet_mbind; [apply quiet_getCachedOrFetch, quiet_makeRequest|]. intros labels.
  apply quiet_mbind; [apply quiet_lift|]. intros clean. apply quiet_createResponse.
Qed.

Lemma quiet_getCategories : quiet (getCategories this).
Proof.
  unfold getCategories.
  apply quiet_mbind; [apply quiet_getCachedOrFetch, quiet_makeRequest|]. intros cats.
  apply quiet_mbind; [apply quiet_lift|]. intros clean. apply quiet_createResponse.
Qed.

Lemma quiet_getProjects : quiet (getProjects this).
Proof.
  unfold getProjects.
  apply quiet_mbind.
  { apply quiet_all2; [apply quiet_getCachedOrFetch, quiet_makeRequest|].
    apply quiet_then, quiet_getLabels. }
  intros both. apply quiet_mbind; [apply quiet_lift|]. intros projects.
  apply quiet_mbind; [apply quiet_lift|]. intros clean. apply quiet_createResponse.
Qed.

(** ** [invalidateCache] *)

Lemma invalidateCache_run (prefixes : list string) s :
  invalidateCache prefixes s
  = ({| world := world s;
        CACHE := foldl (fun ns k => KV.delete k ns) (CACHE s) (keysToDelete (today s));
        journal := journal s ++ map KvDelete (keysToDelete (today s)) |},
     inr tt).
Proof.
  unfold invalidateCache, today, keysToDelete, mbind, isoNow, ret.
  cbn [map Promise_all cache_delete world CACHE journal foldl].
  by rewrite <- !app_assoc.
Qed.

Lemma deleted_deletes (keys : list string) : deleted (map KvDelete keys) = keys.
Proof. unfold deleted. induction keys as [|k keys IH]; cbn; [done|]. by rewrite IH. Qed.

Lemma lookup_foldl_delete (keys : list string) (ns : KV.namespace) (k : string) :
  foldl (fun ns k => KV.delete k ns) ns keys !! k
  = if decide (k ∈ keys) then None else ns !! k.
Proof.
  revert ns. induction keys as [|k' keys IH]; intros ns; cbn [foldl].
  - rewrite decide_False; [done|]. by intros ?%elem_of_nil.
  - rewrite IH. unfold KV.delete.
    destruct (decide (k ∈ keys)) as [Hin|Hout].
    + rewrite decide_True; [done|]. by apply list_elem_of_further.
    + destruct (decide (k = k')) as [->|Hne].
      * rewrite decide_True; [apply lookup_delete_eq|]. apply list_elem_of_here.
      * rewrite decide_False; [by apply lookup_delete_ne|].
        by intros [?|?]%elem_of_cons.
Qed.

Lemma invalidateCache_evicts (prefixes : list string) s :
  evicts (keysToDelete (today s)) s (invalidateCache prefixes s).1.
Proof.
  rewrite invalidateCache_run. cbn [fst].
  exists (map KvDelete (keysToDelete (today s))).
  split; [done|]. split; [apply deleted_deletes|].
  intros k Hk Hs. cbn [CACHE]. rewrite lookup_foldl_delete. by rewrite decide_False.
Qed.

(** ** Write operations *)

Lemma write_after_invalidate {A : Type} (prefixes : list string) (k : unit -> M A) :
  (forall u, quiet (k u)) -> write_evicts (mbind (invalidateCache prefixes) k).
Proof.
  intros Hk s. right. exists s. unfold mbind.
  pose proof (invalidateCache_evicts prefixes s) as Hi.
  rewrite invalidateCache_run in *. cbn [fst] in Hi.
  rewrite <- (app_nil_r (keysToDelete (today s))).
  eapply evicts_trans; [exact Hi|apply Hk].
Qed.

Lemma write_mbind {A B : Type} (m : M A) (k : A -> M B) :
  quiet m -> (forall a, write_evicts (k a)) -> write_evicts (mbind m k).
Proof.
  intros Hm Hk s. unfold mbind. specialize (Hm s).
  destruct (m s) as [s1 [e|a]]; [by left|].
  destruct (Hk a s1) as [[He Hf]|[s0 He]].
  - left. split; [|done]. by apply (evicts_trans [] [] s s1).
  - right. exists s0. by apply (evicts_trans [] _ s s1).
Qed.

Lemma write_throw {A : Type} (e : Error) :
  write_evicts (throw (A := A) e).
Proof. intros s. left. split; [apply evicts_refl|done]. Qed.

Lemma write_createTask (taskData : json) : write_evicts (createTask this taskData).
Proof.
  unfold createTask. apply write_mbind; [apply quiet_lift|]. intros payload.
  apply write_mbind; [apply quiet_makeRequest|]. intros newTask.
  apply write_after_invalidate. intros _.
  apply quiet_mbind.
  { apply quiet_all3; apply quiet_then;
      [apply quiet_getProjects|apply quiet_getCategories|apply quiet_getLabels]. }
  intros refs. apply quiet_mbind; [apply quiet_lift|]. intros cleanTask.
  apply quiet_createResponse.
Qed.

Lemma write_markTaskDone (taskId : value) : write_evicts (markTaskDone this taskId).
Proof.
  unfold markTaskDone. apply write_mbind; [apply quiet_makeRequest|]. intros _.
  apply write_after_invalidate. intros _. apply quiet_createResponse.
Qed.

Lemma write_deleteTask (taskId : value) : write_evicts (deleteTask this taskId).
Proof.
  unfold deleteTask. destruct (negb (isCouchDBConfigured this)); [apply write_throw|].
  apply write_mbind; [apply quiet_lift|]. intros auth.
  apply write_mbind; [apply quiet_fetchM|]. intros getResponse.
  destruct (negb (ok getResponse)); [apply write_throw|].
  apply write_mbind; [apply quiet_lift|]. intros doc.
  apply write_mbind; [apply quiet_lift|]. intros rev.
  apply write_mbind; [apply quiet_lift|]. intros auth2.
  apply write_mbind; [apply quiet_fetchM|]. intros deleteResponse.
  destruct (negb (ok deleteResponse)); [apply write_throw|].
  apply write_after_invalidate. intros _. apply quiet_createResponse.
Qed.

Lemma write_createProject (projectData : json) :
  write_evicts (createProject this projectData).
Proof.
  unfold createProject. apply write_mbind; [apply quiet_lift|]. intros payload.
  apply write_mbind; [apply quiet_makeRequest|]. intros newProject.
  apply write_after_invalidate. intros _.
  apply quiet_mbind.
  { apply quiet_all2; apply quiet_then; [apply quiet_getProjects|apply quiet_getLabels]. }
  intros refs. apply quiet_mbind; [apply quiet_lift|]. intros cleanProject.
  apply quiet_createResponse.
Qed.

(** ** Keys that no write deletes *)

Lemma prefix_app (sub b : string) : String.prefix sub (sub +:+ b) = true.
Proof.
  induction sub as [|c sub IH]; simpl.
  - by destruct b.
  - destruct (ascii_dec c c) as [_|Hne]; [exact IH | by destruct Hne].
Qed.

Lemma contains_unfold (sub s : string) :
  contains sub s
  = String.prefix sub s || match s with
                           | EmptyString => false
                           | String _ rest => contains sub rest
                           end.
Proof. by destruct s. Qed.

Lemma contains_middle (sub a b : string) : contains sub (a +:+ sub +:+ b) = true.
Proof.
  induction a as [|c a IH]; rewrite contains_unfold.
  - change (EmptyString +:+ sub +:+ b) with (sub +:+ b). by rewrite prefix_app.
  - change (String c a +:+ sub +:+ b) with (String c (a +:+ sub +:+ b)).
    cbn iota. rewrite IH. apply orb_true_r.
Qed.

Lemma not_among_keysToDelete (day date days label : string) :
  (("due_items:" +:+ date) ∉ keysToDelete day) /\
  ("labels:all" ∉ keysToDelete day) /\
  ("categories:all" ∉ keysToDelete day) /\
  (label <> "none" -> ("all_tasks:" +:+ label) ∉ keysToDelete day) /\
  (contains ":" day = false ->
   ("completed:" +:+ days +:+ ":" +:+ date) ∉ keysToDelete day).
Proof.
  unfold keysToDelete. rewrite !not_elem_of_cons.
  repeat split; try (by cbn); try apply not_elem_of_nil.
  - intros Heq. apply (append_inj "all_tasks:") in Heq. congruence.
  - intros Heq. apply (append_inj "completed:") in Heq. subst day.
    by rewrite contains_middle in *.
Qed.

Lemma append_grows (s t : string) : t <> EmptyString -> s <> s +:+ t.
Proof.
  intros Ht. induction s as [|c s IH]; cbn.
  - intros Heq. apply Ht. by symmetry.
  - intros [= Heq]. by apply IH.
Qed.

Lemma five_keys_distinct (day : string) : NoDup (keysToDelete day).
Proof.
  unfold keysToDelete.
  assert (Hraw : "tasks:" +:+ day <> "tasks:" +:+ day +:+ ":raw").
  { intros Heq. apply append_inj in Heq. by apply append_grows in Heq. }
  repeat (apply NoDup_cons; split;
          [rewrite ?not_elem_of_cons; repeat split;
           first [exact Hraw | by cbn | apply not_elem_of_nil]|]).
  apply NoDup_nil_2.
Qed.


End Client.

End CacheSpec.

Module ClientRuns.

Import Http Marvin Runs.

(** C6, the claim as stated fails for [batchCreateTasks]: of two tasks
    the second fails; the response lists the one created task and has no
    entry that reports the failure (in the same world [batchMarkDone]
    reports its failed item as [false]). *)
Lemma batch_create_drops_failures :
  failures (attempts (createTask (H := rt) (H0 := Sim.environment) client)
              two_tasks start) = 1%nat /\
  match (batchCreateTasks (H := rt) (H0 := Sim.environment) client
           (JArr two_tasks) start).2 with
  | inr r =>
      length (entries r) = 1%nat /\ reported_failures r = 0%nat /\
      summary_message r = "Created 1/2 tasks"
  | inl _ => False
  end /\
  match (batchMarkDone (H := rt) (H0 := Sim.environment) client
           (JArr three_ids) start).2 with
  | inr r => data r = Some (JArr [JBool true; JBool false; JBool true])
  | inl _ => False
  end.
Proof. split; [|split]; vm_compute; repeat split; reflexivity. Qed.

(** A run of [initialize_without_params]: with the empty [params] object
    the body is a message whose result has the default version; without
    [params] the body is a message with the error -32603, under status
    200. *)
Lemma initialize_without_params_witness :
  (exists message result,
      content (Worker.fetch_root (H := rt) (H0 := Sim.environment) [] no_tools
                 (post initialize_empty_params) env start).2
      = Text (JSON_stringify (Runtime := rt) message) /\
      member message "result" = Some result /\
      member result "protocolVersion" = Some (JStr "2024-11-05")) /\
  (exists message error,
      content (Worker.fetch_root (H := rt) (H0 := Sim.environment) [] no_tools
                 (post initialize_no_params) env start).2
      = Text (JSON_stringify (Runtime := rt) message) /\
      status (Worker.fetch_root (H := rt) (H0 := Sim.environment) [] no_tools
                (post initialize_no_params) env start).2 = 200 /\
      member message "result" = None /\
      member message "error" = Some error /\
      member error "code" = Some (JNum (-32603))).
Proof.
  split.
  - destruct (WorkerSpec.initialize_without_params (H := rt) (H0 := Sim.environment)
                [] no_tools [("Content-Type", "application/json")]
                initialize_empty_params env start) as [Hdefault _];
      [reflexivity|].
    destruct (Hdefault []) as (_ & message & result & Hcarried & _ & _ & _ & Hresult
                               & _ & Hversion & _); [reflexivity..|].
    exists message, result.
    split; [exact (f_equal content Hcarried)|]. by split.
  - destruct (WorkerSpec.initialize_without_params (H := rt) (H0 := Sim.environment)
                [] no_tools [("Content-Type", "application/json")]
                initialize_no_params env start) as [_ Hthrown];
      [reflexivity|].
    destruct (Hthrown eq_refl) as (_ & message & error & thrown & Hcarried & _ & Hstatus
                                   & _ & _ & Hresult & Herror & Hcode & _).
    exists message, error.
    split; [exact (f_equal content Hcarried)|].
    split; [exact Hstatus|]. by split.
Defined.

(** C5, the claim as stated fails: the notification
    [notifications/initialized] is answered with status 200 and an empty
    stream in one transport mode, with status 204 and no body in the other;
    the two answers differ in more than the content type and the event
    envelope. *)
Lemma notification_differs_in_status :
  let notification :=
    JObj [("jsonrpc", JStr "2.0"); ("method", JStr "notifications/initialized")] in
  let streamed :=
    (Worker.handleMCPRequest (H := rt) (H0 := Sim.environment) [] no_tools notification
       Worker.hardcoded_userInfo env Worker.corsHeaders true start).2 in
  let buffered :=
    (Worker.handleMCPRequest (H := rt) (H0 := Sim.environment) [] no_tools notification
       Worker.hardcoded_userInfo env Worker.corsHeaders false start).2 in
  status streamed = 200 /\ content streamed = Stream [] /\
  status buffered = 204 /\ content buffered = NoBody /\
  status streamed <> status buffered.
Proof. repeat split; vm_compute; congruence. Qed.

End ClientRuns.

(* ===================================================================== *)
(** * Proofs: the outcomes of the token endpoint *)
(* ===================================================================== *)

Module OAuthFlows.

Import Http OAuth.

Section Flows.

Context `{Runtime}.
Variable JWT_SECRET : string.

(** The outcome of either grant: tokens and the two writes, or an error
    and no write. *)
Lemma refresh_outcome now uuid rt cid cs TOKENS T' r :
  handleRefreshToken JWT_SECRET now uuid rt cid cs TOKENS = (T', r) ->
  (status r = 200 /\
   is_Some (KV.get now ("refresh_token:" +:+ template rt) TOKENS) /\
   exists doc,
     T' = KV.delete ("refresh_token:" +:+ template rt)
            (KV.put now ("refresh_token:" +:+ uuid) doc (86400 * 30) TOKENS))
  \/ ((status r = 400 \/ status r = 500) /\ T' = TOKENS).
Proof.
  unfold handleRefreshToken, refresh_try. intros E.
  crunch; try (right; split; [cbn; auto|done]).
  left. split; [done|]. split; [done|]. eauto.
Qed.

Lemma code_outcome now uuid form TOKENS T' r :
  strict_eq (val (get form "grant_type")) (str "refresh_token") = false ->
  handleTokenExchange JWT_SECRET now uuid (Some form) TOKENS = (T', r) ->
  (status r = 200 /\
   is_Some (KV.get now ("auth_code:" +:+ template (get form "code")) TOKENS) /\
   exists doc,
     T' = KV.delete ("auth_code:" +:+ template (get form "code"))
            (KV.put now ("refresh_token:" +:+ uuid) doc (86400 * 30) TOKENS))
  \/ ((status r = 400 \/ status r = 401 \/ status r = 500) /\ T' = TOKENS).
Proof.
  unfold handleTokenExchange, exchange_try, verify_client, redeem_code.
  intros -> E.
  destruct (KV.get now ("auth_code:" +:+ template (get form "code")) TOKENS)
    as [authData|] eqn:Hcode; cbn [default from_option id] in E.
  - crunch; try (right; split; [cbn; auto|done]).
    all: left; split; [done|]; split; [done|eauto].
  - cbn in E. crunch; right; split; cbn; auto.
Qed.

(** The keys of client records are no keys of codes or refresh tokens. *)
Lemma client_key_apart (id k : string) :
  "client:" +:+ id <> "auth_code:" +:+ k /\ "client:" +:+ id <> "refresh_token:" +:+ k.
Proof. split; discriminate. Qed.

Lemma lookup_delete_put now (k k' key : string) (doc : json) ttl (ns : KV.namespace) :
  key <> k -> key <> k' ->
  KV.delete k (KV.put now k' doc ttl ns) !! key = ns !! key.
Proof.
  intros. unfold KV.delete, KV.put.
  by rewrite lookup_delete_ne, lookup_insert_ne.
Qed.

(** X1.  The token endpoint answers 200, 400, 401 or 500.  An answer other
    than 200 leaves the store as it was.  An answer 200 has consumed a
    code or a refresh token that was there, and has changed the store
    under two keys only: the consumed one, which is gone, and the one of
    the new refresh token.  Client registrations are never touched. *)
Theorem token_endpoint_outcomes now uuid formData TOKENS :
  let TOKENS' := (handleTokenExchange JWT_SECRET now uuid formData TOKENS).1 in
  let r := (handleTokenExchange JWT_SECRET now uuid formData TOKENS).2 in
  (status r = 200 \/ status r = 400 \/ status r = 401 \/ status r = 500) /\
  (status r <> 200 -> TOKENS' = TOKENS) /\
  (forall id, TOKENS' !! ("client:" +:+ id) = TOKENS !! ("client:" +:+ id)) /\
  (status r = 200 ->
   exists form consumed,
     formData = Some form /\
     (consumed = "auth_code:" +:+ template (get form "code")
      \/ consumed = "refresh_token:" +:+ template (get form "refresh_token")) /\
     is_Some (KV.get now consumed TOKENS) /\
     TOKENS' !! consumed = None /\
     forall k, k <> consumed -> k <> "refresh_token:" +:+ uuid ->
               TOKENS' !! k = TOKENS !! k).
Proof.
  cbn zeta.
  destruct (handleTokenExchange JWT_SECRET now uuid formData TOKENS) as [T' r] eqn:E.
  cbn [fst snd].
  destruct formData as [form|]; [|by cbn in E; simplify_eq; cbn; repeat split; auto].
  assert (Hcases :
    exists consumed,
      (consumed = "auth_code:" +:+ template (get form "code")
       \/ consumed = "refresh_token:" +:+ template (get form "refresh_token")) /\
      ((status r = 200 /\ is_Some (KV.get now consumed TOKENS) /\
        exists doc, T' = KV.delete consumed
                           (KV.put now ("refresh_token:" +:+ uuid) doc (86400 * 30) TOKENS))
       \/ ((status r = 400 \/ status r = 401 \/ status r = 500) /\ T' = TOKENS))).
  { destruct (strict_eq (val (get form "grant_type")) (str "refresh_token")) eqn:Hg.
    - exists ("refresh_token:" +:+ template (get form "refresh_token")).
      split; [by right|].
      unfold handleTokenExchange, exchange_try in E. rewrite Hg in E.
      apply refresh_outcome in E. destruct E as [E|[[E|E] ->]]; auto 6.
    - exists ("auth_code:" +:+ template (get form "code")).
      split; [by left|]. by apply code_outcome. }
  destruct Hcases as (consumed & Hconsumed & [(Hst & Hthere & doc & ->)|(Hst & ->)]).
  - split; [auto|]. split; [done|]. split.
    + intros id. apply lookup_delete_put.
      * destruct Hconsumed as [-> | ->]; apply client_key_apart.
      * apply client_key_apart.
    + intros _. exists form, consumed. repeat split; try done.
      * unfold KV.delete. apply lookup_delete_eq.
      * intros k Hk1 Hk2. by apply lookup_delete_put.
  - split; [tauto|]. split; [done|]. split; [done|].
    intros Hst'. rewrite Hst' in Hst. by destruct Hst as [|[|]].
Qed.

End Flows.

End OAuthFlows.

(* ===================================================================== *)
(** * Proofs: client registration *)
(* ===================================================================== *)

Module OAuthRegistration.

Import Http OAuth.

Section Registration.

Context `{Runtime}.

Lemma or_else_Some (a : value) (d : json) : exists d', or_else a (Some d) = Some d'.
Proof. unfold or_else. destruct (truthy a) eqn:E; [|eauto]. destruct a; [eauto|done]. Qed.

Lemma get_put_expired now now' k d ttl (ns : KV.namespace) :
  KV.seconds now + ttl <= KV.seconds now' ->
  KV.get now' k (KV.put now k d ttl ns) = None.
Proof.
  intros. unfold KV.get, KV.put. rewrite lookup_insert_eq.
  rewrite bool_decide_eq_false_2; [done|lia].
Qed.

(** X2.  A registration whose body parses to anything but [null] answers
    201 with the new identifier and secret, and stores the client under
    [client:<id>]: the record is read back for thirty days and is gone
    afterwards, although the answer announces a secret that never expires.
    No other key changes.  A body that does not parse, or [null], answers
    400 and stores nothing. *)
Theorem registration_round_trip now uuid1 uuid2 body TOKENS :
  let TOKENS' := (handleClientRegistration now uuid1 uuid2 body TOKENS).1 in
  let r := (handleClientRegistration now uuid1 uuid2 body TOKENS).2 in
  (exists request answer client,
      body = Some request /\ request <> JNull /\
      status r = 201 /\ content r = Text (JSON_stringify answer) /\
      member answer "client_id" = str uuid1 /\
      member answer "client_secret" = str uuid2 /\
      member answer "client_secret_expires_at" = num 0 /\
      member answer "redirect_uris"
      = or_else (member request "redirect_uris") (Some (JArr [])) /\
      member client "client_id" = str uuid1 /\
      member client "client_secret" = str uuid2 /\
      member client "redirect_uris" = member answer "redirect_uris" /\
      (forall now', KV.seconds now' < KV.seconds now + 86400 * 30 ->
                    KV.get now' ("client:" +:+ uuid1) TOKENS' = Some client) /\
      (forall now', KV.seconds now + 86400 * 30 <= KV.seconds now' ->
                    KV.get now' ("client:" +:+ uuid1) TOKENS' = None) /\
      (forall k, k <> "client:" +:+ uuid1 -> TOKENS' !! k = TOKENS !! k))
  \/ ((body = None \/ body = Some JNull) /\ TOKENS' = TOKENS /\
      r = oauth_error "invalid_request" (str "Invalid client registration request") 400).
Proof.
  cbn zeta. unfold handleClientRegistration.
  destruct body as [request|]; [|right; auto].
  assert (Hrequest : request = JNull \/ request <> JNull)
    by (destruct request; auto).
  destruct Hrequest as [->|Hrequest]; [right; auto|].
  left. rewrite !prop_not_null by done. cbn [bind fst snd].
  destruct (or_else_Some (member request "redirect_uris") (JArr [])) as [uris Huris].
  destruct (or_else_Some (member request "client_name") (JStr "Claude MCP Client"))
    as [name Hname].
  eexists request, _,
    (client_doc now uuid1 uuid2
       (or_else (member request "redirect_uris") (Some (JArr [])))
       (or_else (member request "client_name") (str "Claude MCP Client"))).
  split; [done|]. split; [done|].
  split; [reflexivity|]. split; [reflexivity|].
  unfold client_doc, str, num. rewrite Huris, Hname.
  split; [reflexivity|]. split; [reflexivity|]. split; [reflexivity|].
  split; [reflexivity|].
  split; [reflexivity|]. split; [reflexivity|]. split; [reflexivity|].
  split; [|split].
  - intros now' Hnow'. by apply KVFacts.get_put_eq.
  - intros now' Hnow'. by apply get_put_expired.
  - intros k Hk. unfold KV.put. by rewrite lookup_insert_ne.
Qed.

End Registration.

End OAuthRegistration.

(* ===================================================================== *)
(** * Proofs: the authorization endpoint *)
(* ===================================================================== *)

Module OAuthAuthorization.

Import Http OAuth.

Section Authorization.

Context `{Runtime}.

Lemma strict_eq_val_str (x : option string) (s : string) :
  strict_eq (val x) (str s) = true <-> x = Some s.
Proof.
  destruct x as [s'|]; cbn; [|split; done].
  rewrite String.eqb_eq. split; [by intros ->|by intros [= ->]].
Qed.

(** X3.  The authorization endpoint asks three things of a [GET]: a client
    identifier, a redirect URI and the response type [code].  Without them
    it answers 400 and stores nothing.  With them it answers 200 with the
    form, whatever the client and whatever the redirect URI: a client that
    is registered is left as it is (its registered redirect URIs are not
    consulted), and one that is not is registered on the spot, with the
    redirect URI of the request, for thirty days.  No other key changes. *)
Theorem authorization_registers_unknown_client now uuid searchParams TOKENS :
  let TOKENS' := (handleAuthorization now uuid searchParams TOKENS).1 in
  let r := (handleAuthorization now uuid searchParams TOKENS).2 in
  let clientId := get searchParams "client_id" in
  let redirectUri := get searchParams "redirect_uri" in
  (status r = 400 /\ content r = Text "Invalid authorization request" /\
   TOKENS' = TOKENS /\
   (truthy (val clientId) = false \/ truthy (val redirectUri) = false
    \/ get searchParams "response_type" <> Some "code"))
  \/ (exists cid uri state challenge challenge_method,
         clientId = Some cid /\ cid <> EmptyString /\
         redirectUri = Some uri /\ uri <> EmptyString /\
         get searchParams "response_type" = Some "code" /\
         status r = 200 /\
         content r = Html (AuthorizationForm cid uri state challenge challenge_method) /\
         (is_Some (KV.get now ("client:" +:+ cid) TOKENS) -> TOKENS' = TOKENS) /\
         (KV.get now ("client:" +:+ cid) TOKENS = None ->
          forall now', KV.seconds now' < KV.seconds now + 86400 * 30 ->
            KV.get now' ("client:" +:+ cid) TOKENS'
            = Some (client_doc now cid uuid (Some (JArr [JStr uri]))
                      (str "Claude MCP Auto-registered Client"))) /\
         is_Some (KV.get now ("client:" +:+ cid) TOKENS') /\
         (forall k, k <> "client:" +:+ cid -> TOKENS' !! k = TOKENS !! k)).
Proof.
  cbn zeta. unfold handleAuthorization.
  destruct (truthy (val (get searchParams "client_id"))) eqn:Hc; cbn [negb orb];
    [|by left; repeat split; auto].
  destruct (truthy (val (get searchParams "redirect_uri"))) eqn:Hu; cbn [negb orb];
    [|by left; repeat split; auto].
  destruct (strict_eq (val (get searchParams "response_type")) (str "code")) eqn:Ht;
    cbn [negb orb fst snd].
  2: { left. repeat split; try done. right. right. intros Hcode.
       apply strict_eq_val_str in Hcode. congruence. }
  right.
  apply truthy_val in Hc as (cid & Hcid & Hcid').
  apply truthy_val in Hu as (uri & Huri & Huri').
  apply strict_eq_val_str in Ht. rewrite Hcid, Huri. cbn [template].
  eexists cid, uri, _, _, _. do 6 (split; [done|]). split; [reflexivity|].
  destruct (KV.get now ("client:" +:+ cid) TOKENS) as [client|] eqn:Hclient.
  - split; [done|]. split; [done|]. split; [by rewrite Hclient|done].
  - split; [by intros []|]. split; [|split].
    + intros _ now' Hnow'. by apply KVFacts.get_put_eq.
    + rewrite KVFacts.get_put_eq; [done|lia].
    + intros k Hk. unfold KV.put. by rewrite lookup_insert_ne.
Qed.

End Authorization.

End OAuthAuthorization.

(* ===================================================================== *)
(** * Proofs: the S256 challenge *)
(* ===================================================================== *)

Module PkceSpec.

Import Http OAuth Alphabet.

Lemma digest_bytes (msg : list Z) :
  length (SHA256.digest msg) = 32%nat /\
  Forall (fun b => 0 <= b < 256) (SHA256.digest msg).
Proof.
  unfold SHA256.digest.
  generalize (fold_left SHA256.block
                (SHA256.chunks (length (SHA256.pad msg)) 64 (SHA256.pad msg))
                SHA256.initial).
  intros h. cbn [map concat SHA256.be_bytes app]. split; [reflexivity|].
  repeat constructor; apply Z.mod_pos_bound; lia.
Qed.

Lemma url_safe_digit (i : Z) (s : string) :
  0 <= i < 64 ->
  Base64.url_safe (String (Base64.digit i) s)
  = String (url_char (Base64.digit i)) (Base64.url_safe s) /\
  base64url_char (url_char (Base64.digit i)) = true.
Proof.
  intros Hi.
  assert (Hall : forallb (fun n => negb (Ascii.eqb (Base64.digit (Z.of_nat n)) "=")
                                   && base64url_char (url_char (Base64.digit (Z.of_nat n))))
                         (seq 0 64) = true) by (vm_compute; reflexivity).
  rewrite forallb_forall in Hall.
  assert (Hin : In (Z.to_nat i) (seq 0 64)) by (apply in_seq; lia).
  apply Hall in Hin. rewrite Z2Nat.id in Hin by lia.
  apply andb_prop in Hin as [Hpad Hchar].
  split; [|done].
  cbn [Base64.url_safe]. unfold url_char.
  destruct (Ascii.eqb (Base64.digit i) "+"); [done|].
  destruct (Ascii.eqb (Base64.digit i) "/"); [done|].
  by destruct (Ascii.eqb (Base64.digit i) "=").
Qed.

Lemma url_safe_btoa (n : nat) (bytes : list Z) :
  (length bytes <= n)%nat ->
  Forall (fun b => 0 <= b < 256) bytes ->
  String.length (Base64.url_safe (Base64.btoa bytes)) = unpadded (length bytes) /\
  forallb base64url_char (list_ascii_of_string (Base64.url_safe (Base64.btoa bytes))) = true.
Proof.
  revert bytes. induction n as [|n IH]; intros bytes Hn Hbytes.
  { destruct bytes; [done|cbn in Hn; lia]. }
  destruct bytes as [|a [|b [|c rest]]].
  - done.
  - apply Forall_cons in Hbytes as [Ha _]. cbn [Base64.btoa].
    destruct (url_safe_digit (a / 4) (String (Base64.digit (a mod 4 * 16)) "=="))
      as [-> H1]; [Z.div_mod_to_equations; lia|].
    destruct (url_safe_digit (a mod 4 * 16) "==") as [-> H2];
      [Z.div_mod_to_equations; lia|].
    cbn. by rewrite H1, H2.
  - apply Forall_cons in Hbytes as [Ha [Hb _]%Forall_cons]. cbn [Base64.btoa].
    destruct (url_safe_digit (a / 4)
                (String (Base64.digit (a mod 4 * 16 + b / 16))
                   (String (Base64.digit (b mod 16 * 4)) "=")))
      as [-> H1]; [Z.div_mod_to_equations; lia|].
    destruct (url_safe_digit (a mod 4 * 16 + b / 16)
                (String (Base64.digit (b mod 16 * 4)) "="))
      as [-> H2]; [Z.div_mod_to_equations; lia|].
    destruct (url_safe_digit (b mod 16 * 4) "=") as [-> H3];
      [Z.div_mod_to_equations; lia|].
    cbn. by rewrite H1, H2, H3.
  - apply Forall_cons in Hbytes as [Ha [Hb [Hc Hrest]%Forall_cons]%Forall_cons].
    cbn [Base64.btoa].
    destruct (url_safe_digit (a / 4)
                (String (Base64.digit (a mod 4 * 16 + b / 16))
                   (String (Base64.digit (b mod 16 * 4 + c / 64))
                      (String (Base64.digit (c mod 64)) (Base64.btoa rest)))))
      as [-> H1]; [Z.div_mod_to_equations; lia|].
    destruct (url_safe_digit (a mod 4 * 16 + b / 16)
                (String (Base64.digit (b mod 16 * 4 + c / 64))
                   (String (Base64.digit (c mod 64)) (Base64.btoa rest))))
      as [-> H2]; [Z.div_mod_to_equations; lia|].
    destruct (url_safe_digit (b mod 16 * 4 + c / 64)
                (String (Base64.digit (c mod 64)) (Base64.btoa rest)))
      as [-> H3]; [Z.div_mod_to_equations; lia|].
    destruct (url_safe_digit (c mod 64) (Base64.btoa rest)) as [-> H4];
      [Z.div_mod_to_equations; lia|].
    destruct (IH rest) as [Hlen Hchars]; [cbn in Hn; lia|done|].
    cbn [String.length list_ascii_of_string forallb length].
    rewrite H1, H2, H3, H4, Hchars, Hlen. split; [|done].
    unfold unpadded.
    replace (S (S (S (length rest)))) with (length rest + 1 * 3)%nat by lia.
    rewrite Nat.div_add, Nat.Div0.mod_add by lia. lia.
Qed.

Lemma s256_text (verifier : string) :
  String.length (s256 verifier) = 43%nat /\
  forallb base64url_char (list_ascii_of_string (s256 verifier)) = true.
Proof.
  unfold s256.
  destruct (digest_bytes (Base64.encode_utf8 verifier)) as [Hlen Hbytes].
  destruct (url_safe_btoa 32 (SHA256.digest (Base64.encode_utf8 verifier)))
    as [Hlength Hchars]; [lia|exact Hbytes|].
  rewrite Hlen in Hlength. split; [exact Hlength|exact Hchars].
Qed.

Lemma s256_not_empty (verifier : string) : s256 verifier <> EmptyString.
Proof.
  intros Hempty. destruct (s256_text verifier) as [Hlen _].
  rewrite Hempty in Hlen. discriminate Hlen.
Qed.

(** X6.  The text the token endpoint compares with a stored S256
    challenge is always forty-three characters of the base64url alphabet
    (letters, digits, [-] and [_], no padding).  A stored challenge that is
    anything else, base64 with [+], [/] or [=] for one, fails the
    comparison whatever the verifier. *)
Theorem s256_is_base64url (verifier : string) :
  String.length (s256 verifier) = 43%nat /\
  forallb base64url_char (list_ascii_of_string (s256 verifier)) = true /\
  forall (challenge : string),
    String.length challenge <> 43%nat
    \/ forallb base64url_char (list_ascii_of_string challenge) = false ->
    strict_eq (str (s256 verifier)) (str challenge) = false.
Proof.
  destruct (s256_text verifier) as [Hlen Hchars].
  split; [exact Hlen|]. split; [exact Hchars|].
  intros challenge Hother. unfold str, strict_eq. apply String.eqb_neq. intros Heq.
  rewrite Heq in Hlen, Hchars. destruct Hother as [Hother|Hother]; congruence.
Qed.

End PkceSpec.

(* ===================================================================== *)
(** * Proofs: the authorization code flow *)
(* ===================================================================== *)

Module OAuthCodeFlow.

Import Http OAuth.

Section Flow.

Context `{Runtime}.
Variable JWT_SECRET : string.

Lemma truthy_str (s : string) : s <> EmptyString -> truthy (str s) = true.
Proof. intros Hs. cbn. by apply negb_true_iff, String.eqb_neq. Qed.

(** X4.  The authorization code flow with PKCE, end to end.  The user
    submits a key that the upstream accepts, with the S256 challenge of a
    verifier; the code is good for ten minutes.  Within them, the exchange
    that presents the code, the same client and redirect URI, and the
    verifier, gets a token whose claims carry the submitted key, and the
    refresh token is bound to that key; the reply is a JSON body with the
    access token and the new refresh token.  From ten minutes on the same
    exchange is answered [invalid_grant] and changes nothing. *)
Theorem authorization_code_flow (probe : string -> Error + bool) t0 t1 code uuid
    (fields form : FormData) TOKENS client cid uri key verifier :
  get fields "client_id" = Some cid -> cid <> EmptyString ->
  get fields "redirect_uri" = Some uri -> uri <> EmptyString ->
  get fields "api_key" = Some key -> key <> EmptyString ->
  get fields "code_challenge" = Some (s256 verifier) ->
  get fields "code_challenge_method" = Some "S256" ->
  probe key = inr true ->
  code <> EmptyString -> verifier <> EmptyString ->
  get form "grant_type" = Some "authorization_code" ->
  get form "code" = Some code ->
  get form "client_id" = Some cid ->
  get form "redirect_uri" = Some uri ->
  get form "code_verifier" = Some verifier ->
  get form "client_secret" = None ->
  KV.get t1 ("client:" +:+ cid) TOKENS = Some client ->
  let authorized := (handleAuthorizationSubmit probe t0 code (Some fields) TOKENS).1 in
  (KV.seconds t1 < KV.seconds t0 + 600 ->
   handleTokenExchange JWT_SECRET t1 uuid (Some form) authorized
   = (KV.delete ("auth_code:" +:+ code)
        (KV.put t1 ("refresh_token:" +:+ uuid)
           (refresh_doc t1 (Some cid) (str key)) (86400 * 30) authorized),
      json_response
        (tokenResponse
           (generateJWT JWT_SECRET t1 (access_claims t1 (Some cid) (str key))) uuid)
        200 content_json_cors)) /\
  (KV.seconds t0 + 600 <= KV.seconds t1 ->
   handleTokenExchange JWT_SECRET t1 uuid (Some form) authorized
   = (authorized,
      oauth_error "invalid_grant" (str "Authorization code expired or invalid") 400)) /\
  (KV.seconds t1 < KV.seconds t0 + 600 ->
   exists accessToken body,
     content (handleTokenExchange JWT_SECRET t1 uuid (Some form) authorized).2
     = Text (JSON_stringify body) /\
     member body "access_token" = str accessToken /\
     member body "refresh_token" = str uuid).
Proof.
  intros Hcid Hcid' Huri Huri' Hkey Hkey' Hchallenge Hmethod Hprobe Hcode Hverifier
    Hgrant Hfcode Hfcid Hfuri Hfverifier Hfsecret Hclient authorized.
  match goal with
  | |- ?within /\ ?beyond /\ _ => assert (Hboth : within /\ beyond)
  end.
  2: { destruct Hboth as [Hwithin Hbeyond].
       split; [exact Hwithin|]. split; [exact Hbeyond|].
       intros Htime. rewrite (Hwithin Htime).
       eexists _, _. split; [reflexivity|].
       split; apply OAuthSpec.token_reply_members. }
  assert (Hauthorized :
    authorized = KV.put t0 ("auth_code:" +:+ code)
                   (auth_code_doc t0 (Some cid) (Some uri) (Some key)
                      (Some (s256 verifier)) (Some "S256")) 600 TOKENS).
  { unfold authorized, handleAuthorizationSubmit.
    rewrite Hcid, Huri, Hkey, Hchallenge, Hmethod.
    rewrite (proj2 (truthy_val (Some cid))), (proj2 (truthy_val (Some uri))),
      (proj2 (truthy_val (Some key))) by eauto.
    cbn [negb orb template]. rewrite Hprobe.
    by destruct (URL_with_params _ _). }
  assert (Hclient' : KV.get t1 ("client:" +:+ cid) authorized = Some client).
  { rewrite Hauthorized, KVFacts.get_put_ne; [done|discriminate]. }
  pose proof (PkceSpec.s256_not_empty verifier) as Hnonempty.
  rewrite !(OAuthSpec.exchange_unfold JWT_SECRET) by done.
  rewrite Hfcode, Hfcid, Hfuri, Hfverifier, Hfsecret.
  rewrite (proj2 (truthy_val (Some cid))), (proj2 (truthy_val (Some code))) by eauto.
  cbn [negb orb template]. rewrite Hclient'.
  split; intros Htime.
  - assert (Hget : KV.get t1 ("auth_code:" +:+ code) authorized
                   = Some (auth_code_doc t0 (Some cid) (Some uri) (Some key)
                             (Some (s256 verifier)) (Some "S256")))
      by (rewrite Hauthorized; by apply KVFacts.get_put_eq).
    rewrite Hget. cbn [default from_option id].
    unfold verify_client, redeem_code, auth_code_doc.
    cbn -[s256 generateJWT access_claims refresh_doc tokenResponse].
    rewrite String.eqb_refl.
    rewrite (proj2 (String.eqb_neq _ _) Hnonempty),
      (proj2 (String.eqb_neq _ _) Hverifier), (proj2 (String.eqb_neq _ _) Hcid').
    cbn [negb andb]. by rewrite String.eqb_refl.
  - assert (Hget : KV.get t1 ("auth_code:" +:+ code) authorized = None)
      by (rewrite Hauthorized; by apply OAuthRegistration.get_put_expired).
    rewrite Hget. by cbn.
Qed.

End Flow.

End OAuthCodeFlow.

(* ===================================================================== *)
(** * Proofs: the refresh grant *)
(* ===================================================================== *)

Module OAuthRefresh.

Import Http OAuth.

Section Refresh.

Context `{Runtime}.
Variable JWT_SECRET : string.

Lemma member_refresh_doc now (cid : option string) (api_key : value) :
  member (refresh_doc now cid api_key) "client_id" = val cid /\
  member (refresh_doc now cid api_key) "api_key" = api_key.
Proof. unfold refresh_doc. by destruct cid, api_key. Qed.

Lemma member_access_claims now (cid : option string) (api_key : value) :
  member (access_claims now cid api_key) "sub" = val cid /\
  member (access_claims now cid api_key) "amazing_marvin_api_key" = api_key.
Proof. unfold access_claims. by destruct cid, api_key. Qed.

(** X5.  A refresh hands the credential on.  When a refresh succeeds, the
    client of the request is the one the presented token was issued to, the
    new access token is signed over claims that carry the upstream key
    stored with the presented token, and the new refresh token is stored
    with the same client and the same key, for thirty days; the reply is a
    JSON body with the access token and the new refresh token.  The client
    secret of the request is not looked at. *)
Theorem refresh_keeps_credential now uuid refreshToken clientId clientSecret
    TOKENS TOKENS' r doc :
  handleRefreshToken JWT_SECRET now uuid refreshToken clientId clientSecret TOKENS
  = (TOKENS', r) ->
  status r = 200 ->
  KV.get now ("refresh_token:" +:+ template refreshToken) TOKENS = Some doc ->
  uuid <> template refreshToken ->
  member doc "client_id" = val clientId /\
  (exists claims,
      r = json_response (tokenResponse (generateJWT JWT_SECRET now claims) uuid)
            200 content_json_cors /\
      member claims "sub" = member doc "client_id" /\
      member claims "amazing_marvin_api_key" = member doc "api_key") /\
  (exists doc',
      (forall now', KV.seconds now' < KV.seconds now + 86400 * 30 ->
                    KV.get now' ("refresh_token:" +:+ uuid) TOKENS' = Some doc') /\
      member doc' "client_id" = member doc "client_id" /\
      member doc' "api_key" = member doc "api_key") /\
  (forall clientSecret',
      handleRefreshToken JWT_SECRET now uuid refreshToken clientId clientSecret' TOKENS
      = (TOKENS', r)) /\
  (exists accessToken body,
      content r = Text (JSON_stringify body) /\
      member body "access_token" = str accessToken /\
      member body "refresh_token" = str uuid).
Proof.
  intros Hrun Hstatus Hdoc Hfresh.
  assert (Hsecret : forall clientSecret',
    handleRefreshToken JWT_SECRET now uuid refreshToken clientId clientSecret' TOKENS
    = (TOKENS', r)) by (intros cs'; exact Hrun).
  unfold handleRefreshToken, refresh_try in Hrun. rewrite Hdoc in Hrun.
  crunch; try discriminate Hstatus.
  match goal with
  | E : prop doc "client_id" = inr ?c, E' : prop doc "api_key" = inr ?k |- _ =>
      assert (Hc : c = member doc "client_id") by (destruct doc; by simplify_eq/=);
      assert (Hk : k = member doc "api_key") by (destruct doc; by simplify_eq/=);
      subst c k
  end.
  match goal with
  | E : negb (strict_eq (member doc "client_id") (val clientId)) = false |- _ =>
      apply negb_false_iff in E; rename E into Hsame
  end.
  assert (Hcid : member doc "client_id" = val clientId).
  { match goal with
    | E : negb (truthy (val refreshToken)) || negb (truthy (val clientId)) = false |- _ =>
        apply orb_false_elim in E as [_ E]; apply negb_false_iff, truthy_val in E;
        rename E into Hclient
    end.
    destruct Hclient as (s & -> & _). by apply WorkerSpec.strict_eq_str_inv. }
  split; [done|]. split; [|split; [|split; [done|]]].
  - eexists. split; [reflexivity|].
    destruct (member_access_claims now clientId (member doc "api_key")) as [-> ->].
    by rewrite Hcid.
  - exists (refresh_doc now clientId (member doc "api_key")). split.
    + intros now' Hnow'. rewrite KVFacts.get_delete_ne.
      * by apply KVFacts.get_put_eq.
      * intros Heq. apply append_inj in Heq. congruence.
    + destruct (member_refresh_doc now clientId (member doc "api_key")) as [-> ->].
      by rewrite Hcid.
  - eexists _, _. split; [reflexivity|]. split; apply OAuthSpec.token_reply_members.
Qed.

End Refresh.

End OAuthRefresh.

(* ===================================================================== *)
(** * Proofs: the submission of the authorization form *)
(* ===================================================================== *)

Module OAuthSubmit.

Import Http OAuth.

Section Submit.

Context `{Runtime}.

(** X7.  The submission of the authorization form answers 302, 400 or
    500.  It writes at most one entry, the authorization code, with a life
    of ten minutes, and only after the upstream has accepted the submitted
    key for a form that names a client and a redirect URI.  An answer 302
    carries the code to the redirect URI, with the state when there is one.
    When the redirect URI is no URL the answer is 500 and the code stays
    stored. *)
Theorem authorization_submit_outcomes (probe : string -> Error + bool)
    now uuid formData TOKENS :
  let TOKENS' := (handleAuthorizationSubmit probe now uuid formData TOKENS).1 in
  let r := (handleAuthorizationSubmit probe now uuid formData TOKENS).2 in
  (status r = 302 \/ status r = 400 \/ status r = 500) /\
  (forall k, k <> "auth_code:" +:+ uuid -> TOKENS' !! k = TOKENS !! k) /\
  (TOKENS' = TOKENS
   \/ exists fields key,
        formData = Some fields /\
        truthy (val (get fields "client_id")) = true /\
        truthy (val (get fields "redirect_uri")) = true /\
        get fields "api_key" = Some key /\ probe key = inr true /\
        TOKENS' = KV.put now ("auth_code:" +:+ uuid)
                    (auth_code_doc now (get fields "client_id")
                       (get fields "redirect_uri") (Some key)
                       (get fields "code_challenge")
                       (get fields "code_challenge_method"))
                    600 TOKENS /\
        let query :=
          ("code", uuid)
          :: (if truthy (val (get fields "state"))
              then [("state", template (get fields "state"))] else []) in
        match URL_with_params (template (get fields "redirect_uri")) query with
        | inr url => status r = 302 /\ headers r = [("Location", url)]
        | inl _ => status r = 500
        end).
Proof.
  cbn zeta. unfold handleAuthorizationSubmit.
  destruct formData as [fields|]; [|by cbn; auto 10].
  destruct (negb (truthy (val (get fields "client_id")))
            || negb (truthy (val (get fields "redirect_uri")))
            || negb (truthy (val (get fields "api_key")))) eqn:Hfields;
    [by cbn; auto 10|].
  apply orb_false_elim in Hfields as [[Hc Hu]%orb_false_elim Hk].
  apply negb_false_iff in Hc, Hu, Hk.
  apply truthy_val in Hk as (key & Hkey & _). rewrite Hkey. cbn [template].
  destruct (probe key) as [e|[|]] eqn:Hprobe; [by cbn; auto 10| |by cbn; auto 10].
  match goal with
  | |- context [URL_with_params ?u ?q] => destruct (URL_with_params u q) as [e|url] eqn:Hurl
  end; cbn [fst snd status headers].
  - split; [auto|]. split.
    { intros k Hk. unfold KV.put. by rewrite lookup_insert_ne. }
    right. exists fields, key. repeat (split; [done|]). cbn zeta. by rewrite Hurl.
  - split; [auto|]. split.
    { intros k Hk. unfold KV.put. by rewrite lookup_insert_ne. }
    right. exists fields, key. repeat (split; [done|]). cbn zeta. by rewrite Hurl.
Qed.

End Submit.

End OAuthSubmit.

(* ===================================================================== *)
(** * Proofs: the root path of the worker *)
(* ===================================================================== *)

Module EndpointSpec.

Import Http Marvin Worker.

Section Endpoint.

Context `{Runtime} {World : Type} `{Environment World}.
Variable MCP_TOOLS : list json.
Variable handleToolCall : MarvinAPIClient -> value -> json -> M (World := World) json.

Local Abbreviation dispatch := (dispatch MCP_TOOLS handleToolCall).
Local Abbreviation handleMCPRequest := (handleMCPRequest MCP_TOOLS handleToolCall).
Local Abbreviation fetch_root := (fetch_root MCP_TOOLS handleToolCall).
Local Abbreviation tools_call := (tools_call handleToolCall).

Lemma tools_call_stateless params userInfo env s :
  (tools_call params userInfo env s).1 = s
  \/ (truthy (opt_member params "name") = true /\
      strict_eq (opt_member params "name") (str "test_connection") = false).
Proof.
  unfold Worker.tools_call, test_tool, throw.
  destruct (truthy (opt_member params "name")) eqn:Hname; cbn [negb]; [|by left].
  destruct (strict_eq (opt_member params "name") (str "test_connection")) eqn:Htest;
    [by left|by right].
Qed.

Lemma dispatch_stateless method params userInfo env cors supportsSSE s :
  (dispatch method params userInfo env cors supportsSSE s).1 = s
  \/ (method = str "tools/call" /\
      truthy (opt_member params "name") = true /\
      strict_eq (opt_member params "name") (str "test_connection") = false).
Proof.
  unfold Worker.dispatch.
  repeat match goal with
         | |- context [if strict_eq method (str ?m) then _ else _] =>
             let E := fresh "E" in
             destruct (strict_eq method (str m)) eqn:E;
             [try (left; unfold mbind, lift, ret; by repeat case_match)|]
         end; [|by left].
  destruct (tools_call_stateless params userInfo env s) as [Hs|Hs].
  - left. unfold mbind.
    by destruct (tools_call params userInfo env s) as [s1 [e|v]].
  - right. split; [|done]. by apply WorkerSpec.strict_eq_str_inv.
Qed.

Lemma handleMCPRequest_stateless mcpRequest userInfo env cors supportsSSE s :
  (handleMCPRequest mcpRequest userInfo env cors supportsSSE s).1 = s
  \/ (member mcpRequest "method" = str "tools/call" /\
      truthy (opt_member (member mcpRequest "params") "name") = true /\
      strict_eq (opt_member (member mcpRequest "params") "name")
        (str "test_connection") = false).
Proof.
  unfold Worker.handleMCPRequest.
  destruct (dispatch_stateless (member mcpRequest "method")
              (member mcpRequest "params") userInfo env cors supportsSSE s)
    as [Hs|Hs]; [left|by right].
  by destruct (dispatch _ _ _ _ _ _ s) as [s' [e|[response|result]]].
Qed.

Lemma handleMCPRequest_status mcpRequest userInfo env cors supportsSSE s :
  status (handleMCPRequest mcpRequest userInfo env cors supportsSSE s).2 = 200
  \/ (status (handleMCPRequest mcpRequest userInfo env cors supportsSSE s).2 = 204 /\
      (handleMCPRequest mcpRequest userInfo env cors supportsSSE s).1 = s).
Proof.
  unfold Worker.handleMCPRequest.
  rewrite (WorkerSpec.dispatch_transport MCP_TOOLS handleToolCall).
  destruct (strict_eq (member mcpRequest "method") (str "notifications/initialized"))
    eqn:Hmethod.
  { destruct supportsSSE; auto. }
  destruct (dispatch (member mcpRequest "method") (member mcpRequest "params")
              userInfo env cors false s) as [s' [error|[response|result]]] eqn:Hrun.
  - left. by destruct supportsSSE.
  - by apply WorkerSpec.dispatch_no_return in Hrun.
  - left. by destruct supportsSSE.
Qed.

Lemma fetch_root_post_run request mcpRequest env s :
  request_method request = "POST" ->
  request_json request = Some mcpRequest ->
  mcpRequest <> JNull ->
  fetch_root request env s
  = handleMCPRequest mcpRequest hardcoded_userInfo env corsHeaders
      (accepts_sse (request_headers request)) s.
Proof.
  intros Hpost Hjson Hnull. destruct request as [m hs j]. cbn in Hpost, Hjson.
  subst m j. by apply WorkerSpec.fetch_root_post.
Qed.

(** X8.  Of all requests to the root path only a tool call reaches the
    upstream or the cache: either the state after the request is the state
    before it, or the request is a [POST] of a [tools/call] of a named
    tool other than [test_connection]. *)
Theorem protocol_methods_are_stateless request env s :
  (fetch_root request env s).1 = s
  \/ (request_method request = "POST" /\
      exists mcpRequest,
        request_json request = Some mcpRequest /\
        member mcpRequest "method" = str "tools/call" /\
        truthy (opt_member (member mcpRequest "params") "name") = true /\
        strict_eq (opt_member (member mcpRequest "params") "name")
          (str "test_connection") = false).
Proof.
  destruct (String.eqb_spec (request_method request) "POST") as [Hpost|Hpost].
  2: { left. unfold Worker.fetch_root.
       rewrite (proj2 (String.eqb_neq _ _) Hpost). by repeat case_match. }
  destruct (request_json request) as [mcpRequest|] eqn:Hjson.
  2: { left. unfold Worker.fetch_root. rewrite Hpost, Hjson. done. }
  assert (Hnull : mcpRequest = JNull \/ mcpRequest <> JNull)
    by (destruct mcpRequest; auto).
  destruct Hnull as [->|Hnull].
  { left. unfold Worker.fetch_root. rewrite Hpost, Hjson. done. }
  rewrite (fetch_root_post_run request mcpRequest) by done.
  destruct (handleMCPRequest_stateless mcpRequest hardcoded_userInfo env corsHeaders
              (accepts_sse (request_headers request)) s) as [Hs|Hs]; [by left|].
  right. split; [done|]. by exists mcpRequest.
Qed.

(** X9.  What the protocol endpoint delivers.  A notification gets no
    message: an empty stream, or 204.  Every other request gets exactly one
    JSON-RPC message, with status 200, as the text of a JSON body or as the
    data of the one event of a stream: it carries version 2.0 and the [id]
    of the request (none when the request has none), and either a [result]
    and no [error], or an [error] and no [result]; the code of the error is
    always -32603. *)
Theorem jsonrpc_message_shape mcpRequest userInfo env cors supportsSSE s :
  let r := (handleMCPRequest mcpRequest userInfo env cors supportsSSE s).2 in
  (member mcpRequest "method" = str "notifications/initialized" /\
   r = if supportsSSE
       then {| status := 200;
               headers := cors ++ [("Content-Type", "text/event-stream");
                                   ("Cache-Control", "no-cache");
                                   ("Connection", "keep-alive")];
               content := Stream [] |}
       else {| status := 204; headers := cors; content := NoBody |})
  \/ (member mcpRequest "method" <> str "notifications/initialized" /\
      exists message,
         r = (if supportsSSE
              then {| status := 200;
                      headers := cors ++ [("Content-Type", "text/event-stream");
                                          ("Cache-Control", "no-cache");
                                          ("Connection", "keep-alive")];
                      content := Stream ["data: " +:+ JSON_stringify message
                                         +:+ LF +:+ LF] |}
              else {| status := 200;
                      headers := cors ++ [("Content-Type", "application/json")];
                      content := Text (JSON_stringify message) |}) /\
         status r = 200 /\
         member message "jsonrpc" = str "2.0" /\
         member message "id" = member mcpRequest "id" /\
         ((is_Some (member message "result") /\ member message "error" = None)
          \/ (member message "result" = None /\
              exists error text,
                member message "error" = Some error /\
                member error "code" = num (-32603) /\
                member error "message" = str text))).
Proof.
  cbn zeta.
  destruct (strict_eq (member mcpRequest "method") (str "notifications/initialized"))
    eqn:Hmethod.
  { left. split; [by apply WorkerSpec.strict_eq_str_inv|].
    unfold Worker.handleMCPRequest.
    rewrite (WorkerSpec.dispatch_transport MCP_TOOLS handleToolCall), Hmethod.
    by destruct supportsSSE. }
  right. split; [by apply WorkerSpec.strict_eq_str_false|].
  destruct (WorkerSpec.handleMCPRequest_message MCP_TOOLS handleToolCall mcpRequest
              userInfo env cors s Hmethod) as (s' & message & Hrun & Hshape).
  rewrite Hrun. exists message. split; [done|]. split; [by destruct supportsSSE|].
  destruct (dispatch (member mcpRequest "method") (member mcpRequest "params")
              userInfo env cors false s) as [s1 [error|[response|v]]]; [| done |].
  - destruct Hshape as [_ ->].
    destruct (WorkerSpec.errorResponse_of_members (member mcpRequest "id") error)
      as (Hversion & Hid & Hresult & e & He & Hcode & Htext).
    split; [done|]. split; [done|]. right. split; [done|]. by exists e, (JS.message error).
  - destruct Hshape as (_ & result & _ & ->).
    destruct (WorkerSpec.response_of_members (member mcpRequest "id") result)
      as (Hversion & Hid & Hresult & Herror).
    split; [done|]. split; [done|]. left. by split; [exists result|].
Qed.

(** X10.  The status of an answer of the root path tells what went wrong.
    [OPTIONS] is answered 204 and [GET] 200 with the server descriptor,
    whatever the body; a method other than these and [POST] is answered 405.
    A [POST] whose body is no JSON is answered 400 with the JSON-RPC error
    -32700 and a null [id], in a JSON body even when the client accepts an
    event stream; one whose body is [null] is answered 500; every other
    [POST] is answered 200 or 204, errors of the protocol included.  An
    answer other than 200 has left the state as it was. *)
Theorem root_endpoint_status request env s :
  let s' := (fetch_root request env s).1 in
  let r := (fetch_root request env s).2 in
  (request_method request = "OPTIONS" ->
   r = {| status := 204; headers := corsHeaders; content := NoBody |}) /\
  (request_method request = "GET" ->
   r = {| status := 200; headers := json_headers corsHeaders;
          content := Text (JSON_stringify_indent (info MCP_TOOLS)) |}) /\
  (request_method request <> "OPTIONS" -> request_method request <> "GET" ->
   request_method request <> "POST" ->
   r = {| status := 405; headers := corsHeaders; content := Text "Method not allowed" |}) /\
  (request_method request = "POST" ->
   match request_json request with
   | None =>
       r = json_response
             (obj [("jsonrpc", str "2.0");
                   ("id", Some JNull);
                   ("error", Some (obj [("code", num (-32700));
                                        ("message", str "Parse error")]))])
             400 (json_headers corsHeaders)
   | Some JNull => status r = 500 /\ headers r = json_headers corsHeaders
   | Some mcpRequest =>
       (fetch_root request env s)
       = handleMCPRequest mcpRequest hardcoded_userInfo env corsHeaders
           (accepts_sse (request_headers request)) s /\
       (status r = 200 \/ status r = 204)
   end) /\
  (status r <> 200 -> s' = s).
Proof.
  cbn zeta.
  destruct (String.eqb_spec (request_method request) "OPTIONS") as [Ho|Ho].
  { unfold Worker.fetch_root. rewrite Ho. by repeat split. }
  destruct (String.eqb_spec (request_method request) "GET") as [Hg|Hg].
  { unfold Worker.fetch_root. rewrite Hg. by repeat split. }
  destruct (String.eqb_spec (request_method request) "POST") as [Hp|Hp].
  2: { unfold Worker.fetch_root.
       rewrite (proj2 (String.eqb_neq _ _) Ho), (proj2 (String.eqb_neq _ _) Hg),
         (proj2 (String.eqb_neq _ _) Hp).
       by repeat split. }
  split; [done|]. split; [done|]. split; [done|].
  destruct (request_json request) as [mcpRequest|] eqn:Hjson.
  2: { unfold Worker.fetch_root. rewrite Hp, Hjson. by split. }
  assert (Hnull : mcpRequest = JNull \/ mcpRequest <> JNull)
    by (destruct mcpRequest; auto).
  destruct Hnull as [->|Hnull].
  { unfold Worker.fetch_root. rewrite Hp, Hjson. by split. }
  rewrite (fetch_root_post_run request mcpRequest env s Hp) by done.
  destruct (handleMCPRequest_status mcpRequest hardcoded_userInfo env corsHeaders
              (accepts_sse (request_headers request)) s) as [Hstatus|[Hstatus Hs]].
  - split; [|done]. intros _. by destruct mcpRequest; [|split; [|left]..].
  - split; [|done]. intros _. by destruct mcpRequest; [|split; [|right]..].
Qed.

End Endpoint.

End EndpointSpec.

(* ===================================================================== *)
(** * Proofs: the cache keys an operation may change *)
(* ===================================================================== *)

Module FrameSpec.

Import Http Marvin MarvinOps Frames.

Section Client.

Context `{Runtime} {World : Type} `{Environment World}.
Variable this : MarvinAPIClient.

Local Abbreviation M := (@Marvin.M World).
Local Abbreviation within := (@Frames.within World).

Lemma within_mono (K K' : string -> Prop) {A : Type} (m : M A) :
  (forall k, K k -> K' k) -> within K m -> within K' m.
Proof. intros HK Hm s k Hk. apply Hm. auto. Qed.

Lemma within_ret (K : string -> Prop) {A : Type} (a : A) : within K (ret a).
Proof. by intros s k _. Qed.

Lemma within_throw (K : string -> Prop) {A : Type} (e : Error) :
  within K (throw (A := A) e).
Proof. by intros s k _. Qed.

Lemma within_lift (K : string -> Prop) {A : Type} (r : Error + A) : within K (lift r).
Proof. by intros s k _. Qed.

Lemma within_mbind (K : string -> Prop) {A B : Type} (m : M A) (f : A -> M B) :
  within K m -> (forall a, within K (f a)) -> within K (mbind m f).
Proof.
  intros Hm Hf s k Hk. unfold mbind. specialize (Hm s k Hk).
  destruct (m s) as [s1 [e|a]]; [done|]. by rewrite (Hf a s1 k Hk).
Qed.

Lemma within_try_catch (K : string -> Prop) {A : Type} (m : M A) (h : Error -> M A) :
  within K m -> (forall e, within K (h e)) -> within K (try_catch m h).
Proof.
  intros Hm Hh s k Hk. unfold try_catch. specialize (Hm s k Hk).
  destruct (m s) as [s1 [e|a]]; [|done]. by rewrite (Hh e s1 k Hk).
Qed.

Lemma within_then (K : string -> Prop) {A B : Type} (m : M A) (f : A -> B) :
  within K m -> within K (then_ m f).
Proof. intros Hm. apply within_mbind; [done|]. intros a. apply within_ret. Qed.

Lemma within_all2 (K : string -> Prop) {A B : Type} (p : M A) (q : M B) :
  within K p -> within K q -> within K (all2 p q).
Proof.
  intros Hp Hq s k Hk. unfold all2. specialize (Hp s k Hk).
  destruct (p s) as [s1 r1]. specialize (Hq s1 k Hk). destruct (q s1) as [s2 r2].
  cbn in *. congruence.
Qed.

Lemma within_all3 (K : string -> Prop) {A B C : Type} (p : M A) (q : M B) (r : M C) :
  within K p -> within K q -> within K r -> within K (all3 p q r).
Proof. intros. unfold all3. by apply within_then, within_all2; [|apply within_all2]. Qed.

Lemma within_all4 (K : string -> Prop) {A B C D : Type}
    (p : M A) (q : M B) (r : M C) (t : M D) :
  within K p -> within K q -> within K r -> within K t -> within K (all4 p q r t).
Proof. intros. unfold all4. by apply within_then, within_all2; [|apply within_all3]. Qed.

Lemma within_Promise_all (K : string -> Prop) {A : Type} (ps : list (M A)) :
  Forall (within K) ps -> within K (Promise_all ps).
Proof.
  induction 1 as [|p ps Hp _ IH]; intros s k Hk; [done|].
  cbn [Promise_all]. specialize (Hp s k Hk). destruct (p s) as [s1 r].
  specialize (IH s1 k Hk). destruct (Promise_all ps s1) as [s2 rs].
  cbn in *. congruence.
Qed.

Lemma within_cache_get (K : string -> Prop) (key : string) : within K (cache_get key).
Proof. by intros s k _. Qed.

Lemma within_cache_put (K : string -> Prop) (key : string) (d : json) (ttl : Z) :
  K key -> within K (cache_put key d ttl).
Proof.
  intros Hkey s k Hk. cbn. unfold KV.put. rewrite lookup_insert_ne; [done|].
  by intros ->.
Qed.

Lemma within_cache_delete (K : string -> Prop) (key : string) :
  K key -> within K (cache_delete key).
Proof.
  intros Hkey s k Hk. cbn. unfold KV.delete. rewrite lookup_delete_ne; [done|].
  by intros ->.
Qed.

Lemma within_fetchM (K : string -> Prop) (url : string) (init : RequestInit) :
  within K (fetchM url init).
Proof. intros s k _. unfold fetchM. by destruct (fetch url init (world s)). Qed.

Lemma within_isoNow (K : string -> Prop) : within K isoNow.
Proof. by intros s k _. Qed.

Lemma within_uuidM (K : string -> Prop) : within K uuidM.
Proof. intros s k _. unfold uuidM. by destruct (randomUUID (world s)). Qed.

(** The descent along the structure of an operation: what is left are the
    keys of its [put] and [delete] calls. *)
Ltac frame :=
  repeat first
    [ apply within_ret | apply within_throw | apply within_lift
    | apply within_isoNow | apply within_uuidM | apply within_fetchM
    | apply within_cache_get
    | apply within_cache_put | apply within_cache_delete
    | apply within_then | apply within_all2 | apply within_all3 | apply within_all4
    | apply within_try_catch; [|intros ?]
    | apply within_mbind; [|intros ?]
    | match goal with
      | |- Frames.within _ (if ?c then _ else _) => destruct c
      | |- Frames.within _ (match ?x with _ => _ end) => destruct x
      end ].

Lemma within_makeRequest (K : string -> Prop) (endpoint : string) (options : RequestInit) :
  within K (makeRequest this endpoint options).
Proof. unfold makeRequest. frame. Qed.

Lemma within_getCachedOrFetch (K : string -> Prop) (key : string) (fetchFn : M json)
    (ttl : Z) :
  K key -> within K fetchFn -> within K (getCachedOrFetch key fetchFn ttl).
Proof. intros Hkey Hf. unfold getCachedOrFetch. frame; done. Qed.

Lemma within_createResponse (K : string -> Prop) (d : value) (message : string)
    (itemCount : value) :
  within K (createResponse d message itemCount).
Proof. unfold createResponse. frame. Qed.

Lemma within_getLabels (K : string -> Prop) :
  K "labels:all" -> within K (getLabels this).
Proof. intros HK. unfold getLabels. frame; done. Qed.

Lemma within_getCategories (K : string -> Prop) :
  K "categories:all" -> within K (getCategories this).
Proof. intros HK. unfold getCategories. frame; done. Qed.

Lemma within_getProjects (K : string -> Prop) :
  K "labels:all" -> K "projects:all" -> within K (getProjects this).
Proof. intros HK HK'. unfold getProjects. frame; done. Qed.

Lemma within_invalidateCache (prefixes : list string) :
  within evicted_key (invalidateCache prefixes).
Proof.
  unfold invalidateCache.
  apply within_mbind; [apply within_isoNow|]. intros now.
  apply within_mbind; [|intros ?; apply within_ret].
  apply within_Promise_all, Forall_map, Forall_forall. intros key Hkey.
  apply within_cache_delete. by eexists.
Qed.

Lemma within_references (K : string -> Prop) {A B C : Type}
    (f : StandardResponse -> A) (g : StandardResponse -> B) (h : StandardResponse -> C) :
  (forall k, reference_key k -> K k) ->
  within K (all3 (then_ (getProjects this) f) (then_ (getCategories this) g)
              (then_ (getLabels this) h)).
Proof.
  intros HK. apply within_all3; apply within_then.
  - apply within_getProjects; apply HK; unfold reference_key; auto.
  - apply within_getCategories; apply HK; unfold reference_key; auto.
  - apply within_getLabels; apply HK; unfold reference_key; auto.
Qed.

Lemma within_write_invalidate (prefixes : list string) :
  within write_key (invalidateCache prefixes).
Proof. eapply within_mono; [|apply within_invalidateCache]. by left. Qed.

Lemma within_createTask (taskData : json) : within write_key (createTask this taskData).
Proof.
  unfold createTask.
  apply within_mbind; [apply within_lift|]. intros payload.
  apply within_mbind; [apply within_makeRequest|]. intros newTask.
  apply within_mbind; [apply within_write_invalidate|]. intros _.
  apply within_mbind; [apply within_references; by right|]. intros refs.
  apply within_mbind; [apply within_lift|]. intros clean. apply within_createResponse.
Qed.

Lemma within_markTaskDone (taskId : value) :
  within evicted_key (markTaskDone this taskId).
Proof.
  unfold markTaskDone.
  apply within_mbind; [apply within_makeRequest|]. intros _.
  apply within_mbind; [apply within_invalidateCache|]. intros _.
  apply within_createResponse.
Qed.

Lemma within_deleteTask (taskId : value) : within evicted_key (deleteTask this taskId).
Proof.
  unfold deleteTask. destruct (negb (isCouchDBConfigured this)); [apply within_throw|].
  apply within_mbind; [apply within_lift|]. intros auth.
  apply within_mbind; [apply within_fetchM|]. intros getResponse.
  destruct (negb (ok getResponse)); [apply within_throw|].
  apply within_mbind; [apply within_lift|]. intros doc.
  apply within_mbind; [apply within_lift|]. intros rev.
  apply within_mbind; [apply within_lift|]. intros auth2.
  apply within_mbind; [apply within_fetchM|]. intros deleteResponse.
  destruct (negb (ok deleteResponse)); [apply within_throw|].
  apply within_mbind; [apply within_invalidateCache|]. intros _.
  apply within_createResponse.
Qed.

Lemma within_createProject (projectData : json) :
  within write_key (createProject this projectData).
Proof.
  unfold createProject.
  apply within_mbind; [apply within_lift|]. intros payload.
  apply within_mbind; [apply within_makeRequest|]. intros newProject.
  apply within_mbind; [apply within_write_invalidate|]. intros _.
  apply within_mbind.
  { apply within_all2; apply within_then;
      [apply within_getProjects|apply within_getLabels]; right;
      unfold reference_key; auto. }
  intros refs.
  apply within_mbind; [apply within_lift|]. intros clean. apply within_createResponse.
Qed.

Lemma within_task_listing (cacheKey endpoint receiver : string)
    (message : Z -> string) :
  within (listing_key cacheKey) (task_listing this cacheKey endpoint receiver message).
Proof.
  unfold task_listing.
  apply within_mbind.
  { unfold all4. apply within_then, within_all2.
    - apply within_getCachedOrFetch; [by left|apply within_makeRequest].
    - apply within_references. by right. }
  intros got. apply within_mbind; [apply within_lift|]. intros clean.
  apply within_createResponse.
Qed.

(** Keys that are neither evicted nor those of the reference listings. *)
Lemma due_key_kept (date : string) : ~ write_key ("due_items:" +:+ date).
Proof.
  intros [[day Hday]|Href].
  - by apply (CacheSpec.not_among_keysToDelete day date EmptyString EmptyString) in Hday.
  - by destruct Href as [|[|]].
Qed.

End Client.

End FrameSpec.

(* ===================================================================== *)
(** * Proofs: what a write leaves in the cache *)
(* ===================================================================== *)

Module StaleSpec.

Import Http Marvin MarvinOps Frames.

Section Client.

Context `{Runtime} {World : Type} `{Environment World}.
Variable this : MarvinAPIClient.

Local Abbreviation M := (@Marvin.M World).
Local Abbreviation within := (@Frames.within World).

Lemma getCachedOrFetch_hit (key : string) (fetchFn : M json) (ttl : Z) s d :
  KV.get (Date_now (world s)) key (CACHE s) = Some d ->
  getCachedOrFetch key fetchFn ttl s
  = ({| world := world s; CACHE := CACHE s; journal := journal s ++ [KvGet key] |},
     inr d).
Proof. intros Hhit. unfold getCachedOrFetch, mbind, cache_get. by rewrite Hhit. Qed.

Lemma get_same_entry now k (ns ns' : KV.namespace) :
  ns' !! k = ns !! k -> KV.get now k ns' = KV.get now k ns.
Proof. unfold KV.get. by intros ->. Qed.


End Client.

End StaleSpec.

(* ===================================================================== *)
(** * Proofs: what a listing does to the cache *)
(* ===================================================================== *)

Module ListingSpec.

Import Http Marvin MarvinOps Frames.

Section Client.

Context `{Runtime} {World : Type} `{Environment World}.
Variable this : MarvinAPIClient.

Local Abbreviation M := (@Marvin.M World).
Local Abbreviation within := (@Frames.within World).
Local Abbreviation quiet := (@Notions.quiet World _).

Lemma quiet_all4 {A B C D : Type} (p : M A) (q : M B) (r : M C) (t : M D) :
  quiet p -> quiet q -> quiet r -> quiet t -> quiet (all4 p q r t).
Proof.
  intros. unfold all4.
  by apply CacheSpec.quiet_then, CacheSpec.quiet_all2; [|apply CacheSpec.quiet_all3].
Qed.

Lemma quiet_task_listing (cacheKey endpoint receiver : string)
    (message : Z -> string) :
  quiet (task_listing this cacheKey endpoint receiver message).
Proof.
  unfold task_listing. apply CacheSpec.quiet_mbind.
  { apply quiet_all4.
    - apply CacheSpec.quiet_getCachedOrFetch, CacheSpec.quiet_makeRequest.
    - apply CacheSpec.quiet_then, CacheSpec.quiet_getProjects.
    - apply CacheSpec.quiet_then, CacheSpec.quiet_getCategories.
    - apply CacheSpec.quiet_then, CacheSpec.quiet_getLabels. }
  intros got. apply CacheSpec.quiet_mbind; [apply CacheSpec.quiet_lift|].
  intros clean. apply CacheSpec.quiet_createResponse.
Qed.

Lemma getTasks_run s :
  getTasks this s
  = task_listing this ("tasks:" +:+ today s +:+ ":raw") "/todayItems" "tasks"
      (fun n => "Found " +:+ pretty n +:+ " scheduled tasks for today") s.
Proof. done. Qed.

Lemma getDueItems_run s :
  getDueItems this s
  = task_listing this ("due_items:" +:+ today s) "/dueItems" "tasks"
      (fun n => "Found " +:+ pretty n +:+ " due/overdue items") s.
Proof. done. Qed.

Lemma getCompletedTasks_run (days : value) s :
  getCompletedTasks this days s
  = task_listing this
      ("completed:" +:+ String_of (days_or_default days) +:+ ":" +:+ today s)
      ("/doneItems?days=" +:+ String_of (days_or_default days)) "completedTasks"
      (fun n => "Found " +:+ pretty n +:+ " completed tasks in the last "
                +:+ String_of (days_or_default days) +:+ " days") s.
Proof. done. Qed.

(** X12.  A listing never deletes a cache entry, and changes the cache
    only under its own key and the keys of the reference listings it
    reads.  The own key of today's tasks is [tasks:<date>:raw], of the due
    items [due_items:<date>], of the completed tasks of the last days
    [completed:<days>:<date>] and of those of one date [completed:<date>],
    the date being the current one. *)
Theorem listings_only_fill :
  (forall s,
      evicts [] s (getTasks this s).1 /\
      forall k, ~ listing_key ("tasks:" +:+ today s +:+ ":raw") k ->
                CACHE (getTasks this s).1 !! k = CACHE s !! k) /\
  (forall s,
      evicts [] s (getDueItems this s).1 /\
      forall k, ~ listing_key ("due_items:" +:+ today s) k ->
                CACHE (getDueItems this s).1 !! k = CACHE s !! k) /\
  (forall days s,
      evicts [] s (getCompletedTasks this days s).1 /\
      forall k, ~ listing_key ("completed:" +:+ String_of (days_or_default days)
                               +:+ ":" +:+ today s) k ->
                CACHE (getCompletedTasks this days s).1 !! k = CACHE s !! k) /\
  (forall date s,
      evicts [] s (getCompletedTasksForDate this date s).1 /\
      forall k, ~ listing_key ("completed:" +:+ String_of date) k ->
                CACHE (getCompletedTasksForDate this date s).1 !! k = CACHE s !! k) /\
  (quiet (getLabels this) /\ within (eq "labels:all") (getLabels this)) /\
  (quiet (getCategories this) /\ within (eq "categories:all") (getCategories this)) /\
  (quiet (getProjects this) /\
   within (fun k => k = "projects:all" \/ k = "labels:all") (getProjects this)) /\
  (quiet (getAccountInfo this) /\ within (eq "account:info") (getAccountInfo this)).
Proof.
  split; [intros s; rewrite getTasks_run; split;
          [apply quiet_task_listing|apply (FrameSpec.within_task_listing this)]|].
  split; [intros s; rewrite getDueItems_run; split;
          [apply quiet_task_listing|apply (FrameSpec.within_task_listing this)]|].
  split; [intros days s; rewrite getCompletedTasks_run; split;
          [apply quiet_task_listing|apply (FrameSpec.within_task_listing this)]|].
  split; [intros date s; split;
          [apply quiet_task_listing|apply (FrameSpec.within_task_listing this)]|].
  split; [split; [apply CacheSpec.quiet_getLabels|by apply FrameSpec.within_getLabels]|].
  split; [split; [apply CacheSpec.quiet_getCategories
                 |by apply FrameSpec.within_getCategories]|].
  split; [split; [apply CacheSpec.quiet_getProjects
                 |apply FrameSpec.within_getProjects; auto]|].
  split.
  - unfold getAccountInfo. apply CacheSpec.quiet_mbind.
    + apply CacheSpec.quiet_getCachedOrFetch, CacheSpec.quiet_makeRequest.
    + intros info. apply CacheSpec.quiet_createResponse.
  - unfold getAccountInfo. apply FrameSpec.within_mbind.
    + apply FrameSpec.within_getCachedOrFetch; [done|apply FrameSpec.within_makeRequest].
    + intros info. apply FrameSpec.within_createResponse.
Qed.

End Client.

End ListingSpec.

(* ===================================================================== *)
(** * Proofs: the references of clean tasks *)
(* ===================================================================== *)

Module CleanSpec.

Import Http Marvin MarvinOps Clean.

Lemma member_obj_cons (k k' : string) (v : value) (ms : list (string * value)) :
  member (obj ((k', v) :: ms)) k
  = if String.eqb k' k
    then match v with Some d => Some d | None => member (obj ms) k end
    else member (obj ms) k.
Proof.
  unfold obj. cbn [omap list_omap snd fst].
  destruct v as [d|]; cbn; [|by destruct (String.eqb k' k)].
  by destruct (String.eqb k' k).
Qed.

Lemma member_obj_nil (k : string) : member (obj []) k = None.
Proof. done. Qed.

Lemma member_obj_absent (k : string) (ms : list (string * value)) :
  forallb (fun kv => negb (String.eqb kv.1 k)) ms = true -> member (obj ms) k = None.
Proof.
  induction ms as [|[k' v] ms IH]; [done|]. cbn [forallb fst].
  intros [Hk Hms]%andb_prop. rewrite member_obj_cons.
  apply negb_true_iff in Hk. rewrite Hk. auto.
Qed.

Lemma mapE_Forall {A B : Type} (f : A -> Error + B) (P : B -> Prop) xs ys :
  (forall x y, f x = inr y -> P y) -> mapE f xs = inr ys -> Forall P ys.
Proof.
  intros Hf. revert ys. induction xs as [|x xs IH]; intros ys E; cbn in E.
  - by simplify_eq.
  - destruct (f x) as [e|y] eqn:Ey; [done|]. cbn in E.
    destruct (mapE f xs) as [e|ys'] eqn:Eys; [done|]. cbn in E. simplify_eq.
    constructor; eauto.
Qed.

Lemma reference_unkeyed (id title : value) : unkeyed (obj [("id", id); ("title", title)]).
Proof. eexists. split; [reflexivity|]. by destruct id, title. Qed.

Lemma references_unkeyed (receiver : string) (xs : json) refs :
  references receiver xs = inr refs -> Forall unkeyed refs.
Proof.
  unfold references. intros E.
  destruct (as_array xs receiver "map") as [e|items]; [done|]. cbn [bind] in E.
  eapply mapE_Forall; [|exact E]. intros x y Hy. cbn beta in Hy.
  crunch. apply reference_unkeyed.
Qed.

Lemma convertProject_unkeyed (project allProjects labels d : json) :
  convertProject project allProjects labels = inr d -> unkeyed d.
Proof.
  unfold convertProject. intros E. crunch.
  eexists. split; [reflexivity|]. by apply (member_obj_absent "_id").
Qed.

Lemma findE_none {A : Type} (f : A -> Error + bool) (xs : list A) :
  Forall (fun x => f x = inr false) xs -> findE f xs = inr None.
Proof. induction 1 as [|x xs Hx _ IH]; [done|]. cbn. by rewrite Hx. Qed.

Lemma filterE_none {A : Type} (f : A -> Error + bool) (xs : list A) :
  Forall (fun x => f x = inr false) xs -> filterE f xs = inr [].
Proof. induction 1 as [|x xs Hx _ IH]; [done|]. cbn. by rewrite Hx, IH. Qed.

Lemma filterE_sublist {A : Type} (f : A -> Error + bool) (P : A -> Prop) xs ys :
  Forall P xs -> filterE f xs = inr ys -> Forall P ys.
Proof.
  intros Hxs. revert ys. induction Hxs as [|x xs Hx _ IH]; intros ys E; cbn in E.
  - by simplify_eq.
  - destruct (f x) as [e|keep]; [done|]. cbn in E.
    destruct (filterE f xs) as [e|ys'] eqn:Eys; [done|]. cbn in E. simplify_eq.
    destruct keep; auto.
Qed.

Lemma truthy_Some (v : value) : truthy v = true -> exists d, v = Some d.
Proof. destruct v; [eauto|done]. Qed.

(** A lookup by [_id] among documents without [_id] finds nothing. *)
Lemma find_by_id_unkeyed (receiver : string) (id : value) (items : list json) :
  Forall unkeyed items -> find_by_id receiver id (JArr items) = inr None.
Proof.
  intros Hitems. unfold find_by_id.
  destruct (truthy id) eqn:Hid; [|done]. cbn [as_array bind].
  apply truthy_Some in Hid as [d ->].
  apply findE_none. eapply Forall_impl; [exact Hitems|].
  intros p (ms & -> & Hms). cbn. by rewrite Hms.
Qed.

Lemma labels_of_unkeyed (owner : string) (ids : value) (items : list json) (l : json) :
  Forall unkeyed items ->
  labels_of owner ids (JArr items) = inr l ->
  exists labels,
    l = JArr labels /\
    Forall (fun x => member x "id" = None) labels /\
    (forall xs, ids = Some (JArr xs) -> labels = []).
Proof.
  intros Hitems. unfold labels_of.
  destruct (truthy ids) eqn:Hids.
  2: { intros [= <-]. exists []. split; [done|]. split; [done|]. by intros xs ->. }
  cbn [as_array bind].
  destruct (filterE _ items) as [e|kept] eqn:Ekept; [done|]. cbn [bind].
  destruct (mapE _ kept) as [e|refs] eqn:Erefs; [done|]. cbn [bind].
  intros [= <-]. exists refs. split; [done|].
  pose proof (filterE_sublist _ unkeyed _ _ Hitems Ekept) as Hkept.
  split.
  - clear Ekept. revert refs Erefs.
    induction Hkept as [|x kept (ms & -> & Hms) _ IH]; intros refs Erefs; cbn in Erefs.
    + by simplify_eq.
    + rewrite Hms in Erefs. cbn in Erefs.
      destruct (mapE _ kept) as [e|refs'] eqn:Erefs'; [done|]. cbn in Erefs.
      simplify_eq. constructor; [|by apply IH].
      by destruct (assoc "title" ms).
  - intros xs ->.
    rewrite filterE_none in Ekept.
    + simplify_eq. cbn in Erefs. by simplify_eq.
    + eapply Forall_impl; [exact Hitems|].
      intros p (ms & -> & Hms). cbn. rewrite Hms. cbn.
      f_equal. clear. induction xs as [|x xs IH]; [done|]. cbn. rewrite IH.
      by destruct x.
Qed.

(** With reference listings that carry no [_id], the conversion of a task
    resolves nothing. *)
Lemma convertTask_unresolved (task d : json) (projects categories labels : list json) :
  Forall unkeyed projects -> Forall unkeyed categories -> Forall unkeyed labels ->
  convertTask task (JArr projects) (JArr categories) (JArr labels) = inr d ->
  unresolved d /\
  member d "id" = member task "_id" /\ member d "title" = member task "title" /\
  (forall xs, member task "labelIds" = Some (JArr xs) -> member d "labels" = Some (JArr [])).
Proof.
  intros Hp Hc Hl. unfold convertTask. intros E.
  destruct (prop task "projectId") as [e|projectId] eqn:Epid; [done|]. cbn [bind] in E.
  rewrite find_by_id_unkeyed in E by done. cbn [bind] in E.
  destruct (prop task "categoryId") as [e|categoryId]; [done|]. cbn [bind] in E.
  rewrite find_by_id_unkeyed in E by done. cbn [bind] in E.
  destruct (prop task "labelIds") as [e|labelIds] eqn:Elids; [done|]. cbn [bind] in E.
  destruct (labels_of "task" labelIds (JArr labels)) as [e|taskLabels] eqn:Elabels;
    [done|].
  cbn [bind reference] in E. simplify_eq.
  destruct (labels_of_unkeyed _ _ _ _ Hl Elabels) as (ls & -> & Hls & Harr).
  assert (Hlabels : forall ls',
    member
      (obj [("id", member task "_id"); ("title", member task "title");
            ("done", member task "done"); ("day", member task "day");
            ("due_date", member task "dueDate"); ("priority", member task "priority");
            ("time_estimate", member task "timeEstimate"); ("project", None);
            ("category", None); ("labels", Some (JArr ls'))]) "labels"
    = Some (JArr ls')).
  { intros ls'. rewrite !member_obj_cons. cbn [String.eqb Ascii.eqb Bool.eqb].
    by repeat case_match. }
  split; [|split; [|split]].
  - split; [|split].
    + rewrite !member_obj_cons. cbn [String.eqb Ascii.eqb Bool.eqb]. by repeat case_match.
    + rewrite !member_obj_cons. cbn [String.eqb Ascii.eqb Bool.eqb]. by repeat case_match.
    + exists ls. split; [apply Hlabels|done].
  - rewrite member_obj_cons. cbn [String.eqb Ascii.eqb Bool.eqb].
    destruct (member task "_id"); [done|]. by apply member_obj_absent.
  - rewrite !member_obj_cons. cbn [String.eqb Ascii.eqb Bool.eqb].
    destruct (member task "title"); [by repeat case_match|].
    destruct (member task "_id"); by apply member_obj_absent.
  - intros xs Hxs.
    assert (labelIds = Some (JArr xs)) as Hids.
    { destruct task; cbn in Elids, Hxs; by simplify_eq. }
    rewrite (Harr xs Hids). apply Hlabels.
Qed.

Section Client.

Context `{Runtime} {World : Type} `{Environment World}.
Variable this : MarvinAPIClient.

Local Abbreviation M := (@Marvin.M World).

Lemma createResponse_data (d : value) (message : string) (itemCount : value) s s' r :
  createResponse d message itemCount s = (s', inr r) ->
  data r = d /\ summary_message r = message /\ item_count r = itemCount.
Proof.
  unfold createResponse, mbind, isoNow, uuidM, ret.
  destruct (randomUUID (world s)). by intros [= <- <-].
Qed.

Lemma lift_inr {A : Type} (x : Error + A) (s s' : State (World := World)) (a : A) :
  lift x s = (s', inr a) -> s' = s /\ x = inr a.
Proof. unfold lift. by intros [= <- <-]. Qed.

Lemma then_inr {A B : Type} (m : M A) (f : A -> B) s s' (b : B) :
  then_ m f s = (s', inr b) -> exists a, m s = (s', inr a) /\ b = f a.
Proof.
  unfold then_, mbind, ret. destruct (m s) as [s1 [e|a]]; [done|].
  intros [= <- <-]. eauto.
Qed.

Lemma all2_inr {A B : Type} (p : M A) (q : M B) s s' (x : A * B) :
  all2 p q s = (s', inr x) ->
  exists s1, p s = (s1, inr x.1) /\ q s1 = (s', inr x.2).
Proof.
  unfold all2. destruct (p s) as [s1 [e|a]]; destruct (q s1) as [s2 [e'|b]] eqn:Eq;
    intros [= <- <-]. exists s1. by rewrite Eq.
Qed.

(** The data of the reference listings: arrays of documents without [_id]. *)
Lemma getLabels_unkeyed s s' r :
  getLabels this s = (s', inr r) ->
  exists items, data_of r = JArr items /\ Forall unkeyed items.
Proof.
  unfold getLabels. intros E.
  apply MarvinSpec.mbind_inr in E as (s1 & labels & _ & E).
  apply MarvinSpec.mbind_inr in E as (s2 & clean & Eclean & E).
  apply createResponse_data in E as (Hdata & _).
  apply lift_inr in Eclean as [-> Eclean].
  exists clean. unfold data_of. rewrite Hdata. split; [done|].
  by eapply references_unkeyed.
Qed.

Lemma getCategories_unkeyed s s' r :
  getCategories this s = (s', inr r) ->
  exists items, data_of r = JArr items /\ Forall unkeyed items.
Proof.
  unfold getCategories. intros E.
  apply MarvinSpec.mbind_inr in E as (s1 & categories & _ & E).
  apply MarvinSpec.mbind_inr in E as (s2 & clean & Eclean & E).
  apply createResponse_data in E as (Hdata & _).
  apply lift_inr in Eclean as [-> Eclean].
  exists clean. unfold data_of. rewrite Hdata. split; [done|].
  by eapply references_unkeyed.
Qed.

Lemma getProjects_unkeyed s s' r :
  getProjects this s = (s', inr r) ->
  exists items, data_of r = JArr items /\ Forall unkeyed items.
Proof.
  unfold getProjects. intros E.
  apply MarvinSpec.mbind_inr in E as (s1 & both & _ & E).
  apply MarvinSpec.mbind_inr in E as (s2 & projects & _ & E).
  apply MarvinSpec.mbind_inr in E as (s3 & clean & Eclean & E).
  apply createResponse_data in E as (Hdata & _).
  apply lift_inr in Eclean as [-> Eclean].
  exists clean. unfold data_of. rewrite Hdata. split; [done|].
  eapply mapE_Forall; [|exact Eclean]. intros x y. apply convertProject_unkeyed.
Qed.

Lemma references_run s s' (refs : json * json * json) :
  all3 (then_ (getProjects this) data_of) (then_ (getCategories this) data_of)
       (then_ (getLabels this) data_of) s = (s', inr refs) ->
  exists projects categories labels,
    refs = (JArr projects, JArr categories, JArr labels) /\
    Forall unkeyed projects /\ Forall unkeyed categories /\ Forall unkeyed labels.
Proof.
  unfold all3. intros E.
  apply then_inr in E as ([p [c l]] & E & ->).
  apply all2_inr in E as (s1 & Ep & E). cbn [fst snd] in *.
  apply all2_inr in E as (s2 & Ec & El). cbn [fst snd] in *.
  apply then_inr in Ep as (rp & Ep & ->).
  apply then_inr in Ec as (rc & Ec & ->).
  apply then_inr in El as (rl & El & ->).
  apply getProjects_unkeyed in Ep as (ps & -> & Hps).
  apply getCategories_unkeyed in Ec as (cs & -> & Hcs).
  apply getLabels_unkeyed in El as (ls & -> & Hls).
  by exists ps, cs, ls.
Qed.

(** X13.  The reference listings hand out clean references, which have
    the member [id] and not [_id], and the conversion of a task looks its
    project, its category and its labels up by [_id].  So a task that
    [createTask] or a listing answers with keeps the identifier and the
    title the upstream gave it, and never names its project or its category;
    the entries of its [labels] carry no identifier, and there are none when
    the label identifiers of the upstream task are an array. *)
Theorem clean_tasks_resolve_nothing :
  (forall taskData s s' r,
      createTask this taskData s = (s', inr r) ->
      exists clean, data r = Some clean /\ unresolved clean) /\
  (forall cacheKey endpoint receiver message s s' r,
      task_listing this cacheKey endpoint receiver message s = (s', inr r) ->
      exists cleans, data r = Some (JArr cleans) /\ Forall unresolved cleans) /\
  (forall task d projects categories labels,
      Forall unkeyed projects -> Forall unkeyed categories -> Forall unkeyed labels ->
      convertTask task (JArr projects) (JArr categories) (JArr labels) = inr d ->
      unresolved d /\
      member d "id" = member task "_id" /\ member d "title" = member task "title" /\
      (forall xs, member task "labelIds" = Some (JArr xs) ->
                  member d "labels" = Some (JArr []))) /\
  (forall s s' r,
      getTasks this s = (s', inr r) \/ getDueItems this s = (s', inr r) ->
      exists cleans, data r = Some (JArr cleans) /\ Forall unresolved cleans).
Proof.
  assert (Hlisting : forall cacheKey endpoint receiver message s s' r,
    task_listing this cacheKey endpoint receiver message s = (s', inr r) ->
    exists cleans, data r = Some (JArr cleans) /\ Forall unresolved cleans).
  { intros cacheKey endpoint receiver message s s' r E. unfold task_listing in E.
    apply MarvinSpec.mbind_inr in E as (s1 & got & Egot & E).
    apply MarvinSpec.mbind_inr in E as (s2 & cleans & Ecleans & E).
    apply createResponse_data in E as (Hdata & _).
    exists cleans. split; [done|].
    unfold all4 in Egot. apply then_inr in Egot as ([tasks refs] & Egot & ->).
    apply all2_inr in Egot as (s0 & _ & Erefs). cbn [fst snd] in *.
    apply references_run in Erefs as (ps & cs & ls & -> & Hps & Hcs & Hls).
    apply lift_inr in Ecleans as [-> Ecleans]. cbn [fst snd] in Ecleans.
    unfold clean_tasks in Ecleans.
    destruct (as_array tasks receiver "map") as [e|items]; [done|].
    cbn [bind] in Ecleans. eapply mapE_Forall; [|exact Ecleans].
    intros task d Hd. by apply convertTask_unresolved in Hd as [Hd _]. }
  split; [|split; [exact Hlisting|split]].
  - intros taskData s s' r E. unfold createTask in E.
    apply MarvinSpec.mbind_inr in E as (s1 & payload & _ & E).
    apply MarvinSpec.mbind_inr in E as (s2 & newTask & _ & E).
    apply MarvinSpec.mbind_inr in E as (s3 & [] & _ & E).
    apply MarvinSpec.mbind_inr in E as (s4 & refs & Erefs & E).
    apply MarvinSpec.mbind_inr in E as (s5 & clean & Eclean & E).
    apply createResponse_data in E as (Hdata & _).
    exists clean. split; [done|].
    apply references_run in Erefs as (ps & cs & ls & -> & Hps & Hcs & Hls).
    apply lift_inr in Eclean as [-> Eclean]. cbn [fst snd] in Eclean.
    by apply convertTask_unresolved in Eclean as [Hd _].
  - intros task d projects categories labels. apply convertTask_unresolved.
  - intros s s' r [E|E]; eapply Hlisting; exact E.
Qed.

End Client.

End CleanSpec.

(* ===================================================================== *)
(** * Proofs: the cache in front of the upstream *)
(* ===================================================================== *)

Module CacheRoundTrip.

Import Http Marvin.

Section Client.

Context `{Runtime} {World : Type} `{Environment World}.

Local Abbreviation M := (@Marvin.M World).

(** The state in which [getCachedOrFetch] runs [fetchFn]. *)
Lemma getCachedOrFetch_miss (key : string) (fetchFn : M json) (ttl : Z) s :
  KV.get (Date_now (world s)) key (CACHE s) = None ->
  let s0 := {| world := world s; CACHE := CACHE s;
               journal := journal s ++ [KvGet key] |} in
  getCachedOrFetch key fetchFn ttl s
  = match fetchFn s0 with
    | (s1, inl e) => (s1, inl e)
    | (s1, inr data) =>
        ({| world := world s1;
            CACHE := KV.put (Date_now (world s1)) key data ttl (CACHE s1);
            journal := journal s1 ++ [KvPut key] |},
         inr data)
    end.
Proof.
  intros Hmiss s0. unfold getCachedOrFetch, mbind, cache_get. rewrite Hmiss.
  fold s0. by destruct (fetchFn s0) as [s1 [e|data]].
Qed.

(** X14.  The cache in front of the upstream.  On a miss the fetch runs;
    if it throws, nothing is stored and the error is the answer; if it
    answers, the answer is stored under the key for [ttl] seconds.  A second
    read of the key before that time is over is answered from the cache, with
    the same document and without running its fetch; once the time is over
    the entry is not served any more. *)
Theorem cache_round_trip (key : string) (fetchFn fetchFn' : M json) (ttl : Z) s :
  KV.get (Date_now (world s)) key (CACHE s) = None ->
  let s0 := {| world := world s; CACHE := CACHE s;
               journal := journal s ++ [KvGet key] |} in
  (forall e s1,
      getCachedOrFetch key fetchFn ttl s = (s1, inl e) ->
      fetchFn s0 = (s1, inl e)) /\
  (forall data s1,
      getCachedOrFetch key fetchFn ttl s = (s1, inr data) ->
      (exists s', fetchFn s0 = (s', inr data) /\ world s1 = world s') /\
      forall s2,
        CACHE s2 = CACHE s1 ->
        (KV.seconds (Date_now (world s2)) < KV.seconds (Date_now (world s1)) + ttl ->
         getCachedOrFetch key fetchFn' ttl s2
         = ({| world := world s2; CACHE := CACHE s2;
               journal := journal s2 ++ [KvGet key] |},
            inr data)) /\
        (KV.seconds (Date_now (world s1)) + ttl <= KV.seconds (Date_now (world s2)) ->
         KV.get (Date_now (world s2)) key (CACHE s2) = None)).
Proof.
  intros Hmiss s0. rewrite (getCachedOrFetch_miss key fetchFn ttl s Hmiss). fold s0.
  destruct (fetchFn s0) as [s' [e'|data']] eqn:Efetch.
  - split; [by intros e s1 [= <- <-]|]. by intros data s1 [= _ ?].
  - split; [by intros e s1 [= _ ?]|]. intros data s1 [= <- <-].
    split; [by exists s'|]. intros s2 Hcache. cbn [world CACHE] in *. split.
    + intros Hfresh. apply StaleSpec.getCachedOrFetch_hit.
      rewrite Hcache. by apply KVFacts.get_put_eq.
    + intros Hover. rewrite Hcache. by apply OAuthRegistration.get_put_expired.
Qed.

End Client.

End CacheRoundTrip.

(* ===================================================================== *)
(** * Proofs: the batch deletion *)
(* ===================================================================== *)

Module BatchDeleteSpec.

Import Http Marvin MarvinOps Batches.

Section Client.

Context `{Runtime} {World : Type} `{Environment World}.
Variable this : MarvinAPIClient.

Local Abbreviation M := (@Marvin.M World).

Lemma Promise_all_zip {A B C : Type} (f : A -> M B) (g : A -> M C)
    (h : A -> Error + B -> C) (xs : list A) s :
  (forall x s0, g x s0 = ((f x s0).1, inr (h x (f x s0).2))) ->
  Promise_all (map g xs) s = (after f xs s, inr (zip_with h xs (attempts f xs s))).
Proof.
  intros Hg. revert s. induction xs as [|x xs IH]; intros s; [done|].
  cbn [map Promise_all after attempts zip_with]. rewrite Hg, IH. reflexivity.
Qed.

Lemma delete_one_run (id : json) s :
  delete_one this id s
  = ((deleteTask this (Some id) s).1, inr (pushed id (deleteTask this (Some id) s).2)).
Proof.
  unfold delete_one, try_catch, mbind, ret.
  by destruct (deleteTask this (Some id) s) as [s' [e|r]].
Qed.

Lemma pushed_counts (ids : list json) (os : list (Error + StandardResponse)) :
  length ids = length os ->
  pushed_results (zip_with pushed ids os) = map succeeded os /\
  length (pushed_deleted (zip_with pushed ids os)) = successes os /\
  length (pushed_failed (zip_with pushed ids os)) = failures os.
Proof.
  revert os. induction ids as [|id ids IH]; intros [|o os] Hlen; try done.
  destruct (IH os) as (Hr & Hd & Hf); [by injection Hlen|].
  unfold successes, failures, pushed_results, pushed_deleted, pushed_failed in *.
  destruct o as [e|r]; cbn; rewrite Hr, Hd, Hf; done.
Qed.

Lemma pushed_failed_In (ids : list json) (os : list (Error + StandardResponse)) id e :
  In (id, inl e) (combine ids os) ->
  In (obj [("id", Some id); ("error", str (message e))])
     (pushed_failed (zip_with pushed ids os)).
Proof.
  revert os. induction ids as [|id' ids IH]; intros [|o os]; try done.
  cbn [combine In zip_with]. intros [[= -> ->]|Hin].
  - cbn. by left.
  - unfold pushed_failed. cbn [omap list_omap].
    destruct (pushed id' o); [by apply IH|right; by apply IH].
Qed.

Lemma deleteTask_not_configured (taskId : value) s :
  isCouchDBConfigured this = false ->
  deleteTask this taskId s = (s, inl not_configured).
Proof. intros Hc. unfold deleteTask. by rewrite Hc. Qed.

Lemma attempts_not_configured (ids : list json) s :
  isCouchDBConfigured this = false ->
  after (fun id => deleteTask this (Some id)) ids s = s /\
  Forall (fun o => o = inl not_configured)
         (attempts (fun id => deleteTask this (Some id)) ids s).
Proof.
  intros Hc. induction ids as [|id ids [IHs IHa]]; [done|].
  cbn [after attempts]. rewrite deleteTask_not_configured by done.
  split; [done|]. by constructor.
Qed.


End Client.

End BatchDeleteSpec.

(* ===================================================================== *)
(** * Proofs: the listing of projects *)
(* ===================================================================== *)

Module ProjectSpec.

Import Http Marvin Clean Projects.

Lemma filterE_filter {A : Type} (f : A -> Error + bool) (g : A -> bool) xs ys :
  (forall x b, f x = inr b -> b = g x) ->
  filterE f xs = inr ys -> ys = List.filter g xs.
Proof.
  intros Hf. revert ys. induction xs as [|x xs IH]; intros ys E; cbn in E.
  - by simplify_eq.
  - destruct (f x) as [e|keep] eqn:Ex; [done|]. cbn in E.
    destruct (filterE f xs) as [e|ys'] eqn:Eys; [done|]. cbn in E. simplify_eq.
    cbn. rewrite <- (Hf x keep Ex), <- (IH ys' eq_refl). done.
Qed.

Lemma findE_find {A : Type} (f : A -> Error + bool) (g : A -> bool) xs r :
  (forall x b, f x = inr b -> b = g x) ->
  findE f xs = inr r -> r = List.find g xs.
Proof.
  intros Hf. revert r. induction xs as [|x xs IH]; intros r E; cbn in E.
  - by simplify_eq.
  - destruct (f x) as [e|found] eqn:Ex; [done|]. cbn in E.
    cbn. rewrite <- (Hf x found Ex). destruct found; [by simplify_eq|auto].
Qed.

Lemma mapE_Forall2 {A B : Type} (f : A -> Error + B) (P : A -> B -> Prop) xs ys :
  (forall x y, In x xs -> f x = inr y -> P x y) -> mapE f xs = inr ys -> Forall2 P xs ys.
Proof.
  revert ys. induction xs as [|x xs IH]; intros ys Hf E; cbn in E.
  - simplify_eq. constructor.
  - destruct (f x) as [e|y] eqn:Ey; [done|]. cbn in E.
    destruct (mapE f xs) as [e|ys'] eqn:Eys; [done|]. cbn in E. simplify_eq.
    constructor; [apply Hf; [by left|done]|].
    apply IH; [|done]. intros x' y' Hin. apply Hf. by right.
Qed.

Section Client.

Context `{Runtime} {World : Type} `{Environment World}.
Variable this : MarvinAPIClient.

Lemma is_project_obj (cat : json) : is_project cat = true -> exists ms, cat = JObj ms.
Proof. destruct cat; try done. eauto. Qed.

Lemma convertProject_fields (projects : list json) (labels p c : json) :
  Forall (fun q => is_project q = true) projects ->
  convertProject p (JArr projects) labels = inr c ->
  member c "id" = member p "_id" /\
  member c "title" = member p "title" /\
  member c "description" = member p "description" /\
  member c "parent_project"
  = match parent_of projects p with
    | Some q => Some (obj [("id", member q "_id"); ("title", member q "title")])
    | None => None
    end.
Proof.
  intros Hprojects. unfold convertProject. intros E.
  destruct (prop p "parentId") as [e|parentId] eqn:Eparent; [done|]. cbn [bind] in E.
  assert (Hp : p <> JNull) by (by intros ->).
  rewrite prop_not_null in Eparent by done. injection Eparent as <-.
  destruct (find_by_id "allProjects" (member p "parentId") (JArr projects))
    as [e|parent] eqn:Efind; [done|]. cbn [bind] in E.
  rewrite prop_not_null in E by done. cbn [bind] in E.
  destruct (labels_of "project" (member p "labelIds") labels) as [e|ls]; [done|].
  cbn [bind] in E.
  destruct (reference parent) as [e|parent_ref] eqn:Eref; [done|]. cbn [bind] in E.
  injection E as <-.
  assert (Hparent : parent = parent_of projects p).
  { unfold find_by_id in Efind. unfold parent_of.
    destruct (truthy (member p "parentId")); [|by simplify_eq].
    cbn [as_array bind] in Efind.
    eapply findE_find; [|exact Efind].
    intros q b Hq. cbn beta in Hq.
    destruct (prop q "_id") as [e|q_id] eqn:Eq; [done|]. cbn [bind] in Hq.
    assert (q <> JNull) by (by intros ->). rewrite prop_not_null in Eq by done.
    by simplify_eq. }
  assert (Href : parent_ref
                 = match parent with
                   | Some q => Some (obj [("id", member q "_id"); ("title", member q "title")])
                   | None => None
                   end).
  { destruct parent as [q|]; [|by simplify_eq/=].
    assert (Hq : is_project q = true).
    { symmetry in Hparent. unfold parent_of in Hparent.
      destruct (truthy (member p "parentId")); [|done].
      apply find_some in Hparent as [Hin _].
      rewrite Forall_forall in Hprojects. by apply Hprojects, list_elem_of_In. }
    apply is_project_obj in Hq as [ms ->]. cbn in Eref. by simplify_eq. }
  rewrite Href, Hparent.
  rewrite !CleanSpec.member_obj_cons. cbn [String.eqb Ascii.eqb Bool.eqb].
  split; [|split; [|split]].
  - destruct (member p "_id"); [done|]. by apply CleanSpec.member_obj_absent.
  - destruct (member p "title"); [done|].
    destruct (member p "_id"); by apply CleanSpec.member_obj_absent.
  - destruct (member p "description"); [by repeat case_match|].
    repeat case_match; by apply CleanSpec.member_obj_absent.
  - destruct (parent_of projects p); [by repeat case_match|].
    repeat case_match; by apply CleanSpec.member_obj_absent.
Qed.

(** X16.  The listing of projects.  Of the categories served under
    [projects:all] it answers with those whose [type] is [project], one clean
    project for each and in their order: identifier, title and description
    are those of the category, and the parent project is the first project
    of the listing whose identifier is the [parentId], if there is one.  The
    item count and the message give their number. *)
Theorem getProjects_lists_projects (cats : list json) s s' r :
  KV.get (Date_now (world s)) "projects:all" (CACHE s) = Some (JArr cats) ->
  getProjects this s = (s', inr r) ->
  let projects := List.filter is_project cats in
  exists clean,
    data r = Some (JArr clean) /\
    item_count r = num (Z.of_nat (length projects)) /\
    summary_message r = "Found " +:+ pretty (Z.of_nat (length projects)) +:+ " projects" /\
    Forall2 (fun p c =>
               member c "id" = member p "_id" /\
               member c "title" = member p "title" /\
               member c "description" = member p "description" /\
               member c "parent_project"
               = match parent_of projects p with
                 | Some q =>
                     Some (obj [("id", member q "_id"); ("title", member q "title")])
                 | None => None
                 end)
            projects clean.
Proof.
  intros Hcached E projects. unfold getProjects in E.
  apply MarvinSpec.mbind_inr in E as (s1 & both & Eboth & E).
  apply MarvinSpec.mbind_inr in E as (s2 & kept & Ekept & E).
  apply MarvinSpec.mbind_inr in E as (s3 & clean & Eclean & E).
  apply CleanSpec.createResponse_data in E as (Hdata & Hmessage & Hcount).
  apply CleanSpec.all2_inr in Eboth as (s0 & Ecats & _).
  rewrite (StaleSpec.getCachedOrFetch_hit _ _ _ _ _ Hcached) in Ecats.
  injection Ecats as _ Ecats.
  apply CleanSpec.lift_inr in Ekept as [-> Ekept].
  apply CleanSpec.lift_inr in Eclean as [-> Eclean].
  rewrite <- Ecats in Ekept. cbn [as_array bind] in Ekept.
  assert (Hkept : kept = projects).
  { eapply filterE_filter; [|exact Ekept]. intros cat b Hb. cbn beta in Hb.
    destruct (prop cat "type") as [e|type] eqn:Etype; [done|]. cbn [bind] in Hb.
    assert (cat <> JNull) by (by intros ->). rewrite prop_not_null in Etype by done.
    unfold is_project. by simplify_eq. }
  subst kept.
  assert (Hall : Forall (fun q => is_project q = true) projects).
  { apply Forall_forall. intros q Hq. apply list_elem_of_In, filter_In in Hq. tauto. }
  assert (Hclean : Forall2 (fun p c =>
               member c "id" = member p "_id" /\
               member c "title" = member p "title" /\
               member c "description" = member p "description" /\
               member c "parent_project"
               = match parent_of projects p with
                 | Some q =>
                     Some (obj [("id", member q "_id"); ("title", member q "title")])
                 | None => None
                 end) projects clean).
  { eapply mapE_Forall2; [|exact Eclean]. intros p c _ Hc.
    exact (convertProject_fields projects _ p c Hall Hc). }
  exists clean. split; [done|].
  assert (Hlen : length clean = length projects)
    by (symmetry; eapply Forall2_length; exact Hclean).
  unfold len in Hcount, Hmessage. rewrite Hlen in Hcount, Hmessage. done.
Qed.

End Client.

End ProjectSpec.

(* ===================================================================== *)
(** * Proofs: the Operation Dispatcher *)
(* ===================================================================== *)

Module ToolSpec.

Import Http Marvin MarvinOps Couch Tools Worker.

Section Handler.

Context `{Runtime} {World : Type} `{Environment World}.

Local Abbreviation M := (@Marvin.M World).

Variable apiClient : MarvinAPIClient.
Variable getChildTasks : value -> value -> M json.
Variable getAllTasks : value -> M json.
Variable getGoals : M json.
Variable getTimeTracks : value -> value -> M json.
Variable createEvent : json -> M json.
Variable getDailyProductivityOverview : M json.
Variable createProjectWithTasks : json -> M json.
Variable quickDailyPlanning : M json.
Variable getDailyFocus : M json.
Variable getProductivitySummary : M json.
Variable getProductivitySummaryForTimeRange : value -> value -> M json.
Variable getProjectOverview : M json.

Local Abbreviation operation :=
  (operation apiClient getChildTasks getAllTasks getGoals getTimeTracks createEvent
     getDailyProductivityOverview createProjectWithTasks quickDailyPlanning
     getDailyFocus getProductivitySummary getProductivitySummaryForTimeRange
     getProjectOverview).

Local Abbreviation handleToolCall :=
  (handleToolCall apiClient getChildTasks getAllTasks getGoals getTimeTracks createEvent
     getDailyProductivityOverview createProjectWithTasks quickDailyPlanning
     getDailyFocus getProductivitySummary getProductivitySummaryForTimeRange
     getProjectOverview).

(** What the [catch] answers in a state. *)
Lemma caught_run (toolName : value) (error : Error) s :
  exists s' request_id,
    (await timestamp := isoNow in
     await request_id := uuidM in
     ret (failure toolName error timestamp request_id)) s
    = (s', inr (failure toolName error (toISOString (Date_now (world s))) request_id)) /\
    CACHE s' = CACHE s /\ journal s' = journal s.
Proof.
  unfold mbind, isoNow, uuidM, ret. destruct (randomUUID (world s)) as [w u].
  by eexists _, u.
Qed.

Lemma handleToolCall_run (toolName : value) (params : json) s :
  let run := match operation toolName params with
             | Some run => run
             | None => throw {| message := "Unknown tool: " +:+ String_of toolName |}
             end in
  exists s' d,
    handleToolCall toolName params s = (s', inr d) /\
    match run s with
    | (s1, inr answer) => s' = s1 /\ d = answer
    | (s1, inl error) =>
        CACHE s' = CACHE s1 /\ journal s' = journal s1 /\
        exists request_id,
          d = failure toolName error (toISOString (Date_now (world s1))) request_id
    end.
Proof.
  intros run. unfold Tools.handleToolCall, try_catch. fold run.
  destruct (run s) as [s1 [error|answer]]; [|by eexists _, _].
  destruct (caught_run toolName error s1) as (s' & request_id & -> & HC & HJ).
  eexists _, _. split; [done|]. split; [done|]. split; [done|]. by exists request_id.
Qed.


(** X18.  Catalog and dispatcher agree.  Each of the thirty-two names of
    the catalog is one of the two tools the worker answers itself or has a
    [case] in the dispatcher, and each [case] of the dispatcher is a name of
    the catalog: no tool is announced that would be answered
    [Unknown tool], and none is served that is not announced. *)
Theorem catalog_is_dispatched (params : json) :
  length MCP_TOOL_NAMES = 32%nat /\ NoDup MCP_TOOL_NAMES /\
  (forall name,
      In name MCP_TOOL_NAMES ->
      In name unauthenticatedTools \/ is_Some (operation (str name) params)) /\
  (forall toolName,
      is_Some (operation toolName params) ->
      exists name,
        toolName = str name /\ In name MCP_TOOL_NAMES /\ ~ In name unauthenticatedTools).
Proof.
  split; [reflexivity|]. split.
  { apply (bool_decide_unpack (NoDup MCP_TOOL_NAMES)). by vm_compute. }
  split.
  - intros name Hin. unfold MCP_TOOL_NAMES in Hin. cbn [In] in Hin.
    repeat (destruct Hin as [<-|Hin];
            [first [left; cbn; tauto | right; eexists; reflexivity]|]).
    done.
  - intros toolName [run Hrun]. unfold Tools.operation in Hrun. cbn zeta in Hrun.
    repeat match type of Hrun with
           | (if strict_eq toolName (str ?n) then _ else _) = _ =>
               let E := fresh "E" in
               destruct (strict_eq toolName (str n)) eqn:E;
               [apply WorkerSpec.strict_eq_str_inv in E; exists n;
                split; [exact E|]; split; [cbn; tauto|];
                by intros [|[|[]]]
               |]
           end.
    done.
Qed.

(** X20.  An upstream refusal, end to end.  When the labels are not
    cached and the upstream answers the request for them with a status that
    is not a success, the tool [get_labels] answers with the error envelope
    whose message gives the status and its text; nothing is cached. *)
Theorem upstream_refusal_is_reported (params : json) s w response :
  KV.get (Date_now (world s)) "labels:all" (CACHE s) = None ->
  fetch (AMAZING_MARVIN_BASE_URL +:+ "/labels")
    {| method := "GET";
       init_headers := [("X-API-Token", String_of (apiKey apiClient));
                        ("Content-Type", "application/json")];
       init_body := None |} (world s)
  = (w, inr response) ->
  ok response = false ->
  exists s' request_id,
    handleToolCall (str "get_labels") params s
    = (s',
       inr (failure (str "get_labels")
              {| message := "Marvin API error: " +:+ pretty (fetch_status response)
                            +:+ " " +:+ statusText response |}
              (toISOString (Date_now w)) request_id)) /\
    CACHE s' = CACHE s.
Proof.
  intros Hmiss Hfetch Hrefused.
  destruct (handleToolCall_run (str "get_labels") params s) as (s' & d & Hrun & Hd).
  cbn zeta in Hd.
  change (operation (str "get_labels") params) with (Some (answer (getLabels apiClient)))
    in Hd.
  assert (Hlabels :
    answer (getLabels apiClient) s
    = ({| world := w; CACHE := CACHE s; journal := journal s ++ [KvGet "labels:all"] |},
       inl {| message := "Marvin API error: " +:+ pretty (fetch_status response)
                         +:+ " " +:+ statusText response |})).
  { unfold answer, then_, getLabels. unfold mbind at 1 2.
    rewrite (CacheRoundTrip.getCachedOrFetch_miss _ _ _ _ Hmiss). cbn zeta.
    unfold makeRequest, mbind, fetchM. cbn [world CACHE journal app init_headers GET
                                             method init_body].
    rewrite Hfetch, Hrefused. reflexivity. }
  cbn match in Hd. rewrite Hlabels in Hd. destruct Hd as (HC & _ & request_id & ->).
  exists s', request_id. by split.
Qed.

End Handler.

End ToolSpec.

(* ===================================================================== *)
(** * Proofs: tool calls at the protocol endpoint *)
(* ===================================================================== *)

Module ToolCallSpec.

Import Http Marvin MarvinOps Couch Tools Worker.

Section Endpoint.

Context `{Runtime} {World : Type} `{Environment World}.

Local Abbreviation M := (@Marvin.M World).

Variable MCP_TOOLS : list json.
Variable getChildTasks : MarvinAPIClient -> value -> value -> M json.
Variable getAllTasks : MarvinAPIClient -> value -> M json.
Variable getGoals : MarvinAPIClient -> M json.
Variable getTimeTracks : MarvinAPIClient -> value -> value -> M json.
Variable createEvent : MarvinAPIClient -> json -> M json.
Variable getDailyProductivityOverview : MarvinAPIClient -> M json.
Variable createProjectWithTasks : MarvinAPIClient -> json -> M json.
Variable quickDailyPlanning : MarvinAPIClient -> M json.
Variable getDailyFocus : MarvinAPIClient -> M json.
Variable getProductivitySummary : MarvinAPIClient -> M json.
Variable getProductivitySummaryForTimeRange : MarvinAPIClient -> value -> value -> M json.
Variable getProjectOverview : MarvinAPIClient -> M json.

(** [new MCPToolHandler(apiClient).handleToolCall] *)
Local Abbreviation dispatcher :=
  (fun apiClient : MarvinAPIClient =>
     Tools.handleToolCall apiClient (getChildTasks apiClient) (getAllTasks apiClient)
       (getGoals apiClient) (getTimeTracks apiClient) (createEvent apiClient)
       (getDailyProductivityOverview apiClient) (createProjectWithTasks apiClient)
       (quickDailyPlanning apiClient) (getDailyFocus apiClient)
       (getProductivitySummary apiClient)
       (getProductivitySummaryForTimeRange apiClient) (getProjectOverview apiClient)).

Lemma test_tool_returns (name userInfo : value) env s :
  exists s' d, test_tool name userInfo env s = (s', inr (text_content d)).
Proof.
  unfold test_tool.
  destruct (strict_eq name (str "test_connection")); [by eexists _, _|].
  destruct (strict_eq name (str "marvin_test_connection")); [|by eexists _, _].
  unfold try_catch.
  match goal with |- context [mbind ?m ?k s] => destruct (mbind m k s) as [s1 [e|v]] eqn:E end.
  - by eexists _, _.
  - unfold mbind, lift, isoNow, ret in E.
    repeat case_match; simplify_eq; by eexists _, _.
Qed.

Lemma tools_call_returns (params : value) env s :
  truthy (opt_member params "name") = true ->
  exists s' d,
    tools_call dispatcher params hardcoded_userInfo env s = (s', inr (text_content d)).
Proof.
  intros Hname. unfold tools_call. rewrite Hname. cbn [negb].
  destruct (_ || _); [apply test_tool_returns|].
  assert (Hkey : prop_of hardcoded_userInfo "amazing_marvin_api_key"
                 = inr (str "7jRRMJUcqfAxQTFABtEMytsAf4I=")) by reflexivity.
  assert (Huser : truthy hardcoded_userInfo = true) by reflexivity.
  rewrite Huser. cbn [negb]. unfold mbind, lift. rewrite Hkey.
  match goal with
  | |- context [Tools.handleToolCall ?c ?a1 ?a2 ?a3 ?a4 ?a5 ?a6 ?a7 ?a8 ?a9 ?a10 ?a11 ?a12 ?n ?p s] =>
      destruct (ToolSpec.handleToolCall_run c a1 a2 a3 a4 a5 a6 a7 a8 a9 a10 a11 a12 n p s)
        as (s' & d & -> & _)
  end.
  by eexists _, _.
Qed.


End Endpoint.

End ToolCallSpec.

(* ===================================================================== *)
(** * Runs of the properties above *)
(* ===================================================================== *)

Module MoreRuns.

Import Http OAuth Marvin MarvinOps Worker Scenario Cases.

Local Ltac evaluate :=
  first [ vm_compute; reflexivity | vm_compute; discriminate ].

(** A run of [authorization_code_flow]: the code issued at [1001000] is
    exchanged one second later, and refused ten minutes later. *)
Lemma authorization_code_flow_witness :
  handleTokenExchange (H := rt) secret 1002000 "refresh-1" (Some form_pkce)
    authorized_s256
  = (KV.delete "auth_code:code-1"
       (KV.put 1002000 "refresh_token:refresh-1"
          (refresh_doc 1002000 (Some "client-1") (str "marvin-key")) (86400 * 30)
          authorized_s256),
     json_response (H := rt)
       (tokenResponse
          (generateJWT (H := rt) secret 1002000
             (access_claims 1002000 (Some "client-1") (str "marvin-key")))
          "refresh-1")
       200 content_json_cors) /\
  handleTokenExchange (H := rt) secret 1601000 "refresh-1" (Some form_pkce)
    authorized_s256
  = (authorized_s256,
     oauth_error (H := rt) "invalid_grant"
       (str "Authorization code expired or invalid") 400).
Proof.
  split.
  - destruct (KV.get 1002000 "client:client-1" registered) as [client|] eqn:Hclient;
      [|vm_compute in Hclient; discriminate Hclient].
    destruct (OAuthCodeFlow.authorization_code_flow (H := rt) secret probe_ok
                1001000 1002000 "code-1" "refresh-1" fields_s256 form_pkce registered
                client "client-1" "http://localhost/cb" "marvin-key" "abc")
      as [Hin _]; [evaluate..|exact Hclient|].
    apply Hin. vm_compute. reflexivity.
  - destruct (KV.get 1601000 "client:client-1" registered) as [client|] eqn:Hclient;
      [|vm_compute in Hclient; discriminate Hclient].
    destruct (OAuthCodeFlow.authorization_code_flow (H := rt) secret probe_ok
                1001000 1601000 "code-1" "refresh-1" fields_s256 form_pkce registered
                client "client-1" "http://localhost/cb" "marvin-key" "abc")
      as (_ & Hout & _); [evaluate..|exact Hclient|].
    apply Hout. vm_compute. discriminate.
Defined.

(** A run of [refresh_keeps_credential] on the store left by the first
    exchange. *)
Lemma refresh_keeps_credential_witness :
  let run := handleRefreshToken (H := rt) secret 1005000 "refresh-2"
               (Some "refresh-1") (Some "client-1") None exchanged in
  exists doc,
    KV.get 1005000 "refresh_token:refresh-1" exchanged = Some doc /\
    member doc "client_id" = str "client-1" /\
    (exists claims,
        run.2 = json_response (H := rt)
                  (tokenResponse (generateJWT (H := rt) secret 1005000 claims) "refresh-2")
                  200 content_json_cors /\
        member claims "sub" = member doc "client_id" /\
        member claims "amazing_marvin_api_key" = member doc "api_key") /\
    (exists doc',
        (forall now', KV.seconds now' < KV.seconds 1005000 + 86400 * 30 ->
                      KV.get now' "refresh_token:refresh-2" run.1 = Some doc') /\
        member doc' "client_id" = member doc "client_id" /\
        member doc' "api_key" = member doc "api_key").
Proof.
  intros run.
  destruct (KV.get 1005000 "refresh_token:refresh-1" exchanged) as [doc|] eqn:Hdoc;
    [|vm_compute in Hdoc; discriminate Hdoc].
  exists doc. split; [reflexivity|].
  destruct (OAuthRefresh.refresh_keeps_credential (H := rt) secret 1005000 "refresh-2"
              (Some "refresh-1") (Some "client-1") None exchanged run.1 run.2 doc
              (surjective_pairing run)) as (Hclient & Hclaims & Hstored & _);
    [evaluate| exact Hdoc | evaluate |].
  split; [exact Hclient|]. split; [exact Hclaims|]. exact Hstored.
Defined.

(** A run of [cache_round_trip]: after a first read of the labels a
    second one, whose fetch would throw, is answered from the cache. *)
Lemma cache_round_trip_witness :
  getCachedOrFetch (H0 := Sim.environment) "labels:all" not_run 600 labels_read
  = ({| world := world labels_read; CACHE := CACHE labels_read;
        journal := journal labels_read ++ [KvGet "labels:all"] |},
     inr (JArr [])).
Proof.
  destruct (CacheRoundTrip.cache_round_trip (H0 := Sim.environment) "labels:all"
              labels_request not_run 600 Runs.start) as [_ Hanswer];
    [evaluate|].
  destruct (Hanswer (JArr []) labels_read) as [_ Hsecond]; [evaluate|].
  apply (Hsecond labels_read eq_refl). vm_compute. reflexivity.
Defined.

(** A run of [getProjects_lists_projects]: of two projects and a category
    the two projects are listed, the second with the first as its parent. *)
Lemma getProjects_lists_projects_witness :
  exists s' r clean,
    getProjects (H := Runs.rt) (H0 := Sim.environment) Runs.client with_projects
    = (s', inr r) /\
    data r = Some (JArr clean) /\
    item_count r = num 2 /\
    summary_message r = "Found 2 projects" /\
    List.map (fun c => member c "parent_project") clean
    = [None; Some (obj [("id", str "p1"); ("title", str "Home")])].
Proof.
  destruct (getProjects (H := Runs.rt) (H0 := Sim.environment) Runs.client
              with_projects) as [s' [e|r]] eqn:E;
    [vm_compute in E; discriminate E|].
  destruct (ProjectSpec.getProjects_lists_projects (H := Runs.rt)
              (H0 := Sim.environment) Runs.client categories with_projects s' r)
    as (clean & Hdata & Hcount & Hmessage & Hall);
    [evaluate | exact E |].
  exists s', r, clean. split; [reflexivity|]. split; [exact Hdata|].
  split; [exact Hcount|]. split; [exact Hmessage|].
  cbn [List.filter Projects.is_project] in Hall.
  inversion Hall as [|p1 c1 ps cs (_ & _ & _ & H1) Hrest]; subst.
  inversion Hrest as [|p2 c2 ps' cs' (_ & _ & _ & H2) Hnil]; subst.
  inversion Hnil; subst. cbn [List.map]. rewrite H1, H2. reflexivity.
Defined.


(** A run of [upstream_refusal_is_reported] against an upstream that
    answers [401 Unauthorized]. *)
Lemma upstream_refusal_is_reported_witness :
  exists s' request_id,
    dispatcher (H := refusing) Runs.client (str "get_labels") (JObj []) Runs.start
    = (s',
       inr (Tools.failure (str "get_labels")
              {| message := "Marvin API error: 401 Unauthorized" |}
              "2026-11-02T00:00:00.124Z" request_id)) /\
    CACHE s' = ∅.
Proof.
  destruct (ToolSpec.upstream_refusal_is_reported (H := Runs.rt) (H0 := refusing)
              Runs.client
              (fun _ _ => throw {| message := "left out" |})
              (fun _ => throw {| message := "left out" |})
              (throw {| message := "left out" |})
              (fun _ _ => throw {| message := "left out" |})
              (fun _ => throw {| message := "left out" |})
              (throw {| message := "left out" |})
              (fun _ => throw {| message := "left out" |})
              (throw {| message := "left out" |})
              (throw {| message := "left out" |})
              (throw {| message := "left out" |})
              (fun _ _ => throw {| message := "left out" |})
              (throw {| message := "left out" |})
              (JObj []) Runs.start (Sim.tick (world Runs.start))
              {| ok := false; fetch_status := 401; statusText := "Unauthorized";
                 json_body := inr (JObj []) |})
    as (s' & request_id & Hrun & Hcache); [reflexivity..|].
  exists s', request_id. split; [exact Hrun | exact Hcache].
Defined.

End MoreRuns.
